(** * nvsmi: a shallow embedding of [nvsmi.py] and its specification

    The Python module parses the indented text report of [nvidia-smi -q]
    into nested records driven by class annotations, renders them as nested
    dictionaries and merges two of them.  This file embeds the functions of
    [nvsmi.py] one by one and states the properties of the specification
    about them.

    Conventions of the embedding.
    - A Python [str] is a [string] of characters with code points below
      256, a character being its code point; the classes of characters
      (white space, word characters, digits) are Python's on that range.
    - A Python [int] is a [Z]; a Python [float] is a binary64 value, a
      [spec_float] with precision 53 and maximal exponent 1024.
    - A call that may raise returns a [result]; [try ... except:] is
      [try_except].
    - A [dict] and the attribute dictionary of an object are association
      lists in insertion order, as Python iterates them.
    - The external command is not run: what it prints is an argument, and
      [run_cmd] is the value the function returns from it. *)

From Stdlib Require Import List String Ascii ZArith Bool Lia PeanoNat.
From Stdlib Require Import SpecFloat.
From Stdlib Require Decimal DecimalString DecimalPos DecimalN.
Import ListNotations.

Set Warnings "-register-all".

Local Open Scope string_scope.
Local Open Scope Z_scope.

(** ** Exceptions *)

Inductive exn : Type :=
| TypeError
| ValueError
| OverflowError
| AttributeError.

Inductive result (A : Type) : Type :=
| Ok (a : A)
| Raise (e : exn).

Arguments Ok {A} a.
Arguments Raise {A} e.

Definition bind {A B : Type} (c : result A) (f : A -> result B) : result B :=
  match c with
  | Ok a => f a
  | Raise e => Raise e
  end.

(** [try: c except: h] with a bare [except] clause. *)
Definition try_except {A : Type} (c : result A) (h : exn -> result A) : result A :=
  match c with
  | Ok a => Ok a
  | Raise e => h e
  end.

Declare Scope py_scope.
Delimit Scope py_scope with py.
Notation "x <- c ;; k" := (bind c (fun x => k))
  (at level 61, c at next level, right associativity) : py_scope.

(** ** The [str] methods the module calls *)

Module Str.

Definition code (c : ascii) : N := N_of_ascii c.

(** [str.isspace] on one character, which [str.strip()] and the regular
    expression class [\s] use: TAB..CR, FS..US, SPACE, NEL (133) and the
    no-break space (160). *)
Definition is_space (c : ascii) : bool :=
  let n := code c in
  ((9 <=? n) && (n <=? 13) || (28 <=? n) && (n <=? 32)
   || (n =? 133) || (n =? 160))%N.

Definition is_blank (c : ascii) : bool := Ascii.eqb c " ".

(** [\d] *)
Definition is_digit (c : ascii) : bool :=
  let n := code c in ((48 <=? n) && (n <=? 57))%N.

Definition is_alpha (c : ascii) : bool :=
  let n := code c in
  ((65 <=? n) && (n <=? 90) || (97 <=? n) && (n <=? 122))%N.

(** A character of an identifier: an ASCII letter, a digit or [_]. *)
Definition is_ident_char (c : ascii) : bool :=
  is_alpha c || is_digit c || Ascii.eqb c "_".

(** [\w] in a [str] pattern: the characters of identifiers and the letters
    and numbers above 127, which are 170, 178, 179, 181, 185, 186, 188..190,
    192..214, 216..246 and 248..255. *)
Definition is_word (c : ascii) : bool :=
  let n := code c in
  is_ident_char c
  || ((n =? 170) || (n =? 178) || (n =? 179) || (n =? 181) || (n =? 185)
      || (n =? 186) || (188 <=? n) && (n <=? 190) || (192 <=? n) && (n <=? 214)
      || (216 <=? n) && (n <=? 246) || (248 <=? n) && (n <=? 255))%N.

(** [s.lstrip(chars)] *)
Fixpoint lstrip (p : ascii -> bool) (s : string) : string :=
  match s with
  | EmptyString => EmptyString
  | String c s' => if p c then lstrip p s' else s
  end.

(** [s.rstrip(chars)] *)
Fixpoint rstrip (p : ascii -> bool) (s : string) : string :=
  match s with
  | EmptyString => EmptyString
  | String c s' =>
      match rstrip p s' with
      | EmptyString => if p c then EmptyString else String c EmptyString
      | r => String c r
      end
  end.

(** [s.strip()] *)
Definition strip (s : string) : string := rstrip is_space (lstrip is_space s).

Definition len (s : string) : Z := Z.of_nat (String.length s).

(** [s.find(c)] for a one-character [c]: the index of the first
    occurrence, [-1] when there is none. *)
Fixpoint find_from (c : ascii) (s : string) (i : Z) : Z :=
  match s with
  | EmptyString => -1
  | String d s' => if Ascii.eqb d c then i else find_from c s' (i + 1)
  end.

Definition find (c : ascii) (s : string) : Z := find_from c s 0.

Fixpoint drop (n : nat) (s : string) : string :=
  match n, s with
  | O, _ => s
  | S n', String _ s' => drop n' s'
  | S _, EmptyString => EmptyString
  end.

(** [s[i:]] for [0 <= i] *)
Definition slice_from (i : Z) (s : string) : string := drop (Z.to_nat i) s.

Fixpoint starts_with (t s : string) : bool :=
  match t, s with
  | EmptyString, _ => true
  | String a t', String b s' => Ascii.eqb a b && starts_with t' s'
  | String _ _, EmptyString => false
  end.

(** [t in s] *)
Fixpoint contains (t s : string) : bool :=
  starts_with t s ||
  match s with
  | EmptyString => false
  | String _ s' => contains t s'
  end.

(** [s.replace(old, new)] for one-character [old] and [new] *)
Fixpoint replace (old new : ascii) (s : string) : string :=
  match s with
  | EmptyString => EmptyString
  | String c s' =>
      String (if Ascii.eqb c old then new else c) (replace old new s')
  end.

End Str.

(** ** Text utilities *)

(** [lines_find_line]: the first line that contains [title], [''] when no
    line does. *)
Fixpoint lines_find_line (lines : list string) (title : string) : string :=
  match lines with
  | [] => ""
  | line :: rest =>
      if Str.contains title line then line else lines_find_line rest title
  end.

(** The lambda [count_leading_spaces] of [lines_find_section]. *)
Definition count_leading_spaces (line : string) : Z :=
  Str.len line - Str.len (Str.lstrip Str.is_blank line).

(** The [for] loop of [lines_find_section], with its three variables
    [found], [indent] and [section].  The header test comes first at every
    line; [continue] goes on with the next line, [break] returns. *)
Fixpoint section_loop (title : string) (lines : list string)
    (found : bool) (indent : Z) (section : list string) : list string :=
  match lines with
  | [] => section
  | line :: rest =>
      if String.eqb title (Str.strip line) then
        section_loop title rest true (count_leading_spaces line) (section ++ [line])
      else if found then
        if count_leading_spaces line >? indent then
          section_loop title rest found indent (section ++ [line])
        else section
      else section_loop title rest found indent section
  end.

Definition lines_find_section (lines : list string) (title : string) : list string :=
  section_loop title lines false (-1) [].

(** ** Floating-point values and [float(s)]

    A [float] is a binary64 number.  [of_str] follows the grammar of the
    built-in [float]: surrounding white space is dropped (the six ASCII
    characters of [Py_ISSPACE] and the two above 127), an underscore may
    stand between two digits, then an optional sign and either ["inf"],
    ["infinity"], ["nan"] in any case or a decimal number with an optional
    exponent.  The decimal value is rounded to nearest, ties to even. *)

Module Float.

Definition prec : Z := 53.
Definition emax : Z := 1024.

(** [Py_ISSPACE] *)
Definition is_c_space (c : ascii) : bool :=
  let n := Str.code c in ((9 <=? n) && (n <=? 13) || (n =? 32))%N.

(** [float] and [int] first turn the white space above 127 into spaces. *)
Definition space_to_ascii (c : ascii) : ascii :=
  let n := Str.code c in
  if ((n =? 133) || (n =? 160))%N then " "%char else c.

Fixpoint spaces_to_ascii (s : string) : string :=
  match s with
  | EmptyString => EmptyString
  | String c s' => String (space_to_ascii c) (spaces_to_ascii s')
  end.

(** The text between the white space around it. *)
Definition stripped (s : string) : string :=
  Str.rstrip is_c_space (Str.lstrip is_c_space (spaces_to_ascii s)).

(** The scan that removes underscores: one is allowed only after a digit
    and before a digit. *)
Fixpoint drop_underscores (prev : ascii) (s : string) : option string :=
  match s with
  | EmptyString => if Ascii.eqb prev "_" then None else Some EmptyString
  | String c s' =>
      if Ascii.eqb c "_" then
        if Str.is_digit prev then drop_underscores c s' else None
      else if Ascii.eqb prev "_" && negb (Str.is_digit c) then None
      else option_map (String c) (drop_underscores c s')
  end.

Definition lower (c : ascii) : ascii :=
  let n := Str.code c in
  if ((65 <=? n) && (n <=? 90))%N then ascii_of_N (n + 32) else c.

Fixpoint lowercase (s : string) : string :=
  match s with
  | EmptyString => EmptyString
  | String c s' => String (lower c) (lowercase s')
  end.

Definition digit_value (c : ascii) : Z := Z.of_N (Str.code c) - 48.

(** A run of decimal digits: its value on top of [acc], how many digits
    were read, and what follows. *)
Fixpoint digits (s : string) (acc : Z) (n : Z) : Z * Z * string :=
  match s with
  | String c s' =>
      if Str.is_digit c then digits s' (10 * acc + digit_value c) (n + 1)
      else (acc, n, s)
  | EmptyString => (acc, n, s)
  end.

(** An optional sign: [true] for ["-"]. *)
Definition sign (s : string) : bool * string :=
  match s with
  | String "-" s' => (true, s')
  | String "+" s' => (false, s')
  | _ => (false, s)
  end.

(** The binary64 number nearest to [(-1)^neg * m * 10^k]. *)
Definition of_decimal (neg : bool) (m k : Z) : spec_float :=
  match m with
  | Zpos p =>
      if k =? 0 then binary_round prec emax neg p 0
      else if 0 <? k then
        binary_round prec emax neg (p * Pos.pow 10 (Z.to_pos k)) 0
      else
        SFdiv prec emax
          (S754_finite neg p 0)
          (S754_finite false (Pos.pow 10 (Z.to_pos (- k))) 0)
  | _ => S754_zero neg
  end.

(** The exponent part, [None] when [s] is not one. *)
Definition exponent (s : string) : option Z :=
  match s with
  | EmptyString => Some 0
  | String c s' =>
      if Ascii.eqb (lower c) "e" then
        let '(neg, s1) := sign s' in
        let '(e, n, rest) := digits s1 0 0 in
        if (0 <? n) && String.eqb rest "" then Some (if neg then - e else e)
        else None
      else None
  end.

(** A decimal number [digits [. digits] [exponent]] with at least one
    digit before the exponent. *)
Definition number (neg : bool) (s : string) : option spec_float :=
  let '(ip, ni, s1) := digits s 0 0 in
  let '(m, nf, s2) :=
    match s1 with
    | String "." s1' => digits s1' ip 0
    | _ => (ip, 0, s1)
    end in
  if 0 <? ni + nf then
    match exponent s2 with
    | Some e => Some (of_decimal neg m (e - nf))
    | None => None
    end
  else None.

(** [float(s)] for a string [s]; [ValueError] when [s] is not a number. *)
Definition of_str (s : string) : result spec_float :=
  match drop_underscores zero (stripped s) with
  | None => Raise ValueError
  | Some u =>
      let '(neg, body) := sign u in
      let l := lowercase body in
      if String.eqb l "inf" || String.eqb l "infinity" then Ok (S754_infinity neg)
      else if String.eqb l "nan" then Ok S754_nan
      else
        match number neg body with
        | Some f => Ok f
        | None => Raise ValueError
        end
  end.

(** [int(f)]: truncation towards zero; it raises on an infinity
    ([OverflowError]) and on a NaN ([ValueError]). *)
Definition to_int (f : spec_float) : result Z :=
  match f with
  | S754_zero _ => Ok 0
  | S754_infinity _ => Raise OverflowError
  | S754_nan => Raise ValueError
  | S754_finite s m e =>
      let a := Z.shiftl (Zpos m) e in Ok (if s then - a else a)
  end.

(** [f == i] for a float and an integer: Python compares the two values
    exactly. *)
Definition eq_int (f : spec_float) (i : Z) : bool :=
  match f with
  | S754_zero _ => i =? 0
  | S754_finite s m e =>
      let a := Z.shiftl (Zpos m) e in
      (Z.shiftl a (- e) =? Zpos m) && ((if s then - a else a) =? i)
  | _ => false
  end.

Definition is_finite (f : spec_float) : bool :=
  match f with
  | S754_zero _ | S754_finite _ _ _ => true
  | _ => false
  end.

End Float.

(** ** Regular expressions

    The two patterns of the module are built from single characters,
    character classes, a greedy [+] on a class, concatenation and capturing
    groups.  [rmatch] tries the alternatives in the order of the
    backtracking matcher of [re]: a [+] takes as many characters as it can
    and gives them back one at a time. *)

Module Re.

Inductive regex : Type :=
| Class (p : ascii -> bool)
| Plus (p : ascii -> bool)
| Seq (r1 r2 : regex)
| Group (r : regex).

Definition Lit (c : ascii) : regex := Class (Ascii.eqb c).

Fixpoint Lits (s : string) (r : regex) : regex :=
  match s with
  | EmptyString => r
  | String c s' => Seq (Lit c) (Lits s' r)
  end.

(** A match object: [group(0)] and [groups()]. *)
Record match_object : Type := {
  group0 : string;
  groups : list string
}.

Fixpoint take (n : nat) (s : string) : string :=
  match n, s with
  | S n', String c s' => String c (take n' s')
  | _, _ => EmptyString
  end.

(** The text between the start [s] of a match and what is left, [rest]. *)
Definition consumed (s rest : string) : string :=
  take (String.length s - String.length rest) s.

Section Matcher.
Context {A : Type}.

Fixpoint plus_greedy (p : ascii -> bool) (s : string)
    (k : string -> option A) : option A :=
  match s with
  | String c s' =>
      if p c then
        match plus_greedy p s' k with
        | Some a => Some a
        | None => k s'
        end
      else None
  | EmptyString => None
  end.

Fixpoint rmatch (r : regex) (s : string) (caps : list string)
    (k : string -> list string -> option A) : option A :=
  match r with
  | Class p =>
      match s with
      | String c s' => if p c then k s' caps else None
      | EmptyString => None
      end
  | Plus p => plus_greedy p s (fun rest => k rest caps)
  | Seq r1 r2 => rmatch r1 s caps (fun s1 c1 => rmatch r2 s1 c1 k)
  | Group r1 =>
      rmatch r1 s caps (fun s1 c1 => k s1 (c1 ++ [consumed s s1])%list)
  end.
End Matcher.

(** A match that starts at the first character of [s]. *)
Definition match_here (r : regex) (s : string) : option match_object :=
  rmatch r s []
    (fun rest caps => Some {| group0 := consumed s rest; groups := caps |}).

(** [re.search]: the first start position with a match. *)
Fixpoint search (r : regex) (s : string) : option match_object :=
  match match_here r s with
  | Some m => Some m
  | None =>
      match s with
      | String _ s' => search r s'
      | EmptyString => None
      end
  end.

End Re.

Import Re.

(** [r'[\d\.]+'] *)
Definition is_numeric_char (c : ascii) : bool := Str.is_digit c || Ascii.eqb c ".".
Definition NUMERIC_PART : regex := Plus is_numeric_char.

(** [r'GPU\s+(\d+):\s+([^(]+)\s+\(UUID:\s+([\w\-]+)\)'] *)
Definition REGEX_GPU_ENTRY : regex :=
  Lits "GPU"
    (Seq (Plus Str.is_space)
    (Seq (Group (Plus Str.is_digit))
    (Seq (Lit ":")
    (Seq (Plus Str.is_space)
    (Seq (Group (Plus (fun c => negb (Ascii.eqb c "("))))
    (Seq (Plus Str.is_space)
    (Lits "(UUID:"
    (Seq (Plus Str.is_space)
    (Seq (Group (Plus (fun c => Str.is_word c || Ascii.eqb c "-")))
    (Lit ")")))))))))).

(** [regex_find] *)
Definition regex_find (template : string) (pattern : regex) : string :=
  match search pattern template with
  | None => ""
  | Some m => group0 m
  end.

(** ** Values, classes and objects *)

(** The type of a field in the annotations of a class: [str], [int],
    [float], a [Union] of [Literal]s, or a nested class, a subclass of
    [IOMixin] with its own annotations. *)
Inductive vtype : Type :=
| TStr
| TInt
| TFloat
| TLiteral (allowed : list string)
| TClass (annotations : list (string * vtype)).

(** A value: [None], a string, a number, or an object with the annotations
    of its class and its attribute dictionary [vars(obj)]. *)
Inductive pyval : Type :=
| PNone
| PStr (s : string)
| PInt (z : Z)
| PFloat (f : spec_float)
| PObj (cls : list (string * vtype)) (attrs : list (string * pyval)).

(** A rendered value: what [to_dict] stores under a title. *)
Inductive rendered : Type :=
| RVal (v : pyval)
| RDict (items : list (string * rendered)).

(** Dictionaries in insertion order. *)
Section Dict.
Context {V : Type}.

Fixpoint lookup (d : list (string * V)) (k : string) : option V :=
  match d with
  | [] => None
  | (k', v) :: d' => if String.eqb k' k then Some v else lookup d' k
  end.

Definition has_key (d : list (string * V)) (k : string) : bool :=
  match lookup d k with Some _ => true | None => false end.

(** [d[k] = v]: a present key keeps its place. *)
Fixpoint store (d : list (string * V)) (k : string) (v : V) : list (string * V) :=
  match d with
  | [] => [(k, v)]
  | (k', v') :: d' =>
      if String.eqb k' k then (k, v) :: d' else (k', v') :: store d' k v
  end.
End Dict.

(** [str_to_num] *)
Definition str_to_num (s : string) : result pyval :=
  try_except
    (fval <- Float.of_str s ;;
     ival <- Float.to_int fval ;;
     Ok (if Float.eq_int fval ival then PInt ival else PFloat fval))%py
    (fun _ => Ok (PInt (-1))).

(** [vtype in (int, float)] *)
Definition is_numeric (vtype : vtype) : bool :=
  match vtype with
  | TInt | TFloat => true
  | _ => false
  end.

(** [type(vtype) == T_type and issubclass(vtype, IOMixin)] *)
Definition is_class (vtype : vtype) : bool :=
  match vtype with
  | TClass _ => true
  | _ => false
  end.

(** [name.replace('_', ' ')] *)
Definition title_of (name : string) : string := Str.replace "_" " " name.

(** [IMixin.from_line] *)
Definition from_line (vtype : vtype) (line : string) : result pyval :=
  let p := Str.find ":" line in
  if p <? 0 then Ok (PStr "N/A")
  else
    let val_s := Str.strip (Str.slice_from (p + 1) line) in
    if is_numeric vtype then str_to_num (regex_find val_s NUMERIC_PART)
    else Ok (PStr val_s).

(** What [setattr(obj, name, value)] raises on an object of a class of the
    module, whatever the value: [__class__] takes a class only and
    [__dict__] a dictionary ([TypeError]), [__weakref__] cannot be written
    ([AttributeError]); any other name is set. *)
Definition setattr_error (name : string) : option exn :=
  if String.eqb name "__class__" || String.eqb name "__dict__" then Some TypeError
  else if String.eqb name "__weakref__" then Some AttributeError
  else None.

(** [IMixin.from_lines], called on the class [cls]: the loop over the
    annotations fills the attributes of a fresh object.  A class that
    declares no annotated field has no [__annotations__], and reading it
    raises [AttributeError]; [obj[name] = value] is [setattr]. *)
Fixpoint from_lines (cls : vtype) (lines : list string) {struct cls} : result pyval :=
  match cls with
  | TClass annotations =>
      match annotations with
      | [] => Raise AttributeError
      | _ :: _ =>
          (attrs <-
             (fix fields (l : list (string * vtype)) (obj : list (string * pyval))
                  {struct l} : result (list (string * pyval)) :=
                match l with
                | [] => Ok obj
                | (name, vtype) :: rest =>
                    let title := title_of name in
                    value <-
                      match vtype with
                      | TClass _ => from_lines vtype (lines_find_section lines title)
                      | _ => from_line vtype (lines_find_line lines title)
                      end ;;
                    match setattr_error name with
                    | Some e => Raise e
                    | None => fields rest (store obj name value)
                    end
                end) annotations [] ;;
           Ok (PObj annotations attrs))%py
      end
  | _ => Raise AttributeError
  end.

(** [value == 'N/A'] *)
Definition is_NA (value : pyval) : bool :=
  match value with
  | PStr s => String.eqb s "N/A"
  | _ => false
  end.

(** [self[name]], that is [getattr(self, name, None)] *)
Definition getitem (attrs : list (string * pyval)) (name : string) : pyval :=
  match lookup attrs name with
  | Some v => v
  | None => PNone
  end.

(** The loop of [OMixin.to_dict] over the annotations; [sub] holds, for each
    attribute, what [to_dict] gives on its value. *)
Fixpoint to_dict_loop (sub : list (string * result (list (string * rendered))))
    (attrs : list (string * pyval)) (l : list (string * vtype))
    (data : list (string * rendered)) : result (list (string * rendered)) :=
  match l with
  | [] => Ok data
  | (name, vtype) :: rest =>
      if has_key data name then to_dict_loop sub attrs rest data
      else
        let value := getitem attrs name in
        if is_NA value then to_dict_loop sub attrs rest data
        else
          let title := title_of name in
          if is_class vtype then
            (d <- match lookup sub name with
                  | Some r => r
                  | None => Raise AttributeError
                  end ;;
             to_dict_loop sub attrs rest (store data title (RDict d)))%py
          else to_dict_loop sub attrs rest (store data title (RVal value))
  end.

(** What stops [self.to_dict()] on an object before its loop.  An
    attribute named [to_dict] hides the method, and calling its value raises
    [TypeError].  An attribute named [__annotations__] hides the annotations
    of the class: its value has no method [items] ([AttributeError]), or has
    an attribute of that name that cannot be called ([TypeError]).  A class
    without annotated fields has no [__annotations__] at all
    ([AttributeError]). *)
Definition to_dict_guard (cls : list (string * vtype)) (attrs : list (string * pyval))
    : option exn :=
  if has_key attrs "to_dict" then Some TypeError
  else
    match lookup attrs "__annotations__" with
    | Some (PObj _ a) => if has_key a "items" then Some TypeError else Some AttributeError
    | Some _ => Some AttributeError
    | None =>
        match cls with
        | [] => Some AttributeError
        | _ :: _ => None
        end
    end.

(** [OMixin.to_dict]; a value without the method raises [AttributeError]. *)
Fixpoint to_dict (self : pyval) : result (list (string * rendered)) :=
  match self with
  | PObj cls attrs =>
      match to_dict_guard cls attrs with
      | Some e => Raise e
      | None =>
          to_dict_loop
            ((fix each (l : list (string * pyval)) :=
                match l with
                | [] => []
                | (n, v) :: l' => (n, to_dict v) :: each l'
                end) attrs)
            attrs cls []
      end
  | _ => Raise AttributeError
  end.

(** ** Merging *)

(** [deepcopy]: values are trees, a copy is the value itself. *)
Definition deepcopy (v : pyval) : pyval := v.

(** [name in obj]: [hasattr] on an object ([DMixin.__contains__]), for a
    [name] that is not an attribute of the class of the object, as the
    names of the fields of a schema are: the attribute is there when
    [vars(obj)] has it.  On a string it is a substring test; a number and
    [None] raise [TypeError]. *)
Definition py_contains (obj : pyval) (name : string) : result bool :=
  match obj with
  | PObj _ attrs => Ok (has_key attrs name)
  | PStr s => Ok (Str.contains name s)
  | _ => Raise TypeError
  end.

(** [obj[name]], for such a name *)
Definition py_getitem (obj : pyval) (name : string) : result pyval :=
  match obj with
  | PObj _ attrs => Ok (getitem attrs name)
  | _ => Raise TypeError
  end.

(** [obj[name] = value], for such a name *)
Definition py_setitem (obj : pyval) (name : string) (value : pyval) : result pyval :=
  match obj with
  | PObj cls attrs => Ok (PObj cls (store attrs name value))
  | _ => Raise TypeError
  end.

(** [merge_object_attrs(objA, objB)].  [objA] is updated in place: the
    result is the state of [objA] when the call ends, with [Ok tt] when it
    returned and [Raise e] when it raised [e] on the way.  [vars(objB)]
    raises [TypeError] when [objB] is not an object; [objB] and the objects
    below it are objects of the schema classes, as the module passes them:
    [vars] gives their attribute dictionary, under names that are not
    attributes of a class. *)
Fixpoint merge_object_attrs (objA objB : pyval) {struct objB} : pyval * result unit :=
  match objB with
  | PObj _ attrsB =>
      (fix loop (items : list (string * pyval)) (objA : pyval) {struct items}
           : pyval * result unit :=
         match items with
         | [] => (objA, Ok tt)
         | (name, value) :: rest =>
             match py_contains objA name with
             | Raise e => (objA, Raise e)
             | Ok false =>
                 match py_setitem objA name (deepcopy value) with
                 | Raise e => (objA, Raise e)
                 | Ok objA' => loop rest objA'
                 end
             | Ok true =>
                 match py_getitem objA name with
                 | Raise e => (objA, Raise e)
                 | Ok sub =>
                     let '(sub', r) := merge_object_attrs sub (deepcopy value) in
                     let objA' :=
                       match objA with
                       | PObj cls attrs => PObj cls (store attrs name sub')
                       | _ => objA
                       end in
                     match r with
                     | Raise e => (objA', Raise e)
                     | Ok _ => loop rest objA'
                     end
                 end
             end
         end) attrsB objA
  | _ => (objA, Raise TypeError)
  end.

(** ** Device listing *)

(** [NVSMI_Entry] *)
Record NVSMI_Entry : Type := {
  device_id : Z;
  model : string;
  uuid : string
}.

(** [sys.int_info.default_max_str_digits] *)
Definition max_str_digits : Z := 4300.

(** [int(s)] for a string of decimal digits with an optional sign;
    [ValueError] otherwise, and also when there are more than
    [max_str_digits] digits.  The integers are unbounded. *)
Definition int_of_str (s : string) : result Z :=
  match Float.drop_underscores zero (Float.stripped s) with
  | None => Raise ValueError
  | Some u =>
      let '(neg, body) := Float.sign u in
      let '(v, n, rest) := Float.digits body 0 0 in
      if (0 <? n) && String.eqb rest "" then
        if max_str_digits <? n then Raise ValueError
        else Ok (if neg then - v else v)
      else Raise ValueError
  end.

(** The loop of [NVSMI.list_gpus] over the lines of [nvidia-smi -L]. *)
Fixpoint list_gpus_loop (lines : list string) (gpu_list : list NVSMI_Entry)
    : result (list NVSMI_Entry) :=
  match lines with
  | [] => Ok gpu_list
  | line :: rest =>
      match search REGEX_GPU_ENTRY line with
      | None => list_gpus_loop rest gpu_list
      | Some m =>
          match groups m with
          | [id_s; model_s; uuid_s] =>
              (id <- int_of_str id_s ;;
               list_gpus_loop rest
                 (gpu_list ++ [{| device_id := id; model := model_s; uuid := uuid_s |}])%list)%py
          | _ => Raise ValueError
          end
      end
  end.

Definition list_gpus (lines : list string) : result (list NVSMI_Entry) :=
  list_gpus_loop lines [].

(** ** Well-formed classes and the shape of built objects *)

(** Every character of [s] is in the class [p]. *)
Fixpoint all_chars (p : ascii -> bool) (s : string) : bool :=
  match s with
  | EmptyString => true
  | String c s' => p c && all_chars p s'
  end.

(** A field name is a Python identifier: letters, digits and underscores,
    not starting with a digit. *)
Definition is_identifier (name : string) : bool :=
  match name with
  | EmptyString => false
  | String c _ => negb (Str.is_digit c) && all_chars Str.is_ident_char name
  end.

Fixpoint distinct (names : list string) : bool :=
  match names with
  | [] => true
  | n :: rest => negb (existsb (String.eqb n) rest) && distinct rest
  end.

(** The annotations of a class are a dictionary keyed by identifiers, at
    every level of nesting. *)
Fixpoint wf_class (vtype : vtype) : bool :=
  match vtype with
  | TClass annotations =>
      distinct (map fst annotations)
      && forallb (fun f => is_identifier (fst f)) annotations
      && forallb (fun f => wf_class (snd f)) annotations
  | _ => true
  end.

(** The names that are attributes of every object of the module, whatever
    fields its class declares: what [object] and the mixins define (names
    that start with two underscores, and the methods [to_dict], [from_line]
    and [from_lines]), the members of [NVSMI] ([brief], [list_gpus],
    [query_gpu]), and the nested classes, which the module names
    [NVSMI_...]. *)
Definition is_class_attribute (name : string) : bool :=
  Str.starts_with "__" name
  || existsb (String.eqb name)
       ["to_dict"; "from_line"; "from_lines"; "brief"; "list_gpus"; "query_gpu"]
  || Str.starts_with "NVSMI_" name.

(** The name of a field of a schema: an identifier under which the class
    has no attribute of its own, so that [hasattr], [getattr] and [setattr]
    are the membership, the lookup and the store in [vars(obj)]. *)
Definition is_field_name (name : string) : bool :=
  is_identifier name && negb (is_class_attribute name).

(** A schema: a class that declares at least one field, under distinct
    field names, with schemas for its nested classes. *)
Fixpoint wf_schema (vtype : vtype) : bool :=
  match vtype with
  | TClass annotations =>
      match annotations with [] => false | _ :: _ => true end
      && distinct (map fst annotations)
      && forallb (fun f => is_field_name (fst f)) annotations
      && forallb (fun f => wf_schema (snd f)) annotations
  | _ => true
  end.

Definition is_leaf (v : pyval) : bool :=
  match v with
  | PStr _ | PInt _ | PFloat _ => true
  | _ => false
  end.

(** [shaped vtype v]: [v] is a value for a field of type [vtype]; an object
    of a class has an attribute for every annotation, shaped in turn. *)
Fixpoint shaped (vtype : vtype) (v : pyval) : bool :=
  match vtype with
  | TClass annotations =>
      match v with
      | PObj _ attrs =>
          forallb
            (fun f =>
               match lookup attrs (fst f) with
               | Some v' => shaped (snd f) v'
               | None => false
               end)
            annotations
      | _ => false
      end
  | _ => is_leaf v
  end.

(** Every leaf below [v] is the string ['N/A']. *)
Fixpoint all_NA (v : pyval) : bool :=
  match v with
  | PStr s => String.eqb s "N/A"
  | PObj _ attrs => forallb (fun a => all_NA (snd a)) attrs
  | _ => false
  end.

(** A line is a header of the section [title]. *)
Definition is_header (title line : string) : bool :=
  String.eqb title (Str.strip line).

(** A line of the body of a section: deeper than [indent], and not a
    header. *)
Definition body_line (title : string) (indent : Z) (line : string) : bool :=
  negb (is_header title line) && (count_leading_spaces line >? indent).

(** What ends a section: the end of the input, or a line that is neither
    deeper than the header nor a header itself. *)
Definition ends_section (title : string) (indent : Z) (rest : list string) : bool :=
  match rest with
  | [] => true
  | line :: _ =>
      negb (is_header title line) && negb (count_leading_spaces line >? indent)
  end.

(** A line matches the pattern of a device entry. *)
Definition is_gpu_entry (line : string) : bool :=
  match search REGEX_GPU_ENTRY line with
  | Some _ => true
  | None => false
  end.

(** A line matches the pattern with a number of more digits than [int]
    reads. *)
Definition long_id (line : string) : bool :=
  match search REGEX_GPU_ENTRY line with
  | Some m =>
      match groups m with
      | id_s :: _ => max_str_digits <? Str.len id_s
      | [] => false
      end
  | None => false
  end.

(** ** The value of a float, for the specification

    A finite float [(-1)^s * m * 2^e] is the fraction [num / den]. *)

Definition float_num (f : spec_float) : Z :=
  match f with
  | S754_finite s m e => (if s then -1 else 1) * (Zpos m * 2 ^ Z.max e 0)
  | _ => 0
  end.

Definition float_den (f : spec_float) : Z :=
  match f with
  | S754_finite _ _ e => 2 ^ Z.max (- e) 0
  | _ => 1
  end.

(** The integer truncation of the value, towards zero. *)
Definition truncation (f : spec_float) : Z := Z.quot (float_num f) (float_den f).

(** The value equals its truncation. *)
Definition is_integral (f : spec_float) : bool :=
  float_num f =? truncation f * float_den f.

(** [coerceNumber] in the words of the specification: an integer when the
    parsed value equals its truncation, a float otherwise, [-1] when the
    text does not parse. *)
Definition coerceNumber_spec (text : string) : pyval :=
  match Float.of_str text with
  | Raise _ => PInt (-1)
  | Ok f =>
      if Float.is_finite f && is_integral f then PInt (truncation f)
      else PFloat f
  end.

(** ** The loops of [from_lines] and [to_dict], one field at a time *)

(** The value [from_lines] stores for one field. *)
Definition field_value (lines : list string) (name : string) (vtype : vtype)
    : result pyval :=
  match vtype with
  | TClass _ => from_lines vtype (lines_find_section lines (title_of name))
  | _ => from_line vtype (lines_find_line lines (title_of name))
  end.

(** The loop of [from_lines] over the annotations [l], from the attributes
    [obj] set so far. *)
Fixpoint fields_loop (lines : list string) (l : list (string * vtype))
    (obj : list (string * pyval)) : result (list (string * pyval)) :=
  match l with
  | [] => Ok obj
  | (name, vtype) :: rest =>
      (value <- field_value lines name vtype ;;
       match setattr_error name with
       | Some e => Raise e
       | None => fields_loop lines rest (store obj name value)
       end)%py
  end.

(** The loop of [to_dict] over the annotations [l], from the mapping [data]
    filled so far. *)
Fixpoint render_loop (attrs : list (string * pyval)) (l : list (string * vtype))
    (data : list (string * rendered)) : result (list (string * rendered)) :=
  match l with
  | [] => Ok data
  | (name, vtype) :: rest =>
      if has_key data name then render_loop attrs rest data
      else
        let value := getitem attrs name in
        if is_NA value then render_loop attrs rest data
        else
          let title := title_of name in
          if is_class vtype then
            (d <- to_dict value ;;
             render_loop attrs rest (store data title (RDict d)))%py
          else render_loop attrs rest (store data title (RVal value))
  end.

(** What [to_dict] leaves under the title of a field of type [vtype] and
    value [value]: nothing for ['N/A'], the rendered object for a class,
    the value itself otherwise. *)
Definition render_field (vtype : vtype) (value : pyval) : result (option rendered) :=
  if is_NA value then Ok None
  else if is_class vtype then (d <- to_dict value ;; Ok (Some (RDict d)))%py
  else Ok (Some (RVal value)).

Definition no_space (s : string) : bool :=
  all_chars (fun c => negb (Ascii.eqb c " ")) s.

(** The loop of [merge_object_attrs] over the items of [vars(objB)]. *)
Fixpoint merge_loop (items : list (string * pyval)) (objA : pyval)
    : pyval * result unit :=
  match items with
  | [] => (objA, Ok tt)
  | (name, value) :: rest =>
      match py_contains objA name with
      | Raise e => (objA, Raise e)
      | Ok false =>
          match py_setitem objA name (deepcopy value) with
          | Raise e => (objA, Raise e)
          | Ok objA' => merge_loop rest objA'
          end
      | Ok true =>
          match py_getitem objA name with
          | Raise e => (objA, Raise e)
          | Ok sub =>
              let '(sub', r) := merge_object_attrs sub (deepcopy value) in
              let objA' :=
                match objA with
                | PObj cls attrs => PObj cls (store attrs name sub')
                | _ => objA
                end in
              match r with
              | Raise e => (objA', Raise e)
              | Ok _ => merge_loop rest objA'
              end
          end
      end
  end.

(** ** What a pattern matches

    [matches r s rest caps caps']: [r] matches a prefix of [s] and leaves
    [rest]; the groups closed on the way are appended to [caps]. *)
Inductive matches : regex -> string -> string -> list string -> list string -> Prop :=
| matches_class (p : ascii -> bool) (c : ascii) (s : string) (caps : list string) :
    p c = true -> matches (Class p) (String c s) s caps caps
| matches_plus (p : ascii -> bool) (run rest : string) (caps : list string) :
    run <> "" -> all_chars p run = true ->
    matches (Plus p) (run ++ rest) rest caps caps
| matches_seq (r1 r2 : regex) (s s1 s2 : string) (c c1 c2 : list string) :
    matches r1 s s1 c c1 -> matches r2 s1 s2 c1 c2 ->
    matches (Seq r1 r2) s s2 c c2
| matches_group (r : regex) (s s1 : string) (c c1 : list string) :
    matches r s s1 c c1 ->
    matches (Group r) s s1 c (c1 ++ [consumed s s1])%list.

(** ** Printing an integer *)

(** The decimal digits of [n >= 0], without leading zeros, ["0"] for
    zero. *)
Definition str_of_N (n : N) : string :=
  DecimalString.NilZero.string_of_uint (N.to_uint n).

(** [str(n)] for an integer [n >= 0], as in [str(device_id)]: the decimal
    digits of [n]; [ValueError] when there are more than [max_str_digits]
    of them. *)
Definition py_str (n : N) : result string :=
  if max_str_digits <? Str.len (str_of_N n) then Raise ValueError
  else Ok (str_of_N n).

(** The command [NVSMI.__init__] runs for the device [device_id >= 0]:
    [['nvidia-smi', '-q', '-i', str(device_id)]]. *)
Definition query_cmd (device_id : N) : result (list string) :=
  (s <- py_str device_id ;; Ok ["nvidia-smi"; "-q"; "-i"; s])%py.

(** An entry whose [device_id] is one that [NVSMI.__init__] takes and
    that [str] prints. *)
Definition printable_id (e : NVSMI_Entry) : Prop :=
  0 <= device_id e
  /\ Str.len (str_of_N (Z.to_N (device_id e))) <= max_str_digits.

(** ** The layout of an object

    What [merge_object_attrs] looks at: the names of the attributes, in
    their order, and which values are objects, with their class. *)
Inductive layout : Type :=
| LLeaf
| LObj (cls : list (string * vtype)) (fields : list (string * layout)).

Inductive has_layout : layout -> pyval -> Prop :=
| has_layout_leaf (v : pyval) :
    is_leaf v = true -> has_layout LLeaf v
| has_layout_obj (cls : list (string * vtype)) (fields : list (string * layout))
    (attrs : list (string * pyval)) :
    Forall2 (fun f a => fst f = fst a /\ has_layout (snd f) (snd a)) fields attrs ->
    has_layout (LObj cls fields) (PObj cls attrs).

(** The layout of the value [from_lines] builds for a field. *)
Fixpoint layout_of (vtype : vtype) : layout :=
  match vtype with
  | TClass annotations =>
      LObj annotations (map (fun f => (fst f, layout_of (snd f))) annotations)
  | _ => LLeaf
  end.

(** A record: an object as [from_lines] builds it for a schema, with one
    attribute for each annotation of its class, in their order, a string or
    a number for a primitive field and a record of the nested class for a
    nested one.  [vars] of a record is its attribute dictionary, which it
    is not for the device object (the method [OMixin.__dict__] hides it when
    [IMixin] is not a base), and no name of a record is an attribute of a
    class, so that [hasattr], [getattr] and [setattr] with it go by the
    attribute dictionary of any object. *)
Definition is_record (v : pyval) : Prop :=
  match v with
  | PObj cls _ => wf_schema (TClass cls) = true /\ has_layout (layout_of (TClass cls)) v
  | _ => False
  end.

(** [merge_object_attrs] on layouts: [None] where the merge raises. *)
Fixpoint merge_layout (la lb : layout) {struct lb} : option layout :=
  match lb with
  | LLeaf => None
  | LObj _ fieldsB =>
      (fix loop (items : list (string * layout)) (la : layout) {struct items}
           : option layout :=
         match items with
         | [] => Some la
         | (name, lv) :: rest =>
             match la with
             | LObj cls fieldsA =>
                 match lookup fieldsA name with
                 | None => loop rest (LObj cls (store fieldsA name lv))
                 | Some sub =>
                     match merge_layout sub lv with
                     | Some sub' => loop rest (LObj cls (store fieldsA name sub'))
                     | None => None
                     end
                 end
             | LLeaf => None
             end
         end) fieldsB la
  end.

(** The loop of [merge_layout]. *)
Fixpoint merge_layout_loop (items : list (string * layout)) (la : layout)
    : option layout :=
  match items with
  | [] => Some la
  | (name, lv) :: rest =>
      match la with
      | LObj cls fieldsA =>
          match lookup fieldsA name with
          | None => merge_layout_loop rest (LObj cls (store fieldsA name lv))
          | Some sub =>
              match merge_layout sub lv with
              | Some sub' => merge_layout_loop rest (LObj cls (store fieldsA name sub'))
              | None => None
              end
          end
      | LLeaf => None
      end
  end.

(** ** The two classes of the report and the device object *)

(** [NVSMI_Static] and its nested classes *)
Module NVSMI_Static.

Definition NVSMI_PCIe_Generation : list (string * vtype) :=
  [("Max", TInt); ("Device_Max", TInt)].

Definition NVSMI_Link_Width : list (string * vtype) :=
  [("Max", TStr)].

Definition NVSMI_GPU_Link_Info : list (string * vtype) :=
  [("PCIe_Generation", TClass NVSMI_PCIe_Generation);
   ("Link_Width", TClass NVSMI_Link_Width)].

Definition NVSMI_PCI : list (string * vtype) :=
  [("Bus", TStr); ("Device", TStr); ("Domain", TStr); ("Device_Id", TStr);
   ("Bus_Id", TStr); ("Sub_System_Id", TStr);
   ("GPU_Link_Info", TClass NVSMI_GPU_Link_Info)].

Definition NVSMI_FB_Memory_Usage : list (string * vtype) :=
  [("Total", TInt)].

Definition NVSMI_BAR1_Memory_Usage : list (string * vtype) :=
  [("Total", TInt)].

Definition NVSMI_Temperature : list (string * vtype) :=
  [("GPU_Shutdown_Temp", TInt); ("GPU_Slowdown_Temp", TInt);
   ("GPU_Max_Operating_Temp", TInt); ("GPU_Target_Temperature", TInt)].

Definition NVSMI_GPU_Power_Readings : list (string * vtype) :=
  [("Default_Power_Limit", TFloat); ("Min_Power_Limit", TFloat);
   ("Max_Power_Limit", TFloat)].

Definition NVSMI_Max_Clocks : list (string * vtype) :=
  [("Graphics", TInt); ("SM", TInt); ("Memory", TInt); ("Video", TInt)].

Definition annotations : list (string * vtype) :=
  [("Product_Name", TStr); ("Product_Brand", TStr);
   ("Product_Architecture", TStr); ("GPU_UUID", TStr); ("GPU_PDI", TStr);
   ("VBIOS_Version", TStr); ("MultiGPU_Board", TLiteral ["Yes"; "No"]);
   ("Board_ID", TStr); ("GPU_Part_Number", TStr);
   ("PCI", TClass NVSMI_PCI);
   ("FB_Memory_Usage", TClass NVSMI_FB_Memory_Usage);
   ("BAR1_Memory_Usage", TClass NVSMI_BAR1_Memory_Usage);
   ("Temperature", TClass NVSMI_Temperature);
   ("GPU_Power_Readings", TClass NVSMI_GPU_Power_Readings);
   ("Max_Clocks", TClass NVSMI_Max_Clocks)].

Definition cls : vtype := TClass annotations.

End NVSMI_Static.

(** [NVSMI_Dynamic] and its nested classes *)
Module NVSMI_Dynamic.

Definition NVSMI_Driver_Model : list (string * vtype) :=
  [("Current", TLiteral ["WDDM"; "TCC"]); ("Pending", TLiteral ["WDDM"; "TCC"])].

Definition NVSMI_PCIe_Generation : list (string * vtype) :=
  [("Current", TInt); ("Device_Current", TInt); ("Host_Max", TInt)].

Definition NVSMI_Link_Width : list (string * vtype) :=
  [("Current", TStr)].

Definition NVSMI_GPU_Link_Info : list (string * vtype) :=
  [("PCIe_Generation", TClass NVSMI_PCIe_Generation);
   ("Link_Width", TClass NVSMI_Link_Width)].

Definition NVSMI_PCI : list (string * vtype) :=
  [("GPU_Link_Info", TClass NVSMI_GPU_Link_Info);
   ("Tx_Throughput", TInt); ("Rx_Throughput", TInt)].

Definition NVSMI_FB_Memory_Usage : list (string * vtype) :=
  [("Reserved", TInt); ("Used", TInt); ("Free", TInt)].

Definition NVSMI_BAR1_Memory_Usage : list (string * vtype) :=
  [("Used", TInt); ("Free", TInt)].

Definition NVSMI_Utilization : list (string * vtype) :=
  [("GPU", TInt); ("Memory", TInt); ("Encoder", TInt); ("Decoder", TInt);
   ("JPEG", TInt); ("OFA", TInt)].

Definition NVSMI_Temperature : list (string * vtype) :=
  [("GPU_Current_Temp", TInt)].

Definition NVSMI_GPU_Power_Readings : list (string * vtype) :=
  [("Current_Power_Limit", TFloat); ("Requested_Power_Limit", TFloat);
   ("Average_Power_Draw", TFloat); ("Instantaneous_Power_Draw", TFloat)].

Definition NVSMI_Clocks : list (string * vtype) :=
  [("Graphics", TInt); ("SM", TInt); ("Memory", TInt); ("Video", TInt)].

Definition annotations : list (string * vtype) :=
  [("Timestamp", TStr); ("Driver_Version", TStr); ("CUDA_Version", TStr);
   ("Display_Attached", TLiteral ["Yes"; "No"]);
   ("Display_Active", TLiteral ["Enabled"; "Disabled"]);
   ("Driver_Model", TClass NVSMI_Driver_Model);
   ("PCI", TClass NVSMI_PCI);
   ("Fan_Speed", TInt); ("Performance_State", TStr);
   ("FB_Memory_Usage", TClass NVSMI_FB_Memory_Usage);
   ("BAR1_Memory_Usage", TClass NVSMI_BAR1_Memory_Usage);
   ("Utilization", TClass NVSMI_Utilization);
   ("Temperature", TClass NVSMI_Temperature);
   ("GPU_Power_Readings", TClass NVSMI_GPU_Power_Readings);
   ("Clocks", TClass NVSMI_Clocks)].

Definition cls : vtype := TClass annotations.

End NVSMI_Dynamic.

(** [d.update(other)] *)
Definition dict_update {V : Type} (d other : list (string * V)) : list (string * V) :=
  fold_left (fun acc kv => store acc (fst kv) (snd kv)) other d.

(** [NVSMI]: the device object. *)
Module NVSMI.

(** [self.__annotations__] after the two [update]s. *)
Definition annotations : list (string * vtype) :=
  dict_update (dict_update [] NVSMI_Static.annotations) NVSMI_Dynamic.annotations.

(** [NVSMI.__init__] for a device id [device_id >= 0], on the lines
    [run_cmd] returns for it.  The instance attribute [__annotations__] is
    the class part of the object, which is where [to_dict] reads it. *)
Definition init (device_id : N) (lines : list string) : result pyval :=
  (nvs <- from_lines NVSMI_Static.cls lines ;;
   nvd <- from_lines NVSMI_Dynamic.cls lines ;;
   let self :=
     PObj annotations
       [("device_id", PInt (Z.of_N device_id)); ("nvs", nvs); ("nvd", nvd)] in
   let '(self, r) := merge_object_attrs self nvs in
   _ <- r ;;
   let '(self, r) := merge_object_attrs self nvd in
   _ <- r ;;
   Ok self)%py.

(** [NVSMI.query_gpu] *)
Definition query_gpu (device_id : N) (lines : list string) : result pyval :=
  init device_id lines.

(** The layout of the object [init] returns: the three attributes set
    first, the fields of [NVSMI_Static], where the sections that
    [NVSMI_Dynamic] declares too hold the fields of both, then the fields
    that [NVSMI_Dynamic] alone declares. *)
Definition object_layout : layout :=
  LObj annotations
    [("device_id", LLeaf);
     ("nvs", layout_of NVSMI_Static.cls);
     ("nvd", layout_of NVSMI_Dynamic.cls);
     ("Product_Name", LLeaf); ("Product_Brand", LLeaf);
     ("Product_Architecture", LLeaf); ("GPU_UUID", LLeaf); ("GPU_PDI", LLeaf);
     ("VBIOS_Version", LLeaf); ("MultiGPU_Board", LLeaf); ("Board_ID", LLeaf);
     ("GPU_Part_Number", LLeaf);
     ("PCI",
      LObj NVSMI_Static.NVSMI_PCI
        [("Bus", LLeaf); ("Device", LLeaf); ("Domain", LLeaf);
         ("Device_Id", LLeaf); ("Bus_Id", LLeaf); ("Sub_System_Id", LLeaf);
         ("GPU_Link_Info",
          LObj NVSMI_Static.NVSMI_GPU_Link_Info
            [("PCIe_Generation",
              LObj NVSMI_Static.NVSMI_PCIe_Generation
                [("Max", LLeaf); ("Device_Max", LLeaf); ("Current", LLeaf);
                 ("Device_Current", LLeaf); ("Host_Max", LLeaf)]);
             ("Link_Width",
              LObj NVSMI_Static.NVSMI_Link_Width
                [("Max", LLeaf); ("Current", LLeaf)])]);
         ("Tx_Throughput", LLeaf); ("Rx_Throughput", LLeaf)]);
     ("FB_Memory_Usage",
      LObj NVSMI_Static.NVSMI_FB_Memory_Usage
        [("Total", LLeaf); ("Reserved", LLeaf); ("Used", LLeaf); ("Free", LLeaf)]);
     ("BAR1_Memory_Usage",
      LObj NVSMI_Static.NVSMI_BAR1_Memory_Usage
        [("Total", LLeaf); ("Used", LLeaf); ("Free", LLeaf)]);
     ("Temperature",
      LObj NVSMI_Static.NVSMI_Temperature
        [("GPU_Shutdown_Temp", LLeaf); ("GPU_Slowdown_Temp", LLeaf);
         ("GPU_Max_Operating_Temp", LLeaf); ("GPU_Target_Temperature", LLeaf);
         ("GPU_Current_Temp", LLeaf)]);
     ("GPU_Power_Readings",
      LObj NVSMI_Static.NVSMI_GPU_Power_Readings
        [("Default_Power_Limit", LLeaf); ("Min_Power_Limit", LLeaf);
         ("Max_Power_Limit", LLeaf); ("Current_Power_Limit", LLeaf);
         ("Requested_Power_Limit", LLeaf); ("Average_Power_Draw", LLeaf);
         ("Instantaneous_Power_Draw", LLeaf)]);
     ("Max_Clocks", layout_of (TClass NVSMI_Static.NVSMI_Max_Clocks));
     ("Timestamp", LLeaf); ("Driver_Version", LLeaf); ("CUDA_Version", LLeaf);
     ("Display_Attached", LLeaf); ("Display_Active", LLeaf);
     ("Driver_Model", layout_of (TClass NVSMI_Dynamic.NVSMI_Driver_Model));
     ("Fan_Speed", LLeaf); ("Performance_State", LLeaf);
     ("Utilization", layout_of (TClass NVSMI_Dynamic.NVSMI_Utilization));
     ("Clocks", layout_of (TClass NVSMI_Dynamic.NVSMI_Clocks))].

End NVSMI.

(** [to_dict] returns on every object of this layout: the class has
    annotations, no attribute hides them or the method, a field whose
    annotation is a class is there, and it is an object that renders in
    turn. *)
Fixpoint layout_renders (l : layout) : bool :=
  match l with
  | LLeaf => true
  | LObj cls fields =>
      match cls with [] => false | _ :: _ => true end
      && negb (has_key fields "to_dict")
      && negb (has_key fields "__annotations__")
      &&
      forallb
        (fun f =>
           match f with
           | (name, sub) =>
               if existsb (fun c => String.eqb (fst c) name && is_class (snd c)) cls
               then match sub with
                    | LObj _ _ => layout_renders sub
                    | LLeaf => false
                    end
               else true
           end)
        fields
      && forallb (fun c => negb (is_class (snd c)) || has_key fields (fst c)) cls
  end.

(** The sections that both [NVSMI_Static] and [NVSMI_Dynamic] declare, with
    the class of each in the one and in the other. *)
Definition shared_sections
    : list (string * (list (string * vtype) * list (string * vtype))) :=
  [("PCI", (NVSMI_Static.NVSMI_PCI, NVSMI_Dynamic.NVSMI_PCI));
   ("FB_Memory_Usage",
    (NVSMI_Static.NVSMI_FB_Memory_Usage, NVSMI_Dynamic.NVSMI_FB_Memory_Usage));
   ("BAR1_Memory_Usage",
    (NVSMI_Static.NVSMI_BAR1_Memory_Usage, NVSMI_Dynamic.NVSMI_BAR1_Memory_Usage));
   ("Temperature",
    (NVSMI_Static.NVSMI_Temperature, NVSMI_Dynamic.NVSMI_Temperature));
   ("GPU_Power_Readings",
    (NVSMI_Static.NVSMI_GPU_Power_Readings, NVSMI_Dynamic.NVSMI_GPU_Power_Readings))].

(** ** Attribute chains *)

(** [obj.a.b.c] on the attribute dictionaries: the value a chain of
    attribute names leads to, [None] where a name is not an attribute. *)
Fixpoint attr_path (v : pyval) (path : list string) : option pyval :=
  match path with
  | [] => Some v
  | name :: rest =>
      match v with
      | PObj _ attrs =>
          match lookup attrs name with
          | Some x => attr_path x rest
          | None => None
          end
      | _ => None
      end
  end.

(** The same chain on a layout. *)
Fixpoint layout_path (l : layout) (path : list string) : option layout :=
  match path with
  | [] => Some l
  | name :: rest =>
      match l with
      | LObj _ fields =>
          match lookup fields name with
          | Some sub => layout_path sub rest
          | None => None
          end
      | LLeaf => None
      end
  end.

(** The attribute chains that [NVSMI.brief] reads from [self]. *)
Definition brief_reads : list (list string) :=
  [["device_id"];
   ["nvs"; "Product_Name"];
   ["nvd"; "GPU_Power_Readings"; "Average_Power_Draw"];
   ["nvd"; "Temperature"; "GPU_Current_Temp"];
   ["nvd"; "Fan_Speed"];
   ["nvd"; "Utilization"; "GPU"]].

(** ** The output of a command *)

(** [s.split(sep)] for a one-character [sep] *)
Fixpoint str_split (sep : ascii) (s : string) : list string :=
  match s with
  | EmptyString => [EmptyString]
  | String c s' =>
      if Ascii.eqb c sep then EmptyString :: str_split sep s'
      else
        match str_split sep s' with
        | [] => [String c EmptyString]
        | piece :: pieces => String c piece :: pieces
        end
  end.

(** The line feed ['\n'] and the carriage return ['\r'] *)
Definition LF : ascii := "010"%char.
Definition CR : ascii := "013"%char.

(** What [text=True] makes of the decoded output: the universal newlines
    of the text layer turn ['\r\n'] and a lone ['\r'] into ['\n']. *)
Fixpoint universal_newlines (s : string) : string :=
  match s with
  | EmptyString => EmptyString
  | String c s' =>
      if Ascii.eqb c CR then
        match s' with
        | String d s'' =>
            if Ascii.eqb d LF then String LF (universal_newlines s'')
            else String LF (universal_newlines s')
        | EmptyString => String LF EmptyString
        end
      else String c (universal_newlines s')
  end.

(** [run_cmd], when the command has run and printed the text [printed]:
    [p.stdout] is that text with universal newlines, and the value
    returned is [p.stdout.strip().split('\n')]. *)
Definition run_cmd (printed : string) : list string :=
  str_split LF (Str.strip (universal_newlines printed)).

(** [sep.join(lines)] *)
Definition join (sep : ascii) (lines : list string) : string :=
  String.concat (String sep EmptyString) lines.

(** No character of [s] is [c]. *)
Definition without (c : ascii) (s : string) : bool :=
  all_chars (fun d => negb (Ascii.eqb d c)) s.

(** ** A line of the device listing *)

(** The line [nvidia-smi -L] prints for a device. *)
Definition gpu_line (id : N) (model uuid : string) : string :=
  "GPU " ++ str_of_N id ++ ": " ++ model ++ " (UUID: " ++ uuid ++ ")".

(** A model name the pattern takes whole: not empty, without an opening
    parenthesis, not starting with white space. *)
Definition is_model (model : string) : bool :=
  match model with
  | EmptyString => false
  | String c _ => negb (Str.is_space c) && without "(" model
  end.

(** A device identifier: word characters and hyphens, at least one. *)
Definition is_uuid (uuid : string) : bool :=
  match uuid with
  | EmptyString => false
  | _ => all_chars (fun c => Str.is_word c || Ascii.eqb c "-") uuid
  end.

(** What a program prints when it prints each line followed by a line
    feed. *)
Fixpoint print_lines (lines : list string) : string :=
  match lines with
  | [] => EmptyString
  | line :: rest => line ++ String LF (print_lines rest)
  end.

(** [s] starts with a character that is not white space. *)
Definition starts_clean (s : string) : bool :=
  match s with
  | String c _ => negb (Str.is_space c)
  | EmptyString => false
  end.

(** [s] ends with a character that is not white space. *)
Fixpoint ends_clean (s : string) : bool :=
  match s with
  | EmptyString => false
  | String c EmptyString => negb (Str.is_space c)
  | String _ s' => ends_clean s'
  end.

(** What [s] starts with is not a character of [p]. *)
Definition stops (p : ascii -> bool) (s : string) : Prop :=
  match s with
  | String c _ => p c = false
  | EmptyString => True
  end.

(** A device of the listing: a number that [str] prints, a model name and
    an identifier that one line holds and the pattern takes whole. *)
Definition is_device (d : N * string * string) : bool :=
  let '(id, model, uuid) := d in
  (Str.len (str_of_N id) <=? max_str_digits)
  && is_model model && without LF model && without CR model && is_uuid uuid.

Definition device_line (d : N * string * string) : string :=
  let '(id, model, uuid) := d in gpu_line id model uuid.

Definition device_entry (d : N * string * string) : NVSMI_Entry :=
  let '(id, model, uuid) := d in
  {| device_id := Z.of_N id; model := model; uuid := uuid |}.

(** * Properties *)

(** ** Sections of the report *)

Section SectionSearch.
Variable title : string.

Lemma section_loop_no_header (lines : list string) (indent : Z) (acc : list string) :
  existsb (is_header title) lines = false ->
  section_loop title lines false indent acc = acc.
Proof.
  revert acc.
  induction lines as [|line rest IH]; intros acc H; simpl in *.
  - reflexivity.
  - apply orb_false_elim in H as [Hl Hr].
    unfold is_header in Hl. rewrite Hl. now apply IH.
Qed.

Lemma section_loop_body (run rest : list string) (indent : Z) (acc : list string) :
  forallb (body_line title indent) run = true ->
  section_loop title (run ++ rest) true indent acc
  = section_loop title rest true indent (acc ++ run).
Proof.
  revert acc.
  induction run as [|line run IH]; intros acc H; simpl in *.
  - now rewrite app_nil_r.
  - apply andb_prop in H as [Hl Hr].
    unfold body_line, is_header in Hl.
    apply andb_prop in Hl as [Hh Hd].
    apply negb_true_iff in Hh. rewrite Hh, Hd.
    rewrite IH by assumption.
    now rewrite <- app_assoc.
Qed.

Lemma section_loop_end (rest : list string) (indent : Z) (acc : list string) :
  ends_section title indent rest = true ->
  section_loop title rest true indent acc = acc.
Proof.
  destruct rest as [|line rest]; simpl; intros H.
  - reflexivity.
  - apply andb_prop in H as [Hh Hd].
    unfold is_header in Hh.
    apply negb_true_iff in Hh. apply negb_true_iff in Hd.
    now rewrite Hh, Hd.
Qed.

(** X2: the section of the first header, when no line of its body and not
    the line that ends it is a header again: the header and the run of
    deeper lines after it. *)
Lemma lines_find_section_first (pre run rest : list string) (header : string) :
  existsb (is_header title) pre = false ->
  is_header title header = true ->
  forallb (body_line title (count_leading_spaces header)) run = true ->
  ends_section title (count_leading_spaces header) rest = true ->
  lines_find_section (pre ++ header :: run ++ rest) title = header :: run.
Proof.
  intros Hpre Hh Hrun Hend.
  unfold lines_find_section.
  assert (Hskip : forall tl i acc,
             section_loop title (pre ++ tl) false i acc
             = section_loop title tl false i acc).
  { clear - Hpre. induction pre as [|l pre' IH]; intros tl i acc; simpl in *.
    - reflexivity.
    - apply orb_false_elim in Hpre as [Hl Hr].
      unfold is_header in Hl. rewrite Hl. now apply IH. }
  rewrite Hskip. simpl.
  unfold is_header in Hh. rewrite Hh.
  rewrite section_loop_body by assumption.
  now rewrite section_loop_end.
Qed.

Lemma section_loop_acc (lines : list string) :
  forall found indent acc,
    section_loop title lines found indent acc
    = (acc ++ section_loop title lines found indent [])%list.
Proof.
  induction lines as [|line rest IH]; intros found indent acc; simpl.
  - now rewrite app_nil_r.
  - destruct (String.eqb title (Str.strip line)).
    + rewrite IH, (IH _ _ [line]). now rewrite <- app_assoc.
    + destruct found; [|apply IH].
      destruct (count_leading_spaces line >? indent); [|now rewrite app_nil_r].
      rewrite IH, (IH _ _ [line]). now rewrite <- app_assoc.
Qed.

(** X3: a header right after the body of the first section does not end
    the search: it is appended, whatever its indentation, and the search
    goes on below it. *)
Lemma lines_find_section_goes_on (pre run rest : list string) (header again : string) :
  existsb (is_header title) pre = false ->
  is_header title header = true ->
  forallb (body_line title (count_leading_spaces header)) run = true ->
  is_header title again = true ->
  lines_find_section (pre ++ header :: run ++ again :: rest) title
  = (header :: run ++ again
       :: section_loop title rest true (count_leading_spaces again) [])%list.
Proof.
  intros Hpre Hh Hrun Ha.
  unfold lines_find_section.
  assert (Hskip : forall tl i acc,
             section_loop title (pre ++ tl) false i acc
             = section_loop title tl false i acc).
  { clear - Hpre. induction pre as [|l pre' IH]; intros tl i acc; simpl in *.
    - reflexivity.
    - apply orb_false_elim in Hpre as [Hl Hr].
      unfold is_header in Hl. rewrite Hl. now apply IH. }
  rewrite Hskip. simpl.
  unfold is_header in Hh, Ha. rewrite Hh.
  rewrite section_loop_body by assumption. simpl. rewrite Ha.
  rewrite section_loop_acc. simpl.
  now rewrite <- app_assoc.
Qed.

(** No header, no section. *)
Lemma lines_find_section_not_found (lines : list string) :
  existsb (is_header title) lines = false ->
  lines_find_section lines title = [].
Proof.
  intros H. unfold lines_find_section.
  now apply section_loop_no_header.
Qed.

End SectionSearch.

(** The section boundary of the specification: the section ["Temperature"]
    stops before ["Clocks"]. *)
Example section_boundary :
  lines_find_section
    ["Temperature"; "  GPU Current Temp: 55"; "Clocks"; "  Graphics: 100"]
    "Temperature"
  = ["Temperature"; "  GPU Current Temp: 55"].
Proof. reflexivity. Qed.

(** C2, on the code: a second header right after the first section does not
    end the search.  The header test of the loop runs before the test on
    the indentation, also once the section is open, so the second
    ["Temperature"] line and its body are appended: the search returns both
    sections, against the comment [only match the first section] at the
    [break]. *)
Theorem lines_find_section_second_header :
  lines_find_section
    ["Temperature"; "  GPU Current Temp: 55";
     "Temperature"; "  GPU Current Temp: 60"]
    "Temperature"
  = ["Temperature"; "  GPU Current Temp: 55";
     "Temperature"; "  GPU Current Temp: 60"].
Proof. reflexivity. Qed.

(** C5, on the code: the section is not always the first header and the
    run of deeper lines after it.  The run after the first ["Clocks"] is
    one line long, yet the search returns four lines, the second header and
    its body too.  And a deeper line that is a header again restarts the
    section at its own indentation: after ["PCI"] the run of deeper lines
    has two lines, and the search returns the first of them only, because
    ["    PCI"] resets [indent] to 4 and ["  Bus: 0x01"] is not deeper than
    that. *)
Theorem lines_find_section_header_again :
  lines_find_section
    ["Clocks"; "  Graphics: 100"; "Clocks"; "  Graphics: 200"; "Max Clocks"]
    "Clocks"
  = ["Clocks"; "  Graphics: 100"; "Clocks"; "  Graphics: 200"]
  /\ body_line "Clocks" (count_leading_spaces "Clocks") "  Graphics: 100" = true
  /\ (count_leading_spaces "Clocks" >? count_leading_spaces "Clocks") = false
  /\ lines_find_section ["PCI"; "    PCI"; "  Bus: 0x01"; "Clocks"] "PCI"
     = ["PCI"; "    PCI"]
  /\ forallb (fun l => count_leading_spaces l >? count_leading_spaces "PCI")
       ["    PCI"; "  Bus: 0x01"] = true.
Proof. repeat split. Qed.

(** ** Numbers *)

Lemma to_int_finite (f : spec_float) :
  Float.is_finite f = true -> Float.to_int f = Ok (truncation f).
Proof.
  destruct f as [s|s| |s m e]; simpl; try discriminate; intros _.
  - reflexivity.
  - unfold truncation, float_num, float_den. f_equal.
    destruct (Z.leb_spec 0 e) as [He|He].
    + rewrite Z.max_l, Z.max_r by lia.
      rewrite Z.shiftl_mul_pow2 by lia.
      change (2 ^ 0) with 1. rewrite Z.quot_1_r.
      destruct s; lia.
    + rewrite Z.max_r, Z.max_l by lia.
      rewrite Z.shiftl_div_pow2 by lia.
      change (2 ^ 0) with 1. rewrite Z.mul_1_r.
      assert (Hd : 0 < 2 ^ (- e)) by (apply Z.pow_pos_nonneg; lia).
      destruct s.
      * replace (-1 * Z.pos m) with (- Z.pos m) by lia.
        rewrite Z.quot_opp_l by lia.
        rewrite Z.quot_div_nonneg by lia. reflexivity.
      * rewrite Z.mul_1_l. rewrite Z.quot_div_nonneg by lia. reflexivity.
Qed.

Lemma eq_int_truncation (f : spec_float) :
  Float.is_finite f = true -> Float.eq_int f (truncation f) = is_integral f.
Proof.
  intros Hf. pose proof (to_int_finite f Hf) as Ht.
  destruct f as [s|s| |s m e]; simpl in *; try discriminate.
  - reflexivity.
  - injection Ht as Ht. unfold is_integral. rewrite <- Ht.
    rewrite Z.eqb_refl, andb_true_r.
    unfold float_num, float_den.
    destruct (Z.leb_spec 0 e) as [He|He].
    + rewrite Z.max_l, Z.max_r by lia.
      change (2 ^ 0) with 1.
      rewrite (Z.shiftl_mul_pow2 (Z.pos m) e) by lia.
      rewrite (Z.shiftl_div_pow2 _ (- e)) by lia.
      rewrite Z.opp_involutive.
      rewrite Z.div_mul by (apply Z.pow_nonzero; lia).
      rewrite Z.eqb_refl. symmetry. apply Z.eqb_eq. destruct s; lia.
    + rewrite Z.max_r, Z.max_l by lia.
      change (2 ^ 0) with 1.
      rewrite (Z.shiftl_div_pow2 (Z.pos m) e) by lia.
      rewrite (Z.shiftl_mul_pow2 _ (- e)) by lia.
      destruct (Z.eqb_spec (Z.pos m / 2 ^ (- e) * 2 ^ (- e)) (Z.pos m)) as [E|E];
        symmetry; [apply Z.eqb_eq | apply Z.eqb_neq]; destruct s; lia.
Qed.

(** [str_to_num] never raises, whatever the text is. *)
Lemma str_to_num_returns (s : string) : exists v, str_to_num s = Ok v.
Proof.
  unfold str_to_num.
  destruct (Float.of_str s) as [f|e]; simpl; [|eauto].
  destruct (Float.to_int f) as [i|e]; simpl; eauto.
Qed.

(** C7, as stated, fails at ["inf"]: the text parses as a float, the value
    is not equal to an integer truncation, and the result is [-1], not that
    float. *)
Lemma str_to_num_inf_not_float :
  Float.of_str "inf" = Ok (S754_infinity false)
  /\ coerceNumber_spec "inf" = PFloat (S754_infinity false)
  /\ str_to_num "inf" <> Ok (coerceNumber_spec "inf").
Proof. repeat split. discriminate. Qed.

(** C7, amended: [str_to_num] parses its argument as a float; a finite
    value that equals its integer truncation gives that integer, another
    finite value gives the float itself, and a text that does not parse
    gives [-1], as does a text that parses as an infinity or a NaN.  So
    ["42.0"] gives the integer 42, ["3.5"] the float 3.5 and ["abc"] gives
    [-1]. *)
Theorem str_to_num_spec :
  (forall s : string,
      str_to_num s =
      Ok match Float.of_str s with
         | Raise _ => PInt (-1)
         | Ok f =>
             if Float.is_finite f then
               if is_integral f then PInt (truncation f) else PFloat f
             else PInt (-1)
         end)
  /\ str_to_num "42.0" = Ok (PInt 42)
  /\ str_to_num "3.5" = Ok (PFloat (S754_finite false 7881299347898368 (-51)))
  /\ float_num (S754_finite false 7881299347898368 (-51)) * 2
     = 7 * float_den (S754_finite false 7881299347898368 (-51))
  /\ str_to_num "abc" = Ok (PInt (-1)).
Proof.
  split; [|repeat split].
  intros s. unfold str_to_num.
  destruct (Float.of_str s) as [f|e]; simpl; [|reflexivity].
  destruct (Float.is_finite f) eqn:Hf.
  - rewrite (to_int_finite f Hf). simpl.
    now rewrite (eq_int_truncation f Hf).
  - destruct f; simpl in *; try discriminate; reflexivity.
Qed.

(** C10: [str_to_num] returns on every string; a text that parses as an
    infinity or a NaN, such as ["inf"], ["-inf"] and ["nan"], gives the
    fallback [-1], because [int] raises on these values inside the [try]. *)
Theorem str_to_num_total :
  (forall s : string, exists v, str_to_num s = Ok v)
  /\ (forall (s : string) (f : spec_float),
         Float.of_str s = Ok f -> Float.is_finite f = false ->
         (exists e, Float.to_int f = Raise e) /\ str_to_num s = Ok (PInt (-1)))
  /\ Float.of_str "inf" = Ok (S754_infinity false)
  /\ Float.of_str "-inf" = Ok (S754_infinity true)
  /\ Float.of_str "nan" = Ok S754_nan
  /\ str_to_num "inf" = Ok (PInt (-1))
  /\ str_to_num "-inf" = Ok (PInt (-1))
  /\ str_to_num "nan" = Ok (PInt (-1)).
Proof.
  split; [exact str_to_num_returns|].
  split; [|repeat split].
  intros s f Hs Hf. unfold str_to_num. rewrite Hs.
  destruct f; simpl in *; try discriminate; eauto.
Qed.

Lemma str_to_num_total_witness :
  (exists e, Float.to_int (S754_infinity false) = Raise e)
  /\ str_to_num "inf" = Ok (PInt (-1)).
Proof.
  exact (proj1 (proj2 str_to_num_total) "inf" (S754_infinity false)
           eq_refl eq_refl).
Defined.

(** ** The device listing *)

Lemma list_gpus_loop_skip (lines : list string) (gpu_list : list NVSMI_Entry) :
  list_gpus_loop lines gpu_list
  = list_gpus_loop (filter is_gpu_entry lines) gpu_list.
Proof.
  revert gpu_list.
  induction lines as [|line rest IH]; intros gpu_list; simpl.
  - reflexivity.
  - unfold is_gpu_entry at 1.
    destruct (search REGEX_GPU_ENTRY line) as [m|] eqn:Hm; simpl.
    + rewrite Hm.
      destruct (groups m) as [|a [|b [|c [|d t]]]]; try reflexivity.
      destruct (int_of_str a); simpl; [apply IH | reflexivity].
    + apply IH.
Qed.

Lemma filter_none {A : Type} (p : A -> bool) (l : list A) :
  existsb p l = false -> filter p l = [].
Proof.
  induction l as [|a l IH]; simpl; intros H.
  - reflexivity.
  - apply orb_false_elim in H as [Ha Hl]. rewrite Ha. now apply IH.
Qed.

(** The backtracking matcher finds only what the pattern matches. *)
Lemma plus_greedy_sound {A : Type} (p : ascii -> bool) (s : string)
    (k : string -> option A) (a : A) :
  plus_greedy p s k = Some a ->
  exists run rest,
    s = run ++ rest /\ run <> "" /\ all_chars p run = true /\ k rest = Some a.
Proof.
  induction s as [|c s IH]; simpl; [discriminate|].
  destruct (p c) eqn:Hc; [|discriminate].
  destruct (plus_greedy p s k) as [a'|] eqn:Hg.
  - intros E. injection E as ->.
    destruct (IH eq_refl) as [run [rest [-> [_ [Hrun Hk]]]]].
    exists (String c run), rest. simpl. rewrite Hc, Hrun.
    repeat split; [discriminate | assumption].
  - intros Hk. exists (String c ""), s. simpl. rewrite Hc.
    repeat split; [discriminate | assumption].
Qed.

Lemma rmatch_sound {A : Type} (r : regex) :
  forall (s : string) (caps : list string)
         (k : string -> list string -> option A) (a : A),
    rmatch r s caps k = Some a ->
    exists rest caps', matches r s rest caps caps' /\ k rest caps' = Some a.
Proof.
  induction r as [p|p|r1 IH1 r2 IH2|r IH]; intros s caps k a H; simpl in H.
  - destruct s as [|c s]; [discriminate|].
    destruct (p c) eqn:Hc; [|discriminate].
    exists s, caps. split; [now constructor | assumption].
  - apply plus_greedy_sound in H as [run [rest [-> [Hne [Hrun Hk]]]]].
    exists rest, caps. split; [now constructor | assumption].
  - apply IH1 in H as [s1 [c1 [H1 H]]].
    apply IH2 in H as [s2 [c2 [H2 H]]].
    exists s2, c2. split; [econstructor; eassumption | assumption].
  - apply IH in H as [s1 [c1 [H1 H]]].
    exists s1, (c1 ++ [consumed s s1])%list. split; [now constructor | assumption].
Qed.

Lemma search_sound (r : regex) (s : string) (m : match_object) :
  search r s = Some m ->
  exists start rest, matches r start rest [] (groups m).
Proof.
  induction s as [|c s IH]; simpl.
  - destruct (match_here r "") as [m'|] eqn:Hm; [|discriminate].
    intros E. injection E as ->.
    apply rmatch_sound in Hm as [rest [caps [Hmatch E]]].
    injection E as <-. now exists "", rest.
  - destruct (match_here r (String c s)) as [m'|] eqn:Hm; [|exact IH].
    intros E. injection E as ->.
    apply rmatch_sound in Hm as [rest [caps [Hmatch E]]].
    injection E as <-. now exists (String c s), rest.
Qed.

Lemma length_app (a b : string) :
  String.length (a ++ b) = (String.length a + String.length b)%nat.
Proof. induction a as [|c a IH]; simpl; [reflexivity | now rewrite IH]. Qed.

Lemma consumed_run (run rest : string) : consumed (run ++ rest) rest = run.
Proof.
  unfold consumed. rewrite length_app.
  replace (String.length run + String.length rest - String.length rest)%nat
    with (String.length run) by lia.
  induction run as [|c run IH]; simpl.
  - now destruct rest.
  - now rewrite IH.
Qed.

Lemma matches_Lits (t : string) (r : regex) :
  forall s rest caps caps',
    matches (Lits t r) s rest caps caps' ->
    exists s', matches r s' rest caps caps'.
Proof.
  induction t as [|c t IH]; intros s rest caps caps' H; simpl in H.
  - now exists s.
  - inversion H as [| |? ? ? s1 ? ? c1 ? H1 H2|]; subst.
    inversion H1; subst. now apply IH in H2.
Qed.

(** A match of the pattern of a device entry has three groups, the first a
    run of digits. *)
Lemma gpu_entry_groups (s rest : string) (caps : list string) :
  matches REGEX_GPU_ENTRY s rest [] caps ->
  exists id_s model_s uuid_s,
    caps = [id_s; model_s; uuid_s]
    /\ id_s <> "" /\ all_chars Str.is_digit id_s = true.
Proof.
  unfold REGEX_GPU_ENTRY. intros H.
  apply matches_Lits in H as [s0 H].
  repeat match goal with
         | H : matches (Seq _ _) _ _ _ _ |- _ => inversion H; subst; clear H
         | H : matches (Lits _ _) _ _ _ _ |- _ => apply matches_Lits in H as [? H]
         | H : matches (Group _) _ _ _ _ |- _ => inversion H; subst; clear H
         | H : matches (Plus _) _ _ _ _ |- _ => inversion H; subst; clear H
         | H : matches (Lit _) _ _ _ _ |- _ => inversion H; subst; clear H
         end.
  rewrite !consumed_run. simpl. eauto 10.
Qed.

Lemma rstrip_none (p : ascii -> bool) (s : string) :
  all_chars (fun c => negb (p c)) s = true -> Str.rstrip p s = s.
Proof.
  induction s as [|c s IH]; simpl; intros H; [reflexivity|].
  apply andb_prop in H as [Hc Hs]. rewrite (IH Hs).
  apply negb_true_iff in Hc. rewrite Hc. now destruct s.
Qed.

Lemma digit_facts (c : ascii) :
  Str.is_digit c = true ->
  Float.is_c_space c = false /\ Ascii.eqb c "_" = false
  /\ c <> "-"%char /\ c <> "+"%char.
Proof.
  intros H. repeat split;
    try (intros ->; discriminate H);
    destruct c as [[] [] [] [] [] [] [] []]; try reflexivity; discriminate H.
Qed.

Lemma drop_underscores_digits (s : string) :
  forall prev,
    Ascii.eqb prev "_" = false ->
    all_chars Str.is_digit s = true ->
    Float.drop_underscores prev s = Some s.
Proof.
  induction s as [|c s IH]; simpl; intros prev Hp H.
  - now rewrite Hp.
  - apply andb_prop in H as [Hc Hs].
    destruct (digit_facts c Hc) as [_ [Hu _]].
    rewrite Hu, Hp. simpl. now rewrite (IH c Hu Hs).
Qed.

Lemma digits_all (s : string) :
  forall acc n,
    all_chars Str.is_digit s = true ->
    exists v, Float.digits s acc n = (v, n + Str.len s, "").
Proof.
  induction s as [|c s IH]; intros acc n H.
  - exists acc. unfold Str.len. simpl. now rewrite Z.add_0_r.
  - apply andb_prop in H as [Hc Hs].
    destruct (IH (10 * acc + Float.digit_value c) (n + 1) Hs) as [v Hv].
    exists v.
    change (Float.digits (String c s) acc n)
      with (if Str.is_digit c
            then Float.digits s (10 * acc + Float.digit_value c) (n + 1)
            else (acc, n, String c s)).
    rewrite Hc, Hv. unfold Str.len. simpl String.length.
    do 2 f_equal. lia.
Qed.

(** Nothing is stripped from a text without white space. *)
Lemma stripped_none (s : string) :
  all_chars (fun c => negb (Str.is_space c)) s = true -> Float.stripped s = s.
Proof.
  intros H. unfold Float.stripped.
  assert (Hid : Float.spaces_to_ascii s = s).
  { induction s as [|c s IH]; simpl in *; [reflexivity|].
    apply andb_prop in H as [Hc Hs]. rewrite (IH Hs). f_equal.
    destruct c as [[] [] [] [] [] [] [] []]; try reflexivity; discriminate Hc. }
  assert (Hsp : all_chars (fun c => negb (Float.is_c_space c)) s = true).
  { clear Hid. induction s as [|c s IH]; simpl in *; [reflexivity|].
    apply andb_prop in H as [Hc Hs]. rewrite (IH Hs), andb_true_r.
    destruct c as [[] [] [] [] [] [] [] []]; try reflexivity; discriminate Hc. }
  assert (Hl : Str.lstrip Float.is_c_space s = s).
  { destruct s as [|c s]; [reflexivity|]. simpl in Hsp |- *.
    apply andb_prop in Hsp as [Hc _]. apply negb_true_iff in Hc. now rewrite Hc. }
  now rewrite Hid, Hl, (rstrip_none _ _ Hsp).
Qed.

Lemma digits_not_space (s : string) :
  all_chars Str.is_digit s = true ->
  all_chars (fun c => negb (Str.is_space c)) s = true.
Proof.
  induction s as [|c s IH]; simpl; [reflexivity|]. intros H.
  apply andb_prop in H as [Hc Hs]. rewrite (IH Hs), andb_true_r.
  destruct c as [[] [] [] [] [] [] [] []]; try reflexivity; discriminate Hc.
Qed.

(** [int] on a run of digits: the number, not negative, unless the run is
    longer than [max_str_digits]. *)
Lemma int_of_str_digits (s : string) :
  s <> "" -> all_chars Str.is_digit s = true ->
  exists z,
    0 <= z
    /\ int_of_str s
       = if max_str_digits <? Str.len s then Raise ValueError else Ok z.
Proof.
  intros Hne H. unfold int_of_str.
  rewrite (stripped_none _ (digits_not_space _ H)).
  rewrite drop_underscores_digits; [|reflexivity|assumption].
  assert (Hsign : Float.sign s = (false, s)).
  { destruct s as [|c s]; [reflexivity|].
    simpl in H. apply andb_prop in H as [Hc _]. unfold Float.sign.
    destruct c as [[] [] [] [] [] [] [] []]; try reflexivity; discriminate Hc. }
  rewrite Hsign.
  assert (Hpos : forall t acc n, 0 <= acc -> 0 <= fst (fst (Float.digits t acc n))).
  { induction t as [|c t IHt]; intros acc n Hacc; [exact Hacc|].
    change (Float.digits (String c t) acc n)
      with (if Str.is_digit c
            then Float.digits t (10 * acc + Float.digit_value c) (n + 1)
            else (acc, n, String c t)).
    destruct (Str.is_digit c) eqn:Hc; [|exact Hacc].
    apply IHt. unfold Float.digit_value.
    assert (48 <= Z.of_N (Str.code c)).
    { destruct c as [[] [] [] [] [] [] [] []]; try discriminate Hc;
        vm_compute; discriminate. }
    lia. }
  pose proof (Hpos s 0 0 ltac:(lia)) as Hz.
  destruct (digits_all s 0 0 H) as [v Hv].
  rewrite Hv in Hz |- *. simpl in Hz.
  assert (Hlen : 0 < Str.len s).
  { unfold Str.len. destruct s; [congruence|]. simpl String.length. lia. }
  rewrite Z.add_0_l.
  destruct (Z.ltb_spec 0 (Str.len s)); [|lia].
  cbn [andb String.eqb]. exists v. split; [assumption | reflexivity].
Qed.

(** [list_gpus] on a listing: one entry for each line of the pattern, in
    the order of the lines, with a number that is not negative; the call
    raises [ValueError] when a number is too long for [int]. *)
Lemma list_gpus_returns (lines : list string) :
  forall gpu_list,
    if existsb long_id lines
    then list_gpus_loop lines gpu_list = Raise ValueError
    else
      exists entries,
        list_gpus_loop lines gpu_list = Ok (gpu_list ++ entries)%list
        /\ List.length entries = List.length (filter is_gpu_entry lines)
        /\ Forall (fun e => 0 <= device_id e) entries.
Proof.
  induction lines as [|line rest IH]; intros gpu_list; cbn [existsb list_gpus_loop filter].
  - exists []. rewrite app_nil_r. repeat split. constructor.
  - unfold is_gpu_entry, long_id at 1.
    destruct (search REGEX_GPU_ENTRY line) as [m|] eqn:Hm; [|apply IH].
    destruct (search_sound _ _ _ Hm) as [start [rest' Hmatch]].
    destruct (gpu_entry_groups _ _ _ Hmatch) as [a [b [c [-> [Hne Hd]]]]].
    destruct (int_of_str_digits a Hne Hd) as [z [Hz ->]].
    destruct (max_str_digits <? Str.len a); [reflexivity|].
    cbn [bind orb].
    specialize (IH (gpu_list ++ [{| device_id := z; model := b; uuid := c |}])%list).
    destruct (existsb long_id rest); [exact IH|].
    destruct IH as [entries [-> [Hlen Hall]]].
    exists ({| device_id := z; model := b; uuid := c |} :: entries).
    split; [now rewrite <- app_assoc|].
    split; [simpl; now rewrite Hlen | now constructor].
Qed.

(** C8: a listing in which ["GPU 0: NVIDIA RTX 9999 (UUID: GPU-abcd-1234)"]
    is the one line of the pattern gives one entry with id 0, model
    ["NVIDIA RTX 9999"] and uuid ["GPU-abcd-1234"]; the lines that do not
    match the pattern are skipped: the listing returns as many entries as
    it has matching lines, it gives what its matching lines alone give, and
    no entry when no line matches.  The one way not to return is a matching
    line with a number of more than 4300 digits, which [int] refuses with
    [ValueError]. *)
Theorem list_gpus_entries :
  (forall lines,
      if existsb long_id lines
      then list_gpus lines = Raise ValueError
      else
        exists entries,
          list_gpus lines = Ok entries
          /\ List.length entries = List.length (filter is_gpu_entry lines))
  /\ (forall lines, list_gpus lines = list_gpus (filter is_gpu_entry lines))
  /\ (forall lines, existsb is_gpu_entry lines = false -> list_gpus lines = Ok [])
  /\ (forall pre post,
         existsb is_gpu_entry (pre ++ post) = false ->
         list_gpus (pre ++ "GPU 0: NVIDIA RTX 9999 (UUID: GPU-abcd-1234)" :: post)
         = Ok [{| device_id := 0; model := "NVIDIA RTX 9999"; uuid := "GPU-abcd-1234" |}]).
Proof.
  split; [|split; [|split]].
  - intros lines. pose proof (list_gpus_returns lines []) as H.
    unfold list_gpus. destruct (existsb long_id lines); [exact H|].
    destruct H as [entries [H [Hlen _]]]. now exists entries.
  - intros lines. apply list_gpus_loop_skip.
  - intros lines H. unfold list_gpus.
    rewrite list_gpus_loop_skip, (filter_none _ _ H). reflexivity.
  - intros pre post H. unfold list_gpus.
    rewrite list_gpus_loop_skip, filter_app. simpl.
    rewrite existsb_app in H. apply orb_false_elim in H as [Hpre Hpost].
    rewrite (filter_none _ _ Hpre), (filter_none _ _ Hpost).
    reflexivity.
Qed.

Lemma list_gpus_entries_witness :
  list_gpus
    ["Listing"; "GPU 0: NVIDIA RTX 9999 (UUID: GPU-abcd-1234)"; ""; "GPU one"]
  = Ok [{| device_id := 0; model := "NVIDIA RTX 9999"; uuid := "GPU-abcd-1234" |}].
Proof.
  exact (proj2 (proj2 (proj2 list_gpus_entries)) ["Listing"] [""; "GPU one"] eq_refl).
Defined.

(** ** Dictionaries *)

Section DictFacts.
Context {V : Type}.
Implicit Types (d : list (string * V)) (k : string) (v : V).

Lemma lookup_store_same d k v : lookup (store d k v) k = Some v.
Proof.
  induction d as [|[k' v'] d IH]; simpl.
  - now rewrite String.eqb_refl.
  - destruct (String.eqb k' k) eqn:E; simpl.
    + now rewrite String.eqb_refl.
    + now rewrite E.
Qed.

Lemma lookup_store_other d k k' v :
  k <> k' -> lookup (store d k v) k' = lookup d k'.
Proof.
  intros Hk.
  induction d as [|[k0 v0] d IH]; simpl.
  - apply String.eqb_neq in Hk. now rewrite Hk.
  - destruct (String.eqb k0 k) eqn:E; simpl.
    + apply String.eqb_eq in E. subst k0.
      apply String.eqb_neq in Hk. now rewrite Hk.
    + destruct (String.eqb k0 k'); [reflexivity | exact IH].
Qed.

Lemma has_key_store_other d k k' v :
  k <> k' -> has_key (store d k v) k' = has_key d k'.
Proof. intros H. unfold has_key. now rewrite lookup_store_other. Qed.

Lemma has_key_false d k : has_key d k = false -> lookup d k = None.
Proof. unfold has_key. now destruct (lookup d k). Qed.
End DictFacts.

Lemma lookup_not_in {V : Type} (d : list (string * V)) (k : string) :
  ~ In k (map fst d) -> lookup d k = None.
Proof.
  induction d as [|[k0 v0] d IH]; simpl; intros H; [reflexivity|].
  destruct (String.eqb_spec k0 k) as [->|]; [tauto|]. apply IH. tauto.
Qed.

Lemma distinct_NoDup (names : list string) :
  distinct names = true -> NoDup names.
Proof.
  induction names as [|n rest IH]; simpl; intros H.
  - constructor.
  - apply andb_prop in H as [Hn Hr]. constructor; [|now apply IH].
    intros Hin. apply negb_true_iff in Hn.
    assert (existsb (String.eqb n) rest = true) as E.
    { apply existsb_exists. exists n. split; [assumption | apply String.eqb_refl]. }
    congruence.
Qed.

(** ** Titles of identifiers *)

Lemma identifier_no_space (name : string) :
  is_identifier name = true -> no_space name = true.
Proof.
  unfold is_identifier, no_space.
  destruct name as [|c0 s0]; [discriminate|].
  intros H. apply andb_prop in H as [_ H]. revert H.
  generalize (String c0 s0) as s. clear.
  induction s as [|c s IH]; simpl; intros H.
  - reflexivity.
  - apply andb_prop in H as [Hc Hs]. rewrite (IH Hs), andb_true_r.
    destruct (Ascii.eqb_spec c " ") as [->|]; [discriminate Hc | reflexivity].
Qed.

(** The title of a name without a space is another such name only when the
    two names are equal. *)
Lemma title_is_name (n n' : string) :
  no_space n = true -> title_of n' = n -> n' = n.
Proof.
  unfold no_space, title_of.
  revert n. induction n' as [|c' s' IH]; intros [|c s]; simpl; try discriminate.
  - reflexivity.
  - intros H E. apply andb_prop in H as [Hc Hs].
    injection E as Ec Es. f_equal; [|now apply IH].
    destruct (Ascii.eqb_spec c' "_") as [->|]; [|assumption].
    subst c. discriminate Hc.
Qed.

Lemma title_injective (n n' : string) :
  no_space n = true -> no_space n' = true -> title_of n = title_of n' -> n = n'.
Proof.
  unfold no_space, title_of.
  revert n'. induction n as [|c s IH]; intros [|c' s']; simpl; try discriminate.
  - reflexivity.
  - intros H H' E.
    apply andb_prop in H as [Hc Hs]. apply andb_prop in H' as [Hc' Hs'].
    injection E as Ec Es. f_equal; [|now apply IH].
    destruct (Ascii.eqb_spec c "_") as [->|], (Ascii.eqb_spec c' "_") as [->|];
      try reflexivity; try assumption; subst; discriminate.
Qed.

(** ** Induction on classes *)

Lemma vtype_nested_ind (P : vtype -> Prop) :
  P TStr -> P TInt -> P TFloat -> (forall allowed, P (TLiteral allowed)) ->
  (forall annotations,
      Forall (fun f => P (snd f)) annotations -> P (TClass annotations)) ->
  forall vtype, P vtype.
Proof.
  intros HS HI HF HL HC.
  fix IH 1.
  intros [ | | |allowed|annotations];
    [exact HS | exact HI | exact HF | apply HL | apply HC].
  induction annotations as [|[n vt] rest IHrest]; constructor.
  - apply IH.
  - exact IHrest.
Qed.

(** ** Building *)

Lemma from_lines_eq (annotations : list (string * vtype)) (lines : list string) :
  from_lines (TClass annotations) lines
  = match annotations with
    | [] => Raise AttributeError
    | _ :: _ =>
        (attrs <- fields_loop lines annotations [] ;; Ok (PObj annotations attrs))%py
    end.
Proof.
  simpl.
  match goal with
  | |- match annotations with [] => _ | _ :: _ => bind (?F annotations []) _ end = _ =>
      assert (HF : forall l obj, F l obj = fields_loop lines l obj)
  end.
  { induction l as [|[name vt] rest IH]; intros obj; simpl.
    - reflexivity.
    - destruct vt; simpl;
        match goal with
        | |- bind ?c _ = _ =>
            destruct c; simpl; [destruct (setattr_error name); [reflexivity | apply IH]
                               | reflexivity]
        end. }
  now rewrite HF.
Qed.

(** ** Schemas *)

Lemma field_name_sets (name : string) :
  is_field_name name = true ->
  is_identifier name = true
  /\ setattr_error name = None
  /\ name <> "to_dict" /\ name <> "__annotations__".
Proof.
  unfold is_field_name, is_class_attribute. intros H.
  apply andb_prop in H as [Hid H]. apply negb_true_iff in H.
  apply orb_false_elim in H as [H _]. apply orb_false_elim in H as [Hdd Hm].
  split; [assumption|].
  repeat split.
  - unfold setattr_error.
    destruct (String.eqb_spec name "__class__") as [->|_]; [discriminate Hdd|].
    destruct (String.eqb_spec name "__dict__") as [->|_]; [discriminate Hdd|].
    destruct (String.eqb_spec name "__weakref__") as [->|_]; [discriminate Hdd|].
    reflexivity.
  - intros ->. discriminate Hm.
  - intros ->. discriminate Hdd.
Qed.

Lemma wf_schema_fields (annotations : list (string * vtype)) :
  wf_schema (TClass annotations) = true ->
  annotations <> []
  /\ NoDup (map fst annotations)
  /\ (forall name vtype, In (name, vtype) annotations ->
        is_field_name name = true /\ wf_schema vtype = true).
Proof.
  cbn [wf_schema]. intros H.
  apply andb_prop in H as [H Hwf]. apply andb_prop in H as [H Hid].
  apply andb_prop in H as [Hne Hd].
  split; [destruct annotations; [discriminate Hne | discriminate]|].
  split; [now apply distinct_NoDup|].
  intros name vtype Hin. split.
  - rewrite forallb_forall in Hid. exact (Hid _ Hin).
  - rewrite forallb_forall in Hwf. exact (Hwf _ Hin).
Qed.

(** A schema is a class keyed by identifiers. *)
Lemma wf_schema_class (vtype : vtype) : wf_schema vtype = true -> wf_class vtype = true.
Proof.
  induction vtype as [ | | |allowed|annotations IH] using vtype_nested_ind;
    try reflexivity.
  intros H. destruct (wf_schema_fields _ H) as [_ [_ Hf]].
  cbn [wf_schema] in H.
  apply andb_prop in H as [H _]. apply andb_prop in H as [H _].
  apply andb_prop in H as [_ Hd].
  cbn [wf_class]. rewrite Hd. cbn [andb].
  rewrite Forall_forall in IH.
  apply andb_true_intro. split; apply forallb_forall; intros [n vt] Hin; cbn [fst snd].
  - exact (proj1 (field_name_sets _ (proj1 (Hf _ _ Hin)))).
  - exact (IH _ Hin (proj2 (Hf _ _ Hin))).
Qed.

Lemma from_line_returns (vtype : vtype) (line : string) :
  exists v, from_line vtype line = Ok v /\ is_leaf v = true.
Proof.
  unfold from_line.
  destruct (Str.find ":" line <? 0); [eexists; split; reflexivity|].
  destruct (is_numeric vtype).
  - unfold str_to_num.
    destruct (Float.of_str _) as [f|e]; simpl; [|eexists; split; reflexivity].
    destruct (Float.to_int f) as [i|e]; simpl; [|eexists; split; reflexivity].
    destruct (Float.eq_int f i); eexists; split; reflexivity.
  - eexists; split; reflexivity.
Qed.

Lemma fields_loop_returns (lines : list string) (l : list (string * vtype)) :
  (forall name vtype, In (name, vtype) l ->
     setattr_error name = None
     /\ exists v, field_value lines name vtype = Ok v) ->
  forall obj, exists attrs, fields_loop lines l obj = Ok attrs.
Proof.
  induction l as [|[n vt] rest IH]; intros Hl obj; simpl.
  - now exists obj.
  - destruct (Hl n vt (or_introl eq_refl)) as [Hs [v Hv]].
    rewrite Hv, Hs. simpl. apply IH. intros name vtype Hin. apply Hl. now right.
Qed.

(** Every field of a schema gets a value: the build never raises. *)
Lemma field_value_returns (vtype : vtype) :
  wf_schema vtype = true ->
  forall lines name, exists v, field_value lines name vtype = Ok v.
Proof.
  induction vtype as [ | | |allowed|annotations IH] using vtype_nested_ind;
    intros Hwf lines name;
    try (match goal with
         | |- exists v, field_value _ _ ?vt = Ok v =>
             destruct (from_line_returns vt (lines_find_line lines (title_of name)))
               as [v [Hv _]]; now exists v
         end).
  destruct (wf_schema_fields _ Hwf) as [Hne [_ Hf]].
  unfold field_value. rewrite from_lines_eq.
  rewrite Forall_forall in IH.
  destruct (fields_loop_returns (lines_find_section lines (title_of name)) annotations)
    with (obj := @nil (string * pyval)) as [attrs Ha].
  { intros n vt Hin. split.
    - exact (proj1 (proj2 (field_name_sets _ (proj1 (Hf _ _ Hin))))).
    - exact (IH (n, vt) Hin (proj2 (Hf _ _ Hin)) _ n). }
  rewrite Ha. destruct annotations; [congruence|]. simpl. eauto.
Qed.

(** The attributes after the loop: a field of the loop holds its value, any
    other name holds what it held before. *)
Lemma fields_loop_lookup (lines : list string) (l : list (string * vtype)) :
  forall obj attrs,
    NoDup (map fst l) ->
    fields_loop lines l obj = Ok attrs ->
    (forall name vtype, In (name, vtype) l ->
       exists v, field_value lines name vtype = Ok v /\ lookup attrs name = Some v)
    /\ (forall k, ~ In k (map fst l) -> lookup attrs k = lookup obj k).
Proof.
  induction l as [|[n vt] rest IH]; intros obj attrs Hnd Hloop; simpl in *.
  - injection Hloop as <-. split; [intros ? ? []|reflexivity].
  - inversion Hnd as [|? ? Hn Hrest]; subst.
    destruct (field_value lines n vt) as [v|e] eqn:Hv; simpl in Hloop; [|discriminate].
    destruct (setattr_error n); [discriminate|].
    destruct (IH _ _ Hrest Hloop) as [Hin Hout].
    split.
    + intros name vtype [E|Hin'].
      * injection E as <- <-. exists v. split; [assumption|].
        rewrite (Hout n Hn). apply lookup_store_same.
      * now apply Hin.
    + intros k Hk.
      rewrite Hout by tauto.
      apply lookup_store_other. tauto.
Qed.


Lemma store_In {V : Type} (d : list (string * V)) (k : string) (v : V) (e : string * V) :
  In e (store d k v) -> In e d \/ e = (k, v).
Proof.
  induction d as [|[k0 v0] d IH]; simpl.
  - intros [<-|[]]. now right.
  - destruct (String.eqb k0 k); simpl.
    + intros [<-|H]; [now right | left; now right].
    + intros [<-|H]; [left; now left|].
      destruct (IH H); [left; now right | now right].
Qed.

(** Every attribute after the loop was there before or is the value of a
    field of the loop. *)
Lemma fields_loop_entries (lines : list string) (l : list (string * vtype)) :
  forall obj attrs,
    fields_loop lines l obj = Ok attrs ->
    forall k v, In (k, v) attrs ->
      In (k, v) obj \/ exists vtype, In (k, vtype) l /\ field_value lines k vtype = Ok v.
Proof.
  induction l as [|[n vt] rest IH]; intros obj attrs Hloop k v Hin; simpl in *.
  - injection Hloop as <-. now left.
  - destruct (field_value lines n vt) as [v0|e] eqn:Hv; simpl in Hloop; [|discriminate].
    destruct (setattr_error n); [discriminate|].
    destruct (IH _ _ Hloop k v Hin) as [Hs|[vtype [H1 H2]]].
    + apply store_In in Hs as [Hs|E].
      * now left.
      * injection E as -> ->. right. exists vt. split; [now left | assumption].
    + right. exists vtype. split; [now right | assumption].
Qed.

Lemma wf_class_fields (annotations : list (string * vtype)) :
  wf_class (TClass annotations) = true ->
  NoDup (map fst annotations)
  /\ (forall name vtype, In (name, vtype) annotations ->
        no_space name = true /\ wf_class vtype = true).
Proof.
  simpl. intros H.
  apply andb_prop in H as [H Hwf]. apply andb_prop in H as [Hd Hid].
  split; [now apply distinct_NoDup|].
  intros name vtype Hin. split.
  - apply identifier_no_space.
    rewrite forallb_forall in Hid. exact (Hid _ Hin).
  - rewrite forallb_forall in Hwf. exact (Hwf _ Hin).
Qed.

(** The object that [from_lines] returns for a schema. *)
Lemma from_lines_object (annotations : list (string * vtype)) (lines : list string) :
  wf_schema (TClass annotations) = true ->
  exists attrs,
    fields_loop lines annotations [] = Ok attrs
    /\ from_lines (TClass annotations) lines = Ok (PObj annotations attrs).
Proof.
  intros Hwf. destruct (wf_schema_fields _ Hwf) as [Hne [_ Hf]].
  destruct (fields_loop_returns lines annotations) with (obj := @nil (string * pyval))
    as [attrs Ha].
  { intros n vt Hin. split.
    - exact (proj1 (proj2 (field_name_sets _ (proj1 (Hf _ _ Hin))))).
    - exact (field_value_returns vt (proj2 (Hf _ _ Hin)) lines n). }
  exists attrs. split; [assumption|].
  rewrite from_lines_eq, Ha. destruct annotations; [congruence | reflexivity].
Qed.

Lemma field_value_class (lines : list string) (name : string)
    (annotations : list (string * vtype)) (v : pyval) :
  field_value lines name (TClass annotations) = Ok v ->
  exists attrs,
    v = PObj annotations attrs
    /\ fields_loop (lines_find_section lines (title_of name)) annotations [] = Ok attrs.
Proof.
  unfold field_value. rewrite from_lines_eq. intros H.
  destruct annotations as [|f0 rest0]; [discriminate|].
  destruct (fields_loop _ (f0 :: rest0) []) as [attrs|e]; simpl in H; [|discriminate].
  exists attrs. split; [congruence | reflexivity].
Qed.

Lemma field_value_leaf (lines : list string) (name : string) (vtype : vtype) (v : pyval) :
  is_class vtype = false ->
  field_value lines name vtype = Ok v ->
  from_line vtype (lines_find_line lines (title_of name)) = Ok v
  /\ is_leaf v = true.
Proof.
  intros Hc Hv.
  assert (E : field_value lines name vtype
              = from_line vtype (lines_find_line lines (title_of name)))
    by (destruct vtype; try reflexivity; discriminate).
  rewrite E in Hv. split; [assumption|].
  destruct (from_line_returns vtype (lines_find_line lines (title_of name)))
    as [v' [H1 H2]].
  congruence.
Qed.

(** The value of every field has the shape of its type. *)
Lemma field_value_shaped (vtype : vtype) :
  wf_class vtype = true ->
  forall lines name v, field_value lines name vtype = Ok v -> shaped vtype v = true.
Proof.
  induction vtype as [ | | |allowed|annotations IH] using vtype_nested_ind;
    intros Hwf lines name v Hv;
    try (match type of Hv with
         | field_value _ _ ?vt = _ =>
             exact (proj2 (field_value_leaf lines name vt v eq_refl Hv))
         end).
  destruct (field_value_class _ _ _ _ Hv) as [attrs [-> Ha]].
  destruct (wf_class_fields _ Hwf) as [Hnd Hfields].
  destruct (fields_loop_lookup _ _ _ _ Hnd Ha) as [Hin _].
  simpl. apply forallb_forall. intros [n vt] Hf. simpl.
  destruct (Hin n vt Hf) as [v' [Hv' Hl]]. rewrite Hl.
  rewrite Forall_forall in IH.
  apply (IH (n, vt) Hf (proj2 (Hfields n vt Hf)) _ _ _ Hv').
Qed.

(** Built from no line at all, every leaf is ['N/A']. *)
Lemma field_value_absent (vtype : vtype) :
  forall lines name v,
    (is_class vtype = true -> lines_find_section lines (title_of name) = []) ->
    (is_class vtype = false -> lines = []) ->
    field_value lines name vtype = Ok v -> all_NA v = true.
Proof.
  induction vtype as [ | | |allowed|annotations IH] using vtype_nested_ind;
    intros lines name v Hsec Hlines Hv;
    try (rewrite (Hlines eq_refl) in Hv; injection Hv as <-; reflexivity).
  destruct (field_value_class _ _ _ _ Hv) as [attrs [-> Ha]].
  rewrite (Hsec eq_refl) in Ha.
  simpl. apply forallb_forall. intros [k v'] Hk. simpl.
  destruct (fields_loop_entries _ _ _ _ Ha k v' Hk) as [[]|[vt [Hin Hf]]].
  rewrite Forall_forall in IH.
  apply (IH (k, vt) Hin [] k v'); auto.
Qed.

(** C3, as stated, fails at a schema without fields: [from_lines] reads
    the annotations of the class from a fresh object, a class that declares
    no annotated field has none, and the call raises [AttributeError]; so
    does the build of a schema that nests such a class. *)
Lemma from_lines_empty_schema :
  from_lines (TClass []) ["    Fan Speed : 40 %"] = Raise AttributeError
  /\ from_lines (TClass [("Fan_Speed", TInt); ("Clocks", TClass [])])
       ["    Fan Speed : 40 %"]
     = Raise AttributeError.
Proof. split; reflexivity. Qed.

(** C3, amended: [from_lines] returns an object for every schema, a class
    that declares at least one field at every level under names that are
    not attributes of the class itself, and every sequence of lines; the
    object has an attribute for every annotation of the class, and so has
    every nested object in it; a nested field whose section is not found is
    such an object too, with ['N/A'] at every leaf. *)
Theorem from_lines_total (annotations : list (string * vtype)) (lines : list string) :
  wf_schema (TClass annotations) = true ->
  exists attrs,
    from_lines (TClass annotations) lines = Ok (PObj annotations attrs)
    /\ shaped (TClass annotations) (PObj annotations attrs) = true
    /\ (forall name vtype, In (name, vtype) annotations ->
          exists v, lookup attrs name = Some v /\ shaped vtype v = true)
    /\ (forall name sub, In (name, TClass sub) annotations ->
          lines_find_section lines (title_of name) = [] ->
          exists sub_attrs,
            lookup attrs name = Some (PObj sub sub_attrs)
            /\ shaped (TClass sub) (PObj sub sub_attrs) = true
            /\ all_NA (PObj sub sub_attrs) = true).
Proof.
  intros Hws.
  destruct (from_lines_object annotations lines Hws) as [attrs [Ha Hf]].
  destruct (wf_class_fields _ (wf_schema_class _ Hws)) as [Hnd Hfields].
  destruct (fields_loop_lookup _ _ _ _ Hnd Ha) as [Hin _].
  exists attrs. split; [assumption|].
  assert (Hshape : forall name vtype, In (name, vtype) annotations ->
            exists v, lookup attrs name = Some v /\ shaped vtype v = true).
  { intros name vtype Hf'. destruct (Hin _ _ Hf') as [v [Hv Hl]].
    exists v. split; [assumption|].
    apply (field_value_shaped vtype (proj2 (Hfields _ _ Hf')) _ _ _ Hv). }
  split; [|split; [assumption|]].
  - simpl. apply forallb_forall. intros [n vt] Hf'. simpl.
    destruct (Hshape _ _ Hf') as [v [-> Hs]]. exact Hs.
  - intros name sub Hf' Hsec.
    destruct (Hin _ _ Hf') as [v [Hv Hl]].
    pose proof (field_value_shaped _ (proj2 (Hfields _ _ Hf')) _ _ _ Hv) as Hs.
    pose proof (field_value_absent (TClass sub) lines name v
                  (fun _ => Hsec) (fun H => ltac:(discriminate H)) Hv) as Hna.
    destruct (field_value_class _ _ _ _ Hv) as [sub_attrs [-> _]].
    exists sub_attrs. auto.
Qed.

Lemma from_lines_total_witness :
  exists attrs,
    from_lines
      (TClass [("Fan_Speed", TInt);
               ("Temperature", TClass [("GPU_Current_Temp", TInt)]);
               ("Clocks", TClass [("Graphics", TInt); ("SM", TInt)])])
      ["    Fan Speed : 40 %"; "    Temperature"; "        GPU Current Temp : 55 C"]
    = Ok (PObj [("Fan_Speed", TInt);
                ("Temperature", TClass [("GPU_Current_Temp", TInt)]);
                ("Clocks", TClass [("Graphics", TInt); ("SM", TInt)])] attrs)
    /\ lookup attrs "Clocks"
       = Some (PObj [("Graphics", TInt); ("SM", TInt)]
                 [("Graphics", PStr "N/A"); ("SM", PStr "N/A")]).
Proof.
  destruct (from_lines_total
              [("Fan_Speed", TInt);
               ("Temperature", TClass [("GPU_Current_Temp", TInt)]);
               ("Clocks", TClass [("Graphics", TInt); ("SM", TInt)])]
              ["    Fan Speed : 40 %"; "    Temperature"; "        GPU Current Temp : 55 C"]
              eq_refl) as [attrs [Hf _]].
  exists attrs. split; [exact Hf|].
  vm_compute in Hf. injection Hf as <-. reflexivity.
Defined.

(** ** Rendering *)

Lemma to_dict_loop_eq (sub : list (string * result (list (string * rendered))))
    (attrs : list (string * pyval)) :
  (forall n, lookup sub n = option_map to_dict (lookup attrs n)) ->
  forall l data, to_dict_loop sub attrs l data = render_loop attrs l data.
Proof.
  intros Hsub.
  induction l as [|[name vt] rest IH]; intros data; simpl.
  - reflexivity.
  - destruct (has_key data name); [apply IH|].
    destruct (is_NA (getitem attrs name)); [apply IH|].
    destruct (is_class vt); [|apply IH].
    rewrite Hsub. unfold getitem.
    destruct (lookup attrs name) as [v|]; simpl; [|reflexivity].
    destruct (to_dict v); simpl; [apply IH | reflexivity].
Qed.

(** [to_dict] is the loop over the annotations of the class of the object,
    from the empty mapping, when nothing stops it before. *)
Lemma to_dict_eq (cls : list (string * vtype)) (attrs : list (string * pyval)) :
  to_dict (PObj cls attrs)
  = match to_dict_guard cls attrs with
    | Some e => Raise e
    | None => render_loop attrs cls []
    end.
Proof.
  cbn [to_dict]. destruct (to_dict_guard cls attrs); [reflexivity|].
  apply to_dict_loop_eq.
  clear cls. intros n.
  induction attrs as [|[k v] attrs IH]; simpl.
  - reflexivity.
  - destruct (String.eqb k n); [reflexivity | exact IH].
Qed.

(** When [to_dict] returns, it returns what the loop gives. *)
Lemma to_dict_returned (cls : list (string * vtype)) (attrs : list (string * pyval))
    (data : list (string * rendered)) :
  to_dict (PObj cls attrs) = Ok data -> render_loop attrs cls [] = Ok data.
Proof.
  rewrite to_dict_eq. now destruct (to_dict_guard cls attrs).
Qed.

(** Nothing stops [to_dict] on an object that holds what a schema
    declares. *)
Lemma to_dict_guard_schema (cls : list (string * vtype)) (attrs : list (string * pyval)) :
  wf_schema (TClass cls) = true ->
  (forall k, ~ In k (map fst cls) -> lookup attrs k = None) ->
  to_dict_guard cls attrs = None.
Proof.
  intros Hwf Hk. destruct (wf_schema_fields _ Hwf) as [Hne [_ Hf]].
  assert (Hno : forall k, (forall n vt, In (n, vt) cls -> n <> k) -> lookup attrs k = None).
  { intros k Hk'. apply Hk. intros Hin.
    apply in_map_iff in Hin as [[n vt] [E Hin]]. simpl in E. subst n.
    exact (Hk' _ _ Hin eq_refl). }
  unfold to_dict_guard, has_key.
  rewrite (Hno "to_dict"), (Hno "__annotations__").
  - destruct cls; [congruence | reflexivity].
  - intros n vt Hin. exact (proj2 (proj2 (proj2 (field_name_sets _ (proj1 (Hf _ _ Hin)))))).
  - intros n vt Hin.
    exact (proj1 (proj2 (proj2 (field_name_sets _ (proj1 (Hf _ _ Hin)))))).
Qed.

(** The mapping after the loop of [to_dict] over fields with distinct
    identifiers, none of them rendered before: under its title, a field
    leaves what [render_field] says; any other title holds what it held
    before. *)
Lemma render_loop_fields (attrs : list (string * pyval)) (l : list (string * vtype)) :
  forall data,
    NoDup (map fst l) ->
    (forall n, In n (map fst l) -> no_space n = true) ->
    (forall n, In n (map fst l) -> has_key data n = false) ->
    (forall n, In n (map fst l) -> has_key data (title_of n) = false) ->
    (forall n vt, In (n, vt) l -> exists r, render_field vt (getitem attrs n) = Ok r) ->
    exists data',
      render_loop attrs l data = Ok data'
      /\ (forall n vt, In (n, vt) l ->
            render_field vt (getitem attrs n) = Ok (lookup data' (title_of n)))
      /\ (forall t, ~ In t (map title_of (map fst l)) -> lookup data' t = lookup data t).
Proof.
  induction l as [|[n vt] rest IH]; intros data Hnd Hsp Hname Htitle Hr; simpl in *.
  - exists data. split; [reflexivity|]. split; [intros ? ? []|reflexivity].
  - inversion Hnd as [|? ? Hn Hrest]; subst.
    rewrite (Hname n (or_introl eq_refl)).
    assert (Hfresh : forall x, no_space n = true -> In x (map fst rest) ->
                               title_of n <> x /\ title_of n <> title_of x).
    { intros x Hsn Hx. split; intros E.
      - apply title_is_name in E; [|apply Hsp; now right]. congruence.
      - apply title_injective in E; [congruence|assumption|apply Hsp; now right]. }
    assert (Hsn : no_space n = true) by (apply Hsp; now left).
    assert (Hnot : ~ In (title_of n) (map title_of (map fst rest))).
    { intros Hin. apply in_map_iff in Hin as [x [E Hx]].
      destruct (Hfresh x Hsn Hx) as [_ H]. congruence. }
    destruct (Hr n vt (or_introl eq_refl)) as [r Hrn].
    unfold render_field in Hrn |- *.
    destruct (is_NA (getitem attrs n)) eqn:Hna.
    + (* the value is 'N/A': continue *)
      destruct (IH data Hrest) as [data' [Hloop [Hin Hout]]]; auto.
      exists data'. split; [assumption|]. split.
      * intros n0 vt0 [E|Hin0].
        -- injection E as <- <-. rewrite Hna.
           rewrite (Hout _ Hnot).
           now rewrite (has_key_false _ _ (Htitle n (or_introl eq_refl))).
        -- now apply Hin.
      * intros t Ht. apply Hout. tauto.
    + destruct (is_class vt) eqn:Hcls.
      * (* a nested object *)
        destruct (to_dict (getitem attrs n)) as [d|e] eqn:Hd; simpl in Hrn;
          [|discriminate]. simpl.
        destruct (IH (store data (title_of n) (RDict d)) Hrest)
          as [data' [Hloop [Hin Hout]]]; auto.
        { intros x Hx. rewrite has_key_store_other by (apply Hfresh; auto). auto. }
        { intros x Hx. rewrite has_key_store_other by (apply Hfresh; auto). auto. }
        exists data'. split; [assumption|]. split.
        -- intros n0 vt0 [E|Hin0].
           ++ injection E as <- <-. rewrite Hna, Hcls, Hd. simpl.
              rewrite (Hout _ Hnot). now rewrite lookup_store_same.
           ++ now apply Hin.
        -- intros t Ht. rewrite Hout by tauto.
           apply lookup_store_other. tauto.
      * (* a leaf *)
        destruct (IH (store data (title_of n) (RVal (getitem attrs n))) Hrest)
          as [data' [Hloop [Hin Hout]]]; auto.
        { intros x Hx. rewrite has_key_store_other by (apply Hfresh; auto). auto. }
        { intros x Hx. rewrite has_key_store_other by (apply Hfresh; auto). auto. }
        exists data'. split; [assumption|]. split.
        -- intros n0 vt0 [E|Hin0].
           ++ injection E as <- <-. rewrite Hna, Hcls.
              rewrite (Hout _ Hnot). now rewrite lookup_store_same.
           ++ now apply Hin.
        -- intros t Ht. rewrite Hout by tauto.
           apply lookup_store_other. tauto.
Qed.

(** The value of every field of a schema renders. *)
Lemma field_value_renders (vtype : vtype) :
  wf_schema vtype = true ->
  forall lines name v,
    field_value lines name vtype = Ok v -> exists r, render_field vtype v = Ok r.
Proof.
  induction vtype as [ | | |allowed|annotations IH] using vtype_nested_ind;
    intros Hws lines name v Hv;
    try (unfold render_field; destruct (is_NA v); eexists; reflexivity).
  destruct (field_value_class _ _ _ _ Hv) as [attrs [-> Ha]].
  destruct (wf_class_fields _ (wf_schema_class _ Hws)) as [Hnd Hfields].
  destruct (wf_schema_fields _ Hws) as [_ [_ Hsub]].
  destruct (fields_loop_lookup _ _ _ _ Hnd Ha) as [Hin Hout].
  unfold render_field. cbv [is_NA is_class]. rewrite to_dict_eq.
  rewrite (to_dict_guard_schema _ _ Hws Hout).
  destruct (render_loop_fields attrs annotations [] Hnd) as [data [Hd _]]; auto.
  - intros n Hn. apply in_map_iff in Hn as [[n' vt] [<- Hf]].
    apply (Hfields _ _ Hf).
  - intros n vt Hf. destruct (Hin _ _ Hf) as [v' [Hv' Hl]].
    unfold getitem. rewrite Hl.
    rewrite Forall_forall in IH.
    apply (IH (n, vt) Hf (proj2 (Hsub _ _ Hf)) _ _ _ Hv').
  - rewrite Hd. simpl. eauto.
Qed.

(** Building an object of a schema and rendering it: both return, and
    under the title of each field the mapping holds what [render_field]
    says of the value of the field. *)
Lemma build_and_render (annotations : list (string * vtype)) (lines : list string) :
  wf_schema (TClass annotations) = true ->
  exists attrs data,
    from_lines (TClass annotations) lines = Ok (PObj annotations attrs)
    /\ to_dict (PObj annotations attrs) = Ok data
    /\ (forall name vtype, In (name, vtype) annotations ->
          exists v,
            field_value lines name vtype = Ok v
            /\ lookup attrs name = Some v
            /\ render_field vtype v = Ok (lookup data (title_of name)))
    /\ (forall t, ~ In t (map title_of (map fst annotations)) -> lookup data t = None).
Proof.
  intros Hws.
  destruct (from_lines_object annotations lines Hws) as [attrs [Ha Hf]].
  destruct (wf_class_fields _ (wf_schema_class _ Hws)) as [Hnd Hfields].
  destruct (wf_schema_fields _ Hws) as [_ [_ Hsub]].
  destruct (fields_loop_lookup _ _ _ _ Hnd Ha) as [Hin Hnone].
  destruct (render_loop_fields attrs annotations [] Hnd) as [data [Hd [Hr Hout]]]; auto.
  - intros n Hn. apply in_map_iff in Hn as [[n' vt] [<- Hf']].
    apply (Hfields _ _ Hf').
  - intros n vt Hf'. destruct (Hin _ _ Hf') as [v' [Hv' Hl]].
    unfold getitem. rewrite Hl.
    apply (field_value_renders vt (proj2 (Hsub _ _ Hf')) _ _ _ Hv').
  - exists attrs, data. split; [assumption|].
    split; [now rewrite to_dict_eq, (to_dict_guard_schema _ _ Hws Hnone)|].
    split; [|exact Hout].
    intros name vtype Hf'. destruct (Hin _ _ Hf') as [v [Hv Hl]].
    exists v. split; [assumption|]. split; [assumption|].
    specialize (Hr _ _ Hf'). unfold getitem in Hr. now rewrite Hl in Hr.
Qed.

(** C6: rendering an object built for a schema returns a mapping in which
    a leaf field with value ['N/A'] has no entry, any other leaf field has
    its value under its title, and a field of a nested class has the
    rendering of its object under its title, whatever that mapping holds;
    the mapping has no other key. *)
Theorem to_dict_fields (annotations : list (string * vtype)) (lines : list string) :
  wf_schema (TClass annotations) = true ->
  exists attrs data,
    from_lines (TClass annotations) lines = Ok (PObj annotations attrs)
    /\ to_dict (PObj annotations attrs) = Ok data
    /\ (forall name vtype, In (name, vtype) annotations ->
          exists v,
            lookup attrs name = Some v
            /\ match vtype with
               | TClass _ =>
                   exists d, to_dict v = Ok d
                             /\ lookup data (title_of name) = Some (RDict d)
               | _ =>
                   lookup data (title_of name)
                   = if is_NA v then None else Some (RVal v)
               end)
    /\ (forall t, ~ In t (map title_of (map fst annotations)) -> lookup data t = None).
Proof.
  intros Hwf.
  destruct (build_and_render annotations lines Hwf)
    as [attrs [data [Hf [Hd [Hfields Hkeys]]]]].
  exists attrs, data. split; [assumption|]. split; [assumption|].
  split; [|assumption].
  intros name vtype Hin.
  destruct (Hfields _ _ Hin) as [v [Hv [Hl Hr]]].
  exists v. split; [assumption|].
  destruct vtype as [ | | |allowed|sub];
    try (unfold render_field in Hr; simpl in Hr;
         destruct (is_NA v); injection Hr as <-; reflexivity).
  destruct (field_value_class _ _ _ _ Hv) as [sub_attrs [-> _]].
  unfold render_field in Hr. cbv [is_NA is_class] in Hr.
  destruct (to_dict (PObj sub sub_attrs)) as [d|e]; simpl in Hr; [|discriminate].
  injection Hr as <-. now exists d.
Qed.

Lemma to_dict_fields_witness :
  exists attrs data,
    from_lines
      (TClass [("Fan_Speed", TInt); ("Performance_State", TStr);
               ("Temperature", TClass [("GPU_Current_Temp", TInt)])])
      ["    Fan Speed : 40 %"; "    Performance State"]
    = Ok (PObj [("Fan_Speed", TInt); ("Performance_State", TStr);
                ("Temperature", TClass [("GPU_Current_Temp", TInt)])] attrs)
    /\ to_dict (PObj [("Fan_Speed", TInt); ("Performance_State", TStr);
                      ("Temperature", TClass [("GPU_Current_Temp", TInt)])] attrs)
       = Ok data
    /\ data = [("Fan Speed", RVal (PInt 40)); ("Temperature", RDict [])].
Proof.
  destruct (to_dict_fields
              [("Fan_Speed", TInt); ("Performance_State", TStr);
               ("Temperature", TClass [("GPU_Current_Temp", TInt)])]
              ["    Fan Speed : 40 %"; "    Performance State"]
              eq_refl) as [attrs [data [Hf [Hd _]]]].
  exists attrs, data. split; [exact Hf|]. split; [exact Hd|].
  vm_compute in Hf. injection Hf as <-.
  vm_compute in Hd. injection Hd as <-. reflexivity.
Defined.

(** ** Lines and values of primitive fields *)

Lemma starts_with_prefix (t s : string) :
  Str.starts_with t s = true <-> exists b, s = t ++ b.
Proof.
  revert s. induction t as [|a t IH]; intros s; simpl.
  - split; [intros _; now exists s | reflexivity].
  - destruct s as [|b s].
    + split; [discriminate | intros [x Hx]; discriminate].
    + rewrite andb_true_iff, IH. split.
      * intros [Hab [x ->]]. apply Ascii.eqb_eq in Hab as ->. now exists x.
      * intros [x Hx]. injection Hx as -> ->.
        split; [apply Ascii.eqb_refl | now exists x].
Qed.

(** [t in s]: [t] is a substring of [s]. *)
Lemma contains_substring (t s : string) :
  Str.contains t s = true <-> exists a b, s = a ++ t ++ b.
Proof.
  induction s as [|c s IH].
  - simpl. rewrite orb_false_r, starts_with_prefix. split.
    + intros [b Hb]. now exists "", b.
    + intros [a [b H]]. destruct a; [now exists b | discriminate].
  - simpl. rewrite orb_true_iff, starts_with_prefix, IH. split.
    + intros [[b Hb]|[a [b Hb]]].
      * now exists "", b.
      * exists (String c a), b. simpl. now rewrite Hb.
    + intros [a [b H]]. destruct a as [|c' a]; simpl in H.
      * left. now exists b.
      * right. injection H as -> ->. now exists a, b.
Qed.


(** [lines_find_line] returns the first line that contains the title. *)
Lemma lines_find_line_first (pre post : list string) (line title : string) :
  existsb (Str.contains title) pre = false ->
  Str.contains title line = true ->
  lines_find_line (pre ++ line :: post) title = line.
Proof.
  induction pre as [|l pre IH]; simpl; intros Hpre Hline.
  - now rewrite Hline.
  - apply orb_false_elim in Hpre as [Hl Hr]. rewrite Hl. now apply IH.
Qed.


Lemma find_from_first (c : ascii) (before after : string) (i : Z) :
  all_chars (fun d => negb (Ascii.eqb d c)) before = true ->
  Str.find_from c (before ++ String c after) i = i + Str.len before.
Proof.
  revert i. induction before as [|d s IH]; simpl; intros i H.
  - rewrite Ascii.eqb_refl. unfold Str.len. simpl. lia.
  - apply andb_prop in H as [Hd Hs]. apply negb_true_iff in Hd.
    rewrite Hd, IH by assumption. unfold Str.len. simpl String.length. lia.
Qed.

Lemma drop_app (before after : string) (c : ascii) :
  Str.drop (String.length before + 1) (before ++ String c after) = after.
Proof.
  induction before as [|d s IH]; simpl.
  - reflexivity.
  - exact IH.
Qed.

(** [line[p + 1:]] with [p = line.find(':')] is what follows the first
    colon. *)
Lemma slice_after_first (c : ascii) (before after : string) :
  all_chars (fun d => negb (Ascii.eqb d c)) before = true ->
  0 <= Str.find c (before ++ String c after)
  /\ Str.slice_from (Str.find c (before ++ String c after) + 1)
       (before ++ String c after) = after.
Proof.
  intros H. unfold Str.find, Str.slice_from.
  rewrite find_from_first by assumption. unfold Str.len. split; [lia|].
  replace (Z.to_nat (0 + Z.of_nat (String.length before) + 1))
    with (String.length before + 1)%nat by lia.
  apply drop_app.
Qed.

(** A string has no [c], or it splits at its first [c]. *)
Lemma find_from_cases (c : ascii) (s : string) :
  forall i,
    (all_chars (fun d => negb (Ascii.eqb d c)) s = true /\ Str.find_from c s i = -1)
    \/ (exists before after,
          s = before ++ String c after
          /\ all_chars (fun d => negb (Ascii.eqb d c)) before = true
          /\ Str.find_from c s i = i + Str.len before).
Proof.
  induction s as [|d s IH]; intros i; simpl.
  - now left.
  - destruct (Ascii.eqb_spec d c) as [->|Hd].
    + right. exists "", s. repeat split. unfold Str.len. simpl. lia.
    + destruct (IH (i + 1)) as [[Hs Hf]|[before [after [-> [Hb Hf]]]]].
      * left. simpl. now rewrite Hs.
      * right. exists (String d before), after. simpl.
        apply Ascii.eqb_neq in Hd. rewrite Hd, Hb.
        repeat split. rewrite Hf. unfold Str.len. simpl String.length. lia.
Qed.

(** The cases of [from_line]: without a colon the value is ['N/A'];
    otherwise the text after the first colon, stripped, is the value of a
    string field and goes through [regex_find] and [str_to_num] for a
    numeric field. *)
Lemma from_line_cases (vtype : vtype) (line : string) :
  (Str.find ":" line < 0
   /\ all_chars (fun d => negb (Ascii.eqb d ":")) line = true
   /\ from_line vtype line = Ok (PStr "N/A"))
  \/ (exists before after,
        line = before ++ String ":" after
        /\ all_chars (fun d => negb (Ascii.eqb d ":")) before = true
        /\ 0 <= Str.find ":" line
        /\ from_line vtype line
           = if is_numeric vtype
             then str_to_num (regex_find (Str.strip after) NUMERIC_PART)
             else Ok (PStr (Str.strip after))).
Proof.
  destruct (find_from_cases ":" line 0) as [[Hs Hf]|[before [after [-> [Hb Hf]]]]].
  - left. unfold from_line. fold (Str.find ":" line) in Hf. rewrite Hf.
    split; [lia|]. split; [assumption | reflexivity].
  - right. exists before, after.
    destruct (slice_after_first ":" before after Hb) as [Hp Hslice].
    repeat split; try assumption.
    unfold from_line. rewrite Hslice.
    destruct (Z.ltb_spec (Str.find ":" (before ++ String ":" after)) 0); [lia|].
    reflexivity.
Qed.

(** What [p+] finds in a text *)

Lemma plus_greedy_longest {A : Type} (p : ascii -> bool) (k : string -> option A) :
  (forall rest, k rest <> None) ->
  forall c s,
    plus_greedy p (String c s) k = if p c then k (Str.lstrip p s) else None.
Proof.
  intros Hk c s. revert c.
  induction s as [|d s IH]; intros c.
  - reflexivity.
  - change (plus_greedy p (String c (String d s)) k)
      with (if p c
            then match plus_greedy p (String d s) k with
                 | Some a => Some a
                 | None => k (String d s)
                 end
            else None).
    rewrite IH. simpl.
    destruct (p c); [|reflexivity].
    destruct (p d); [|reflexivity].
    destruct (k (Str.lstrip p s)) eqn:E; [reflexivity | now destruct (Hk _ E)].
Qed.

Lemma lstrip_after_run (p : ascii -> bool) (run after : string) :
  all_chars p run = true ->
  match after with
  | String c _ => p c = false
  | EmptyString => True
  end ->
  Str.lstrip p (run ++ after) = after.
Proof.
  intros Hrun Ha.
  induction run as [|c run IH]; simpl in *.
  - destruct after as [|c after]; [reflexivity|]. simpl. now rewrite Ha.
  - apply andb_prop in Hrun as [Hc Hr]. rewrite Hc. now apply IH.
Qed.

(** The first run of characters of [p], between a text without any and a
    character that is not one, is what [p+] finds. *)
Lemma search_plus_run (p : ascii -> bool) (before run after : string) :
  all_chars (fun c => negb (p c)) before = true ->
  run <> "" ->
  all_chars p run = true ->
  match after with
  | String c _ => p c = false
  | EmptyString => True
  end ->
  search (Plus p) (before ++ run ++ after)
  = Some {| group0 := run; groups := [] |}.
Proof.
  intros Hb Hne Hrun Ha.
  induction before as [|c before IH].
  - destruct run as [|c run]; [congruence|].
    simpl in Hrun. apply andb_prop in Hrun as [Hc Hr].
    cbn [append search]. unfold match_here. cbn [rmatch].
    rewrite plus_greedy_longest by discriminate.
    rewrite Hc, (lstrip_after_run _ _ _ Hr Ha).
    change (String c (run ++ after)) with (String c run ++ after).
    now rewrite consumed_run.
  - simpl in Hb. apply andb_prop in Hb as [Hc Hb'].
    apply negb_true_iff in Hc.
    cbn [append search]. unfold match_here. cbn [rmatch].
    rewrite plus_greedy_longest by discriminate. rewrite Hc.
    now apply IH.
Qed.

(** A text without a character of [p] has no match of [p+]. *)
Lemma search_plus_none (p : ascii -> bool) (s : string) :
  all_chars (fun c => negb (p c)) s = true -> search (Plus p) s = None.
Proof.
  induction s as [|c s IH]; simpl; intros H.
  - reflexivity.
  - apply andb_prop in H as [Hc Hs]. apply negb_true_iff in Hc.
    unfold match_here. simpl. rewrite Hc. now apply IH.
Qed.

Lemma render_field_leaf (vtype : vtype) (v : pyval) (r : option rendered) :
  is_class vtype = false ->
  render_field vtype v = Ok r ->
  r = if is_NA v then None else Some (RVal v).
Proof.
  unfold render_field. intros ->.
  destruct (is_NA v); intros H; now injection H as <-.
Qed.



(** ** Numeric fields without a number *)

Lemma all_chars_lstrip (q p : ascii -> bool) (s : string) :
  all_chars q s = true -> all_chars q (Str.lstrip p s) = true.
Proof.
  induction s as [|c s IH]; simpl; intros H.
  - reflexivity.
  - destruct (p c); [|exact H].
    apply andb_prop in H as [_ H]. now apply IH.
Qed.

Lemma all_chars_rstrip (q p : ascii -> bool) (s : string) :
  all_chars q s = true -> all_chars q (Str.rstrip p s) = true.
Proof.
  induction s as [|c s IH]; simpl; intros H.
  - reflexivity.
  - apply andb_prop in H as [Hc Hs]. specialize (IH Hs).
    destruct (Str.rstrip p s) as [|d r].
    + destruct (p c); simpl; [reflexivity | now rewrite Hc].
    + simpl in *. now rewrite Hc, IH.
Qed.

Lemma all_chars_strip (q : ascii -> bool) (s : string) :
  all_chars q s = true -> all_chars q (Str.strip s) = true.
Proof.
  intros H. unfold Str.strip. now apply all_chars_rstrip, all_chars_lstrip.
Qed.

Lemma from_line_no_number (vtype : vtype) (before after : string) :
  is_numeric vtype = true ->
  all_chars (fun d => negb (Ascii.eqb d ":")) before = true ->
  all_chars (fun c => negb (is_numeric_char c)) after = true ->
  from_line vtype (before ++ String ":" after) = Ok (PInt (-1)).
Proof.
  intros Hn Hb Ha.
  destruct (slice_after_first ":" before after Hb) as [Hp Hslice].
  unfold from_line. rewrite Hslice, Hn.
  destruct (Z.ltb_spec (Str.find ":" (before ++ String ":" after)) 0); [lia|].
  unfold regex_find, NUMERIC_PART.
  rewrite search_plus_none by now apply all_chars_strip.
  reflexivity.
Qed.

(** C9: a numeric field whose line has a colon but no digit and no ['.']
    after it, as with the text ["N/A"], has the value [-1], which is
    rendered under the title of the field; a string field whose text after
    the colon is ["N/A"] has the value ['N/A'] and no entry in the rendered
    mapping. *)
Theorem numeric_field_without_number (annotations : list (string * vtype))
    (pre post : list string) (before after : string) (name : string) (vtype : vtype) :
  wf_schema (TClass annotations) = true ->
  In (name, vtype) annotations ->
  is_class vtype = false ->
  existsb (Str.contains (title_of name)) pre = false ->
  Str.contains (title_of name) (before ++ String ":" after) = true ->
  all_chars (fun d => negb (Ascii.eqb d ":")) before = true ->
  exists attrs data,
    from_lines (TClass annotations) (pre ++ (before ++ String ":" after)%string :: post)%list
    = Ok (PObj annotations attrs)
    /\ to_dict (PObj annotations attrs) = Ok data
    /\ (is_numeric vtype = true ->
        all_chars (fun c => negb (is_numeric_char c)) after = true ->
        lookup attrs name = Some (PInt (-1))
        /\ lookup data (title_of name) = Some (RVal (PInt (-1))))
    /\ (is_numeric vtype = false ->
        Str.strip after = "N/A" ->
        lookup attrs name = Some (PStr "N/A")
        /\ lookup data (title_of name) = None).
Proof.
  intros Hwf Hin Hleaf Hpre Hcont Hb.
  destruct (build_and_render annotations
              (pre ++ (before ++ String ":" after)%string :: post)%list Hwf)
    as [attrs [data [Hf [Hd [Hfields _]]]]].
  destruct (Hfields _ _ Hin) as [v [Hv [Hl Hr]]].
  apply (render_field_leaf _ _ _ Hleaf) in Hr.
  destruct (field_value_leaf _ _ _ _ Hleaf Hv) as [Hline _].
  rewrite (lines_find_line_first _ _ _ _ Hpre Hcont) in Hline.
  exists attrs, data. do 2 (split; [assumption|]).
  split.
  - intros Hnum Hnone.
    rewrite (from_line_no_number _ _ _ Hnum Hb Hnone) in Hline.
    injection Hline as <-. now split.
  - intros Hstr Hna.
    destruct (slice_after_first ":" before after Hb) as [Hp Hslice].
    unfold from_line in Hline. rewrite Hslice, Hstr, Hna in Hline.
    destruct (Z.ltb_spec (Str.find ":" (before ++ String ":" after)) 0); [lia|].
    injection Hline as <-. now split.
Qed.

Lemma numeric_field_without_number_witness :
  exists attrs data,
    from_lines
      (TClass [("Fan_Speed", TInt); ("Performance_State", TStr)])
      ["    Performance State : N/A"; "    Fan Speed         : N/A"]
    = Ok (PObj [("Fan_Speed", TInt); ("Performance_State", TStr)] attrs)
    /\ to_dict (PObj [("Fan_Speed", TInt); ("Performance_State", TStr)] attrs)
       = Ok data
    /\ lookup attrs "Fan_Speed" = Some (PInt (-1))
    /\ lookup data "Fan Speed" = Some (RVal (PInt (-1))).
Proof.
  destruct (numeric_field_without_number
              [("Fan_Speed", TInt); ("Performance_State", TStr)]
              ["    Performance State : N/A"] []
              "    Fan Speed         " " N/A" "Fan_Speed" TInt
              eq_refl (or_introl eq_refl) eq_refl eq_refl eq_refl eq_refl)
    as [attrs [data [Hf [Hd [Hnum _]]]]].
  exists attrs, data. do 2 (split; [assumption|]).
  exact (Hnum eq_refl eq_refl).
Defined.

(** ** Merging *)

Lemma pyval_nested_ind (P : pyval -> Prop) :
  P PNone -> (forall s, P (PStr s)) -> (forall z, P (PInt z)) ->
  (forall f, P (PFloat f)) ->
  (forall cls attrs, Forall (fun a => P (snd a)) attrs -> P (PObj cls attrs)) ->
  forall v, P v.
Proof.
  intros HN HS HI HF HO.
  fix IH 1.
  intros [ |s|z|f|cls attrs];
    [exact HN | apply HS | apply HI | apply HF | apply HO].
  induction attrs as [|[k v] rest IHrest]; constructor.
  - apply IH.
  - exact IHrest.
Qed.

Lemma merge_object_attrs_eq (objA : pyval) (cls : list (string * vtype))
    (items : list (string * pyval)) :
  merge_object_attrs objA (PObj cls items) = merge_loop items objA.
Proof. reflexivity. Qed.

Lemma merge_not_object (objA objB : pyval) :
  is_leaf objB = true -> merge_object_attrs objA objB = (objA, Raise TypeError).
Proof. destruct objB; try discriminate; reflexivity. Qed.

(** The one exception [merge_object_attrs] raises is [TypeError]. *)
Lemma merge_raises_TypeError (objB : pyval) :
  forall objA objA' e,
    merge_object_attrs objA objB = (objA', Raise e) -> e = TypeError.
Proof.
  induction objB as [ |s|z|f|cls items IH] using pyval_nested_ind;
    intros objA objA' e H; try (simpl in H; congruence).
  rewrite merge_object_attrs_eq in H. revert objA H.
  induction IH as [|[name value] rest Hv _ IHrest]; intros objA H; simpl in *.
  - discriminate.
  - unfold deepcopy in H.
    destruct objA as [ |s|z|f|clsA attrsA]; simpl in H; try congruence.
    + destruct (Str.contains name s); congruence.
    + destruct (has_key attrsA name).
      * destruct (merge_object_attrs (getitem attrsA name) value)
          as [sub' [u|e']] eqn:Hm.
        -- now apply IHrest in H.
        -- apply Hv in Hm. congruence.
      * now apply IHrest in H.
Qed.

(** Where both objects hold a leaf under one name, the merge raises. *)
Lemma merge_leaf_collision (items : list (string * pyval)) :
  forall (cls : list (string * vtype)) (attrs : list (string * pyval))
         (name : string) (a b : pyval),
    lookup attrs name = Some a -> is_leaf a = true ->
    lookup items name = Some b -> is_leaf b = true ->
    exists attrs',
      merge_loop items (PObj cls attrs) = (PObj cls attrs', Raise TypeError)
      /\ lookup attrs' name = Some a.
Proof.
  induction items as [|[n v] rest IH]; intros cls attrs name a b Ha La Hb Lb;
    simpl in *; [discriminate|].
  unfold deepcopy.
  destruct (String.eqb n name) eqn:En.
  - apply String.eqb_eq in En. subst n. injection Hb as ->.
    unfold has_key, getitem. rewrite Ha.
    rewrite (merge_not_object a b Lb).
    exists (store attrs name a). split; [reflexivity | apply lookup_store_same].
  - apply String.eqb_neq in En.
    destruct (has_key attrs n).
    + destruct (merge_object_attrs (getitem attrs n) v) as [sub' [u|e]] eqn:Hm.
      * apply (IH cls _ name a b); auto.
        now rewrite lookup_store_other.
      * apply merge_raises_TypeError in Hm as ->.
        exists (store attrs n sub'). split; [reflexivity|].
        now rewrite lookup_store_other.
    + apply (IH cls _ name a b); auto.
      now rewrite lookup_store_other.
Qed.

(** A merge into a leaf returns only when there is nothing to merge; the
    leaf is as it was. *)
Lemma merge_into_leaf (a objB a' : pyval) :
  is_leaf a = true -> merge_object_attrs a objB = (a', Ok tt) -> a' = a.
Proof.
  intros La H.
  destruct objB as [ |s|z|f|c items]; try (simpl in H; discriminate).
  rewrite merge_object_attrs_eq in H.
  destruct items as [|[k x] items]; simpl in H; [congruence|].
  destruct a as [ |s|z|f|ca attrs]; simpl in *; try discriminate.
  destruct (Str.contains k s); discriminate.
Qed.

(** When the merge returns: a name the destination did not have holds the
    copy of the source value, a name the source does not have holds what it
    held, and a leaf of the destination is kept. *)
Lemma merge_loop_returns (items : list (string * pyval)) :
  forall (cls : list (string * vtype)) (attrs : list (string * pyval)) (objA' : pyval),
    NoDup (map fst items) ->
    merge_loop items (PObj cls attrs) = (objA', Ok tt) ->
    exists attrs',
      objA' = PObj cls attrs'
      /\ (forall name v, lookup items name = Some v -> lookup attrs name = None ->
            lookup attrs' name = Some v)
      /\ (forall name, lookup items name = None ->
            lookup attrs' name = lookup attrs name)
      /\ (forall name a, lookup attrs name = Some a -> is_leaf a = true ->
            lookup attrs' name = Some a).
Proof.
  induction items as [|[n v] rest IH]; intros cls attrs objA' Hnd H; simpl in *.
  - injection H as <-. exists attrs. split; [reflexivity|].
    split; [discriminate|]. split; auto.
  - inversion Hnd as [|? ? Hn Hrest]; subst.
    pose proof (lookup_not_in rest n Hn) as Hn'.
    unfold deepcopy in H.
    destruct (has_key attrs n) eqn:Hk.
    + (* the name is in the destination: merge below it *)
      destruct (merge_object_attrs (getitem attrs n) v) as [sub' [[]|e]] eqn:Hm;
        [|discriminate].
      destruct (IH _ _ _ Hrest H) as [attrs' [-> [Hnew [Hold Hleaf]]]].
      exists attrs'. split; [reflexivity|]. split; [|split].
      * intros name x Hx Hnone.
        destruct (String.eqb_spec n name) as [->|Hne].
        -- unfold has_key in Hk. rewrite Hnone in Hk. discriminate.
        -- apply Hnew; [assumption|]. now rewrite lookup_store_other.
      * intros name Hx.
        destruct (String.eqb_spec n name) as [->|Hne]; [discriminate|].
        rewrite Hold by assumption. now apply lookup_store_other.
      * intros name a Ha La.
        destruct (String.eqb_spec n name) as [->|Hne].
        -- apply Hleaf; [|assumption].
           rewrite lookup_store_same. f_equal.
           unfold getitem in Hm. rewrite Ha in Hm.
           apply (merge_into_leaf _ _ _ La Hm).
        -- apply Hleaf; [|assumption]. now rewrite lookup_store_other.
    + (* a new name: copy *)
      destruct (IH _ _ _ Hrest H) as [attrs' [-> [Hnew [Hold Hleaf]]]].
      exists attrs'. split; [reflexivity|]. split; [|split].
      * intros name x Hx Hnone.
        destruct (String.eqb_spec n name) as [->|Hne].
        -- injection Hx as <-. rewrite (Hold _ Hn'). apply lookup_store_same.
        -- apply Hnew; [assumption|]. now rewrite lookup_store_other.
      * intros name Hx.
        destruct (String.eqb_spec n name) as [->|Hne]; [discriminate|].
        rewrite Hold by assumption. now apply lookup_store_other.
      * intros name a Ha La.
        destruct (String.eqb_spec n name) as [->|Hne].
        -- apply has_key_false in Hk. congruence.
        -- apply Hleaf; [|assumption]. now rewrite lookup_store_other.
Qed.

(** C1, on the code: with a leaf [X] in both objects the merge raises
    [TypeError] at [X], because the [else] branch calls
    [merge_object_attrs] on the two leaves and [vars] fails on a string.
    The destination keeps its [X], but the call does not return and the
    field [Y] of the source, which the destination did not have, is never
    copied. *)
Theorem merge_object_attrs_leaf_collision :
  merge_object_attrs
    (PObj [("X", TStr)] [("X", PStr "a")])
    (PObj [("X", TStr); ("Y", TStr)] [("X", PStr "b"); ("Y", PStr "c")])
  = (PObj [("X", TStr)] [("X", PStr "a")], Raise TypeError).
Proof. reflexivity. Qed.

(** * Further properties of the code *)

(** ** The section search *)

Lemma section_loop_open_slice (title : string) (lines : list string) :
  forall indent acc,
    exists taken post,
      lines = (taken ++ post)%list
      /\ section_loop title lines true indent acc = (acc ++ taken)%list.
Proof.
  induction lines as [|line rest IH]; intros indent acc; simpl.
  - exists [], []. split; [reflexivity | now rewrite app_nil_r].
  - destruct (String.eqb title (Str.strip line)).
    + destruct (IH (count_leading_spaces line) (acc ++ [line])%list)
        as [taken [post [-> ->]]].
      exists (line :: taken), post.
      split; [reflexivity | now rewrite <- app_assoc].
    + destruct (count_leading_spaces line >? indent).
      * destruct (IH indent (acc ++ [line])%list) as [taken [post [-> ->]]].
        exists (line :: taken), post.
        split; [reflexivity | now rewrite <- app_assoc].
      * exists [], (line :: rest).
        split; [reflexivity | now rewrite app_nil_r].
Qed.

(** X1: the result of [lines_find_section] is a run of consecutive lines of
    the input that starts at the first header: the lines before it hold no
    header, and the result is empty exactly when no line is a header. *)
Theorem lines_find_section_slice (lines : list string) (title : string) :
  exists pre post,
    lines = (pre ++ lines_find_section lines title ++ post)%list
    /\ existsb (is_header title) pre = false
    /\ match lines_find_section lines title with
       | [] => existsb (is_header title) lines = false
       | first :: _ => is_header title first = true
       end.
Proof.
  unfold lines_find_section. generalize (-1) as indent.
  induction lines as [|line rest IH]; intros indent; simpl.
  - exists [], []. repeat split.
  - unfold is_header at 3. destruct (String.eqb title (Str.strip line)) eqn:Hh.
    + destruct (section_loop_open_slice title rest (count_leading_spaces line) [line])
        as [taken [post [-> ->]]].
      exists [], post. simpl. repeat split. exact Hh.
    + destruct (IH indent) as [pre [post [Heq [Hpre Hres]]]].
      exists (line :: pre), post. simpl. unfold is_header at 1. rewrite Hh.
      split; [now rewrite Heq at 1 | split; [assumption|]].
      destruct (section_loop title rest false indent []); [|assumption].
      unfold is_header at 1. rewrite Hh. exact Hres.
Qed.

Lemma lines_find_section_first_witness :
  lines_find_section
    ["GPU 00000000:01:00.0"; "    Temperature"; "        GPU Current Temp : 55 C";
     "        GPU Shutdown Temp : 98 C"; "    Clocks"; "        Graphics : 210 MHz"]
    "Temperature"
  = ["    Temperature"; "        GPU Current Temp : 55 C";
     "        GPU Shutdown Temp : 98 C"].
Proof.
  exact (lines_find_section_first "Temperature"
           ["GPU 00000000:01:00.0"]
           ["        GPU Current Temp : 55 C"; "        GPU Shutdown Temp : 98 C"]
           ["    Clocks"; "        Graphics : 210 MHz"]
           "    Temperature" eq_refl eq_refl eq_refl eq_refl).
Defined.

Lemma lines_find_section_goes_on_witness :
  lines_find_section
    ["Clocks"; "    Graphics : 210 MHz"; "  Clocks"; "    Graphics : 300 MHz";
     "  Memory : 405 MHz"]
    "Clocks"
  = ["Clocks"; "    Graphics : 210 MHz"; "  Clocks"; "    Graphics : 300 MHz"].
Proof.
  exact (lines_find_section_goes_on "Clocks" []
           ["    Graphics : 210 MHz"]
           ["    Graphics : 300 MHz"; "  Memory : 405 MHz"]
           "Clocks" "  Clocks" eq_refl eq_refl eq_refl eq_refl).
Defined.

(** ** The line search *)

(** X4: [lines_find_line] returns the first line of which the title is a
    substring, wherever the title stands in it; it returns the empty string
    when no line holds the title. *)
Theorem lines_find_line_spec (lines : list string) (title : string) :
  (existsb (Str.contains title) lines = false /\ lines_find_line lines title = "")
  \/ (exists pre post a b,
        lines = (pre ++ lines_find_line lines title :: post)%list
        /\ existsb (Str.contains title) pre = false
        /\ lines_find_line lines title = a ++ title ++ b).
Proof.
  induction lines as [|line rest IH]; simpl.
  - now left.
  - destruct (Str.contains title line) eqn:Hc; simpl.
    + right. apply contains_substring in Hc as [a [b Hab]].
      exists [], rest, a, b. repeat split. exact Hab.
    + destruct IH as [[Hnone Hres]|[pre [post [a [b [Heq [Hpre Hab]]]]]]].
      * now left.
      * right. exists (line :: pre), post, a, b. simpl. rewrite Hc.
        split; [now rewrite Heq at 1 | now split].
Qed.

(** ** The numeric part of a text *)

Lemma lstrip_run (p : ascii -> bool) (s : string) :
  exists run,
    s = run ++ Str.lstrip p s
    /\ all_chars p run = true
    /\ match Str.lstrip p s with
       | String c _ => p c = false
       | EmptyString => True
       end.
Proof.
  induction s as [|c s IH]; simpl.
  - now exists "".
  - destruct (p c) eqn:Hc.
    + destruct IH as [run [Heq [Hrun Hafter]]].
      exists (String c run). simpl. rewrite Hc, Hrun.
      split; [now rewrite <- Heq | now split].
    + exists "". now repeat split.
Qed.

(** The first match of [p+] in a text: the text splits into a part without
    a character of [p], the longest run of characters of [p] that follows,
    and the rest. *)
Lemma search_plus_first_run (p : ascii -> bool) (s : string) :
  (all_chars (fun c => negb (p c)) s = true /\ search (Plus p) s = None)
  \/ (exists before run after,
        s = before ++ run ++ after
        /\ all_chars (fun c => negb (p c)) before = true
        /\ run <> ""
        /\ all_chars p run = true
        /\ match after with
           | String c _ => p c = false
           | EmptyString => True
           end
        /\ search (Plus p) s = Some {| group0 := run; groups := [] |}).
Proof.
  induction s as [|c s IH].
  - now left.
  - assert (Hhere : match_here (Plus p) (String c s)
                    = if p c
                      then Some {| group0 := consumed (String c s) (Str.lstrip p s);
                                   groups := [] |}
                      else None).
    { unfold match_here. cbn [rmatch].
      rewrite plus_greedy_longest; [reflexivity | discriminate]. }
    cbn [search]. rewrite Hhere.
    destruct (p c) eqn:Hc.
    + right. destruct (lstrip_run p s) as [run [Heq [Hrun Hafter]]].
      exists "", (String c run), (Str.lstrip p s).
      assert (E : String c s = String c run ++ Str.lstrip p s)
        by (simpl; now rewrite <- Heq).
      assert (Hcons : consumed (String c s) (Str.lstrip p s) = String c run)
        by (rewrite E; apply consumed_run).
      rewrite Hcons. simpl. rewrite Hc, Hrun.
      repeat split; [now rewrite <- Heq | discriminate | assumption].
    + destruct IH as [[Hnone Hs]|[before [run [after [-> [Hb [Hne [Hrun [Ha Hs]]]]]]]]].
      * left. simpl. now rewrite Hc.
      * right. exists (String c before), run, after. simpl. rewrite Hc.
        repeat split; assumption.
Qed.

(** X5: [regex_find] with the pattern of the numeric part returns the first
    run of digits and dots of the text, as long as it can be made; it
    returns the empty string when the text holds neither a digit nor a
    dot. *)
Theorem regex_find_numeric_part (text : string) :
  (all_chars (fun c => negb (is_numeric_char c)) text = true
   /\ regex_find text NUMERIC_PART = "")
  \/ (exists before after,
        text = before ++ regex_find text NUMERIC_PART ++ after
        /\ all_chars (fun c => negb (is_numeric_char c)) before = true
        /\ regex_find text NUMERIC_PART <> ""
        /\ all_chars is_numeric_char (regex_find text NUMERIC_PART) = true
        /\ match after with
           | String c _ => is_numeric_char c = false
           | EmptyString => True
           end).
Proof.
  unfold regex_find, NUMERIC_PART.
  destruct (search_plus_first_run is_numeric_char text)
    as [[Hnone ->]|[before [run [after [Heq [Hb [Hne [Hrun [Ha ->]]]]]]]]].
  - now left.
  - right. exists before, after. simpl. now repeat split.
Qed.

(** ** The sign of a numeric field *)

Lemma all_chars_drop_underscores (q : ascii -> bool) (s : string) :
  forall prev u,
    all_chars q s = true ->
    Float.drop_underscores prev s = Some u -> all_chars q u = true.
Proof.
  induction s as [|c s IH]; simpl; intros prev u H Hu.
  - destruct (Ascii.eqb prev "_"); [discriminate|]. now injection Hu as <-.
  - apply andb_prop in H as [Hc Hs].
    destruct (Ascii.eqb c "_").
    + destruct (Str.is_digit prev); [|discriminate]. now apply (IH c).
    + destruct (Ascii.eqb prev "_" && negb (Str.is_digit c)); [discriminate|].
      destruct (Float.drop_underscores c s) as [u'|] eqn:E; [|discriminate].
      injection Hu as <-. simpl. rewrite Hc. now apply (IH c).
Qed.

Lemma numeric_char_facts (c : ascii) :
  is_numeric_char c = true ->
  Float.lower c = c /\ c <> "-"%char /\ c <> "+"%char /\ c <> "n"%char.
Proof.
  intros H. repeat split;
    try (intros ->; discriminate H);
    destruct c as [[] [] [] [] [] [] [] []]; try reflexivity; discriminate H.
Qed.

Lemma binary_round_aux_sign (sx : bool) (mx ex : Z) (lx : location)
    (s : bool) (m : positive) (e : Z) :
  binary_round_aux Float.prec Float.emax sx mx ex lx = S754_finite s m e -> s = sx.
Proof.
  unfold binary_round_aux.
  destruct (shr_fexp Float.prec Float.emax mx ex lx) as [mrs' e'].
  destruct (shr_fexp Float.prec Float.emax _ e' loc_Exact) as [mrs'' e''].
  destruct (shr_m mrs''); try discriminate.
  destruct (e'' <=? Float.emax - Float.prec); [|discriminate].
  congruence.
Qed.

Lemma of_decimal_sign (neg : bool) (m k : Z) (s : bool) (p : positive) (e : Z) :
  Float.of_decimal neg m k = S754_finite s p e -> s = neg.
Proof.
  unfold Float.of_decimal.
  destruct m as [|q|q]; try discriminate.
  destruct (k =? 0); [|destruct (0 <? k)].
  - unfold binary_round. destruct (shl_align _ _ _). apply binary_round_aux_sign.
  - unfold binary_round. destruct (shl_align _ _ _). apply binary_round_aux_sign.
  - unfold SFdiv. destruct (SFdiv_core_binary _ _ _ _ _ _) as [[mz ez] lz].
    rewrite xorb_false_r. apply binary_round_aux_sign.
Qed.

Lemma number_of_decimal (neg : bool) (s : string) (f : spec_float) :
  Float.number neg s = Some f -> exists m k, f = Float.of_decimal neg m k.
Proof.
  unfold Float.number.
  destruct (Float.digits s 0 0) as [[ip ni] s1].
  destruct (match s1 with
            | String "." s1' => Float.digits s1' ip 0
            | _ => (ip, 0, s1)
            end) as [[m nf] s2].
  destruct (0 <? ni + nf); [|discriminate].
  destruct (Float.exponent s2) as [e|]; [|discriminate].
  intros H. injection H as <-. eauto.
Qed.

(** A text of digits and dots never parses as a negative number. *)
Lemma of_str_numeric_sign (s : string) (f : spec_float) :
  all_chars is_numeric_char s = true ->
  Float.of_str s = Ok f ->
  match f with
  | S754_finite sg _ _ => sg = false
  | _ => True
  end.
Proof.
  intros Hs. unfold Float.of_str, Float.stripped.
  assert (Hid : Float.spaces_to_ascii s = s).
  { clear f. induction s as [|c s IH]; simpl in *; [reflexivity|].
    apply andb_prop in Hs as [Hc Hs]. rewrite (IH Hs). f_equal.
    destruct c as [[] [] [] [] [] [] [] []]; try reflexivity; discriminate Hc. }
  rewrite Hid.
  destruct (Float.drop_underscores zero _) as [u|] eqn:Hu; [|discriminate].
  assert (Hnum : all_chars is_numeric_char u = true).
  { apply (all_chars_drop_underscores _ _ _ _
             (all_chars_rstrip _ _ _ (all_chars_lstrip _ Float.is_c_space _ Hs)) Hu). }
  assert (Hsign : Float.sign u = (false, u)).
  { destruct u as [|c u]; [reflexivity|]. simpl in Hnum.
    apply andb_prop in Hnum as [Hc _].
    destruct (numeric_char_facts c Hc) as [_ [Hm [Hp _]]].
    unfold Float.sign.
    destruct c as [[] [] [] [] [] [] [] []]; try reflexivity; congruence. }
  rewrite Hsign.
  destruct (String.eqb (Float.lowercase u) "inf" || String.eqb (Float.lowercase u) "infinity").
  - intros H. now injection H as <-.
  - destruct (String.eqb (Float.lowercase u) "nan").
    + intros H. now injection H as <-.
    + destruct (Float.number false u) as [g|] eqn:Hg; [|discriminate].
      intros H. injection H as <-.
      destruct (number_of_decimal _ _ _ Hg) as [m [k ->]].
      destruct (Float.of_decimal false m k) as [sg|sg| |sg p e] eqn:E; try exact I.
      now apply of_decimal_sign in E.
Qed.

(** X6: a numeric field is never negative, but for the fallback [-1]: the
    pattern of the numeric part takes digits and dots only, so a minus sign
    in the report is lost.  The value of an [int] or [float] field is
    ['N/A'], an integer from [-1] on, or a positive float. *)
Theorem numeric_field_sign (vtype : vtype) (line : string) (v : pyval) :
  is_numeric vtype = true ->
  from_line vtype line = Ok v ->
  v = PStr "N/A"
  \/ (exists i, v = PInt i /\ -1 <= i)
  \/ (exists m e, v = PFloat (S754_finite false m e)).
Proof.
  intros Hn. unfold from_line. rewrite Hn.
  destruct (Str.find ":" line <? 0); [intros H; injection H as <-; now left|].
  set (text := Str.strip _).
  assert (Hnum : all_chars is_numeric_char (regex_find text NUMERIC_PART) = true).
  { unfold regex_find, NUMERIC_PART.
    destruct (search_plus_first_run is_numeric_char text)
      as [[_ ->]|[before [run [after [_ [_ [_ [H [_ ->]]]]]]]]];
      [reflexivity | exact H]. }
  revert Hnum. generalize (regex_find text NUMERIC_PART) as s. intros s Hnum.
  unfold str_to_num.
  destruct (Float.of_str s) as [f|e] eqn:Hf; simpl.
  - pose proof (of_str_numeric_sign s f Hnum Hf) as Hsg.
    destruct f as [sg|sg| |sg m e]; simpl.
    + intros H. injection H as <-. right. left. exists 0. split; [reflexivity | lia].
    + intros H. injection H as <-. right. left. exists (-1). split; [reflexivity | lia].
    + intros H. injection H as <-. right. left. exists (-1). split; [reflexivity | lia].
    + subst sg.
      destruct (_ && _); intros H; injection H as <-.
      * right. left. eexists. split; [reflexivity|].
        pose proof (Z.shiftl_nonneg (Z.pos m) e). lia.
      * right. right. eauto.
  - intros H. injection H as <-. right. left. exists (-1). split; [reflexivity | lia].
Qed.

Lemma numeric_field_sign_witness :
  from_line TInt "        GPU Current Temp                  : -5 C" = Ok (PInt 5)
  /\ (PInt 5 = PStr "N/A"
      \/ (exists i, PInt 5 = PInt i /\ -1 <= i)
      \/ (exists m e, PInt 5 = PFloat (S754_finite false m e))).
Proof.
  split; [reflexivity|].
  exact (numeric_field_sign TInt
           "        GPU Current Temp                  : -5 C" (PInt 5)
           eq_refl eq_refl).
Defined.

(** ** Integers in decimal *)

Lemma digits2_pos_lower (p : positive) :
  2 ^ (Zpos (digits2_pos p) - 1) <= Zpos p.
Proof.
  induction p as [q IH|q IH|]; simpl digits2_pos.
  - rewrite Pos2Z.inj_succ.
    replace (Z.succ (Z.pos (digits2_pos q)) - 1)
      with (Z.succ (Z.pos (digits2_pos q) - 1)) by lia.
    rewrite Z.pow_succ_r by lia. lia.
  - rewrite Pos2Z.inj_succ.
    replace (Z.succ (Z.pos (digits2_pos q)) - 1)
      with (Z.succ (Z.pos (digits2_pos q) - 1)) by lia.
    rewrite Z.pow_succ_r by lia. lia.
  - simpl. lia.
Qed.

Lemma digits2_pos_le_53 (p : positive) :
  Zpos p < 2 ^ 53 -> Zpos (digits2_pos p) <= 53.
Proof.
  intros H. pose proof (digits2_pos_lower p) as L.
  destruct (Z.le_gt_cases (Zpos (digits2_pos p)) 53) as [|G]; [assumption|].
  assert (2 ^ 53 <= 2 ^ (Zpos (digits2_pos p) - 1))
    by (apply Z.pow_le_mono_r; lia).
  lia.
Qed.

Lemma iter_xO (p k : positive) :
  digits2_pos (Pos.iter xO p k) = (digits2_pos p + k)%positive
  /\ Zpos (Pos.iter xO p k) = Zpos p * 2 ^ Zpos k.
Proof.
  induction k as [|k IH] using Pos.peano_ind.
  - simpl. split; lia.
  - rewrite Pos.iter_succ. destruct IH as [IH1 IH2]. simpl digits2_pos.
    rewrite IH1. split; [lia|].
    rewrite Pos2Z.inj_xO, IH2, Pos2Z.inj_succ, Z.pow_succ_r by lia. lia.
Qed.

(** An integer below [2^53] is a binary64 number: rounding it changes
    nothing. *)
Lemma binary_round_exact (p : positive) :
  Zpos p < 2 ^ 53 ->
  exists m e,
    binary_round Float.prec Float.emax false p 0 = S754_finite false m e
    /\ e <= 0
    /\ Zpos m = Zpos p * 2 ^ (- e).
Proof.
  intros H. pose proof (digits2_pos_le_53 p H) as Hd.
  pose proof (Pos2Z.is_pos (digits2_pos p)) as Hd0.
  unfold binary_round.
  assert (Hfexp : forall d, 0 < d <= 53 -> fexp Float.prec Float.emax d = d - 53).
  { intros d Hdd. unfold fexp, emin, Float.prec, Float.emax. lia. }
  rewrite Z.add_0_r, Hfexp by lia.
  assert (Haux : forall mz ez,
             Zpos (digits2_pos mz) = 53 -> -52 <= ez <= 0 ->
             binary_round_aux Float.prec Float.emax false (Zpos mz) ez loc_Exact
             = S754_finite false mz ez).
  { intros mz ez Hmz Hez. unfold binary_round_aux.
    assert (Hs : forall l,
               shr_fexp Float.prec Float.emax (Zpos mz) ez l
               = (shr_record_of_loc (Zpos mz) l, ez)).
    { intros l. unfold shr_fexp. simpl Zdigits2. rewrite Hmz.
      replace (fexp Float.prec Float.emax (53 + ez)) with ez
        by (unfold fexp, emin, Float.prec, Float.emax; lia).
      rewrite Z.sub_diag. reflexivity. }
    rewrite Hs. simpl. rewrite Hs. simpl.
    destruct (Z.leb_spec ez 971); [reflexivity | lia]. }
  unfold shl_align.
  destruct (Z.pos (digits2_pos p) - 53 - 0) as [|k|k] eqn:Hk.
  - exists p, 0. rewrite Haux by lia.
    split; [reflexivity|]. split; [lia|]. simpl. lia.
  - lia.
  - destruct (iter_xO p k) as [I1 I2].
    exists (Pos.iter xO p k), (Z.pos (digits2_pos p) - 53).
    rewrite Haux; [|rewrite I1; lia | lia].
    split; [reflexivity|]. split; [lia|].
    rewrite I2. f_equal. f_equal. lia.
Qed.

Lemma digits_step (c : ascii) (s : string) (acc n : Z) :
  Str.is_digit c = true ->
  Float.digits (String c s) acc n
  = Float.digits s (10 * acc + Float.digit_value c) (n + 1).
Proof.
  intros H.
  change (Float.digits (String c s) acc n)
    with (if Str.is_digit c
          then Float.digits s (10 * acc + Float.digit_value c) (n + 1)
          else (acc, n, String c s)).
  now rewrite H.
Qed.

Lemma digits_of_uint_acc (d : Decimal.uint) :
  forall (acc : positive) (n : Z),
    Float.digits (DecimalString.NilEmpty.string_of_uint d) (Zpos acc) n
    = (Zpos (Pos.of_uint_acc d acc),
       n + Str.len (DecimalString.NilEmpty.string_of_uint d), "").
Proof.
  induction d as [|d IH|d IH|d IH|d IH|d IH|d IH|d IH|d IH|d IH|d IH];
    intros acc n; simpl DecimalString.NilEmpty.string_of_uint;
    cbn [Pos.of_uint_acc];
    [unfold Str.len; simpl; do 2 f_equal; lia | ..];
    rewrite digits_step by reflexivity;
    match goal with
    | |- Float.digits _ (10 * ?a + Float.digit_value ?c) _
         = (Z.pos (Pos.of_uint_acc _ ?acc'), _, _) =>
        replace (10 * a + Float.digit_value c) with (Z.pos acc')
          by (let v := eval vm_compute in (Float.digit_value c) in
              change (Float.digit_value c) with v; lia)
    end;
    rewrite IH; unfold Str.len; simpl String.length; do 2 f_equal; lia.
Qed.

Lemma digits_of_uint (d : Decimal.uint) :
  forall n : Z,
    Float.digits (DecimalString.NilEmpty.string_of_uint d) 0 n
    = (Z.of_N (Pos.of_uint d),
       n + Str.len (DecimalString.NilEmpty.string_of_uint d), "").
Proof.
  induction d as [|d IH|d IH|d IH|d IH|d IH|d IH|d IH|d IH|d IH|d IH];
    intros n; simpl DecimalString.NilEmpty.string_of_uint; cbn [Pos.of_uint];
    [unfold Str.len; simpl; do 2 f_equal; lia
    |rewrite digits_step by reflexivity;
     change (10 * 0 + Float.digit_value "0") with 0;
     rewrite IH; unfold Str.len; simpl String.length; do 2 f_equal; lia
    |..];
    rewrite digits_step by reflexivity;
    match goal with
    | |- Float.digits _ (10 * 0 + Float.digit_value ?c) _ = _ =>
        let v := eval vm_compute in (10 * 0 + Float.digit_value c) in
        change (10 * 0 + Float.digit_value c) with v
    end;
    rewrite digits_of_uint_acc; unfold Str.len; simpl String.length;
    do 2 f_equal; lia.
Qed.

Lemma string_of_uint_digits (d : Decimal.uint) :
  all_chars Str.is_digit (DecimalString.NilEmpty.string_of_uint d) = true.
Proof. induction d; simpl; auto. Qed.

(** The digits of [str(n)] read back as [n]. *)
Lemma str_of_N_digits (n : N) :
  str_of_N n <> ""
  /\ all_chars Str.is_digit (str_of_N n) = true
  /\ exists len, 0 < len /\ Float.digits (str_of_N n) 0 0 = (Z.of_N n, len, "").
Proof.
  unfold str_of_N. destruct n as [|p].
  - repeat split; [discriminate|]. exists 1. split; [lia | reflexivity].
  - simpl N.to_uint.
    pose proof (DecimalPos.Unsigned.to_uint_nonnil p) as Hnil.
    pose proof (DecimalPos.Unsigned.of_to p) as Hof.
    assert (E : DecimalString.NilZero.string_of_uint (Pos.to_uint p)
                = DecimalString.NilEmpty.string_of_uint (Pos.to_uint p))
      by (destruct (Pos.to_uint p); [congruence | reflexivity..]).
    rewrite E.
    assert (Hne : DecimalString.NilEmpty.string_of_uint (Pos.to_uint p) <> "")
      by (destruct (Pos.to_uint p); [congruence | discriminate..]).
    split; [assumption|]. split; [apply string_of_uint_digits|].
    rewrite digits_of_uint, Hof.
    eexists. split; [|reflexivity].
    unfold Str.len.
    destruct (DecimalString.NilEmpty.string_of_uint (Pos.to_uint p)); [congruence|].
    simpl String.length. lia.
Qed.

Lemma digit_is_itself (c : ascii) :
  Str.is_digit c = true ->
  is_numeric_char c = true
  /\ Ascii.eqb (Float.lower c) "i" = false
  /\ Ascii.eqb (Float.lower c) "n" = false.
Proof.
  intros H.
  destruct c as [[] [] [] [] [] [] [] []]; try discriminate H; now repeat split.
Qed.

(** Nothing is stripped from a run of digits, and it has no sign. *)
Lemma digit_string_clean (s : string) :
  all_chars Str.is_digit s = true ->
  Float.drop_underscores zero (Float.stripped s) = Some s
  /\ Float.sign s = (false, s).
Proof.
  intros H.
  rewrite (stripped_none _ (digits_not_space _ H)).
  split; [now apply drop_underscores_digits|].
  destruct s as [|c s]; [reflexivity|]. simpl in H.
  apply andb_prop in H as [Hc _].
  destruct (digit_facts c Hc) as [_ [_ [Hm Hp]]].
  unfold Float.sign.
  destruct c as [[] [] [] [] [] [] [] []]; try reflexivity; congruence.
Qed.

(** [int] reads the digits of [n] back as [n], when they are not too
    many. *)
Lemma int_of_str_str_of_N (n : N) :
  Str.len (str_of_N n) <= max_str_digits ->
  int_of_str (str_of_N n) = Ok (Z.of_N n).
Proof.
  intros Hmax.
  destruct (str_of_N_digits n) as [Hne [Hd [len [Hlen Hv]]]].
  destruct (digit_string_clean _ Hd) as [Hclean Hsign].
  destruct (digits_all _ 0 0 Hd) as [v Hv']. rewrite Hv in Hv'.
  injection Hv' as _ Hl.
  unfold int_of_str. rewrite Hclean, Hsign, Hv.
  destruct (Z.ltb_spec 0 len); [|lia].
  destruct (Z.ltb_spec max_str_digits len); [lia | reflexivity].
Qed.

(** A run of digits is the print of a decimal number. *)
Lemma digits_as_uint (s : string) :
  all_chars Str.is_digit s = true ->
  exists d, DecimalString.NilEmpty.string_of_uint d = s.
Proof.
  intros H.
  assert (E : exists d, DecimalString.NilEmpty.uint_of_string s = Some d).
  { induction s as [|c s IH]; [now exists Decimal.Nil|].
    simpl in H. apply andb_prop in H as [Hc Hs].
    destruct (IH Hs) as [d Hd]. cbn [DecimalString.NilEmpty.uint_of_string].
    rewrite Hd.
    destruct c as [[] [] [] [] [] [] [] []]; try discriminate Hc;
      eexists; reflexivity. }
  destruct E as [d Hd]. exists d. now apply DecimalString.NilEmpty.sus.
Qed.

Lemma string_of_uint_length (d : Decimal.uint) :
  String.length (DecimalString.NilEmpty.string_of_uint d) = Decimal.nb_digits d.
Proof. induction d; simpl; congruence. Qed.

(** The print of the value of a run of digits is not longer than the
    run. *)
Lemma str_of_N_short (d : Decimal.uint) :
  d <> Decimal.Nil ->
  Str.len (str_of_N (Pos.of_uint d))
  <= Str.len (DecimalString.NilEmpty.string_of_uint d).
Proof.
  intros Hd. unfold str_of_N. rewrite DecimalPos.Unsigned.to_of.
  pose proof (DecimalFacts.unorm_nonnil d) as Hn.
  pose proof (DecimalFacts.nb_digits_unorm d Hd) as Hle.
  assert (E : DecimalString.NilZero.string_of_uint (Decimal.unorm d)
              = DecimalString.NilEmpty.string_of_uint (Decimal.unorm d))
    by (destruct (Decimal.unorm d); [congruence | reflexivity..]).
  rewrite E. unfold Str.len. rewrite !string_of_uint_length. lia.
Qed.

(** [int] on a run of digits: a number that is not negative and that
    [str] prints in no more digits, unless the run is longer than
    [max_str_digits]. *)
Lemma int_of_str_value (s : string) :
  s <> "" -> all_chars Str.is_digit s = true ->
  exists z,
    0 <= z
    /\ Str.len (str_of_N (Z.to_N z)) <= Str.len s
    /\ int_of_str s
       = if max_str_digits <? Str.len s then Raise ValueError else Ok z.
Proof.
  intros Hne H.
  destruct (digit_string_clean _ H) as [Hclean Hsign].
  destruct (digits_as_uint _ H) as [d Hd].
  assert (Hnil : d <> Decimal.Nil) by (intros ->; now apply Hne).
  pose proof (digits_of_uint d 0) as Hv. rewrite Hd in Hv.
  pose proof (str_of_N_short d Hnil) as Hshort. rewrite Hd in Hshort.
  exists (Z.of_N (Pos.of_uint d)).
  split; [lia|]. split; [now rewrite N2Z.id|].
  unfold int_of_str. rewrite Hclean, Hsign, Hv, Z.add_0_l.
  assert (Hlen : 0 < Str.len s).
  { unfold Str.len. destruct s; [congruence|]. simpl String.length. lia. }
  destruct (Z.ltb_spec 0 (Str.len s)); [|lia].
  reflexivity.
Qed.

Lemma list_gpus_loop_ids (lines : list string) :
  forall gpu_list entries,
    list_gpus_loop lines gpu_list = Ok entries ->
    Forall printable_id gpu_list -> Forall printable_id entries.
Proof.
  induction lines as [|line rest IH]; intros gpu_list entries;
    cbn [list_gpus_loop].
  - intros [= <-] Hall. exact Hall.
  - destruct (search REGEX_GPU_ENTRY line) as [m|] eqn:Hm; [|apply IH].
    destruct (search_sound _ _ _ Hm) as [start [rest' Hmatch]].
    destruct (gpu_entry_groups _ _ _ Hmatch) as [a [b [c [-> [Hne Hd]]]]].
    destruct (int_of_str_value a Hne Hd) as [z [Hz [Hshort ->]]].
    destruct (Z.ltb_spec max_str_digits (Str.len a)); [discriminate|].
    cbn [bind]. intros Hloop Hall.
    apply (IH _ _ Hloop). apply Forall_app. split; [exact Hall|].
    constructor; [|constructor]. split; cbn [device_id]; lia.
Qed.

(** X7: every device id that [list_gpus] returns is one that
    [NVSMI.__init__] takes: it is not negative, [str] prints it for the
    command line of the query, and [int] reads what is printed back as
    the same id. *)
Theorem list_gpus_ids_query (lines : list string) (entries : list NVSMI_Entry) :
  list_gpus lines = Ok entries ->
  Forall (fun e =>
            0 <= device_id e
            /\ exists s,
                 query_cmd (Z.to_N (device_id e))
                 = Ok ["nvidia-smi"; "-q"; "-i"; s]
                 /\ int_of_str s = Ok (device_id e))
         entries.
Proof.
  intros H.
  pose proof (list_gpus_loop_ids lines [] entries H (Forall_nil _)) as Hall.
  apply (Forall_impl _ (P := printable_id)); [|exact Hall].
  intros e [Hz Hlen]. split; [exact Hz|].
  exists (str_of_N (Z.to_N (device_id e))).
  unfold query_cmd, py_str.
  destruct (Z.ltb_spec max_str_digits (Str.len (str_of_N (Z.to_N (device_id e)))));
    [lia|].
  split; [reflexivity|].
  rewrite (int_of_str_str_of_N _ Hlen). now rewrite Z2N.id.
Qed.

Lemma list_gpus_ids_query_witness :
  exists s,
    query_cmd 12 = Ok ["nvidia-smi"; "-q"; "-i"; s]
    /\ int_of_str s = Ok 12.
Proof.
  pose proof (list_gpus_ids_query
                ["GPU 12: NVIDIA A100-SXM4-40GB (UUID: GPU-5678_ef)"]
                [{| device_id := 12; model := "NVIDIA A100-SXM4-40GB";
                    uuid := "GPU-5678_ef" |}]
                ltac:(vm_compute; reflexivity)) as H.
  inversion H as [|e l [_ He] _]. exact He.
Defined.


(** [float] on a run of digits: the number nearest to its value. *)
Lemma of_str_digits (s : string) (v len : Z) :
  s <> "" ->
  all_chars Str.is_digit s = true ->
  Float.digits s 0 0 = (v, len, "") -> 0 < len ->
  Float.of_str s = Ok (Float.of_decimal false v 0).
Proof.
  intros Hne Hd Hv Hlen.
  destruct (digit_string_clean _ Hd) as [Hclean Hsign].
  unfold Float.of_str. rewrite Hclean, Hsign.
  destruct s as [|c s]; [congruence|].
  simpl in Hd. apply andb_prop in Hd as [Hc _].
  destruct (digit_is_itself c Hc) as [_ [Hi Hn]].
  cbn [Float.lowercase String.eqb]. rewrite Hi, Hn. simpl orb. cbv iota.
  unfold Float.number. rewrite Hv.
  destruct (Z.ltb_spec 0 (len + 0)); [|lia].
  reflexivity.
Qed.

(** A digit string with a value below [2^53] goes through [float] and
    [int] unchanged. *)
Lemma str_to_num_digits_exact (s : string) (n : N) (len : Z) :
  s <> "" ->
  all_chars Str.is_digit s = true ->
  Float.digits s 0 0 = (Z.of_N n, len, "") -> 0 < len ->
  (n < 2 ^ 53)%N ->
  str_to_num s = Ok (PInt (Z.of_N n)).
Proof.
  intros Hne Hd Hv Hlen Hn.
  unfold str_to_num. rewrite (of_str_digits _ _ _ Hne Hd Hv Hlen).
  destruct n as [|p]; [reflexivity|].
  assert (Hp : Zpos p < 2 ^ 53).
  { change (Zpos p) with (Z.of_N (Npos p)).
    change (2 ^ 53) with (Z.of_N (2 ^ 53)). lia. }
  destruct (binary_round_exact p Hp) as [m [e [Hr [He Hm]]]].
  simpl Z.of_N. unfold Float.of_decimal. simpl Z.eqb. cbv iota.
  rewrite Hr. simpl.
  assert (Hpow : 0 < 2 ^ (- e)) by (apply Z.pow_pos_nonneg; lia).
  assert (Hshift : Z.shiftl (Z.pos m) e = Z.pos p).
  { rewrite Z.shiftl_div_pow2 by lia. rewrite Hm.
    apply Z.div_mul. lia. }
  rewrite Hshift.
  rewrite (Z.shiftl_mul_pow2 (Z.pos p) (- e)) by lia.
  rewrite <- Hm, !Z.eqb_refl. reflexivity.
Qed.

(** X8: [str_to_num] reads an integer below [2^53] exactly: the way through
    a float loses nothing. *)
Theorem str_to_num_of_N (n : N) :
  (n < 2 ^ 53)%N -> str_to_num (str_of_N n) = Ok (PInt (Z.of_N n)).
Proof.
  intros Hn.
  destruct (str_of_N_digits n) as [Hne [Hd [len [Hlen Hv]]]].
  exact (str_to_num_digits_exact _ n len Hne Hd Hv Hlen Hn).
Qed.

Lemma str_to_num_of_N_witness :
  str_to_num (str_of_N 9007199254740991) = Ok (PInt 9007199254740991).
Proof. exact (str_to_num_of_N 9007199254740991 eq_refl). Defined.

(** X9: an integer reading below [2^53] is the value of a numeric field,
    whatever text without digits and dots stands before it and whatever
    unit follows it. *)
Theorem int_field_reading (vtype : vtype) (before after pre post : string) (n : N) :
  is_numeric vtype = true ->
  all_chars (fun d => negb (Ascii.eqb d ":")) before = true ->
  Str.strip after = pre ++ str_of_N n ++ post ->
  all_chars (fun c => negb (is_numeric_char c)) pre = true ->
  match post with
  | String c _ => is_numeric_char c = false
  | EmptyString => True
  end ->
  (n < 2 ^ 53)%N ->
  from_line vtype (before ++ String ":" after) = Ok (PInt (Z.of_N n)).
Proof.
  intros Hnum Hb Hstrip Hpre Hpost Hn.
  destruct (slice_after_first ":" before after Hb) as [Hp Hslice].
  unfold from_line. rewrite Hslice, Hnum, Hstrip.
  destruct (Z.ltb_spec (Str.find ":" (before ++ String ":" after)) 0); [lia|].
  destruct (str_of_N_digits n) as [Hne [Hd [len [Hlen Hv]]]].
  unfold regex_find, NUMERIC_PART.
  rewrite search_plus_run; try assumption.
  - simpl group0. exact (str_to_num_digits_exact _ n len Hne Hd Hv Hlen Hn).
  - clear - Hd. induction (str_of_N n) as [|c s IH]; simpl in *; [reflexivity|].
    apply andb_prop in Hd as [Hc Hs].
    destruct (digit_is_itself c Hc) as [-> _]. now apply IH.
Qed.

Lemma int_field_reading_witness :
  from_line TInt "    Fan Speed                        : 40 %" = Ok (PInt 40).
Proof.
  exact (int_field_reading TInt "    Fan Speed                        " " 40 %"
           "" " %" 40 eq_refl eq_refl eq_refl eq_refl eq_refl eq_refl).
Defined.

(** ** The order of attributes and of rendered entries *)

Lemma store_fresh {V : Type} (d : list (string * V)) (k : string) (v : V) :
  lookup d k = None -> store d k v = (d ++ [(k, v)])%list.
Proof.
  induction d as [|[k0 v0] d IH]; simpl; intros H; [reflexivity|].
  destruct (String.eqb k0 k); [discriminate|]. now rewrite IH.
Qed.

Lemma lookup_app_fresh {V : Type} (d : list (string * V)) (k k' : string) (v : V) :
  lookup (d ++ [(k, v)])%list k' = None <-> lookup d k' = None /\ k <> k'.
Proof.
  induction d as [|[k0 v0] d IH]; simpl.
  - destruct (String.eqb_spec k k') as [E|E].
    + split; [discriminate | intros [_ H]; congruence].
    + split; [now split | reflexivity].
  - destruct (String.eqb k0 k'); [|exact IH].
    split; [discriminate | intros [H _]; discriminate].
Qed.

(** The attributes after the loop of [from_lines] over fields with names of
    their own: the ones before, then one for each field, in the order of
    the annotations. *)
Lemma fields_loop_order (lines : list string) (l : list (string * vtype)) :
  forall obj attrs,
    NoDup (map fst l) ->
    (forall n, In n (map fst l) -> lookup obj n = None) ->
    fields_loop lines l obj = Ok attrs ->
    exists added,
      attrs = (obj ++ added)%list
      /\ Forall2 (fun f a => fst a = fst f
                             /\ field_value lines (fst f) (snd f) = Ok (snd a))
           l added.
Proof.
  induction l as [|[n vt] rest IH]; intros obj attrs Hnd Hfresh Hloop; simpl in *.
  - injection Hloop as <-. exists []. split; [now rewrite app_nil_r | constructor].
  - inversion Hnd as [|? ? Hn Hrest]; subst.
    destruct (field_value lines n vt) as [v|e] eqn:Hv; simpl in Hloop; [|discriminate].
    destruct (setattr_error n); [discriminate|].
    rewrite store_fresh in Hloop by (apply Hfresh; now left).
    assert (Hfresh' : forall x, In x (map fst rest) ->
                                lookup (obj ++ [(n, v)])%list x = None).
    { intros x Hx. apply lookup_app_fresh. split; [apply Hfresh; now right|].
      intros ->. contradiction. }
    destruct (IH _ _ Hrest Hfresh' Hloop) as [added [-> Hall]].
    exists ((n, v) :: added). split; [now rewrite <- app_assoc|].
    constructor; [now split | assumption].
Qed.

(** X10: the object [from_lines] builds for a schema, a class that
    declares at least one field at every level under names that are not
    attributes of the class itself, holds exactly one attribute for each
    annotation, in the order of the annotations, with the value found for
    that field. *)
Theorem from_lines_attributes (annotations : list (string * vtype)) (lines : list string) :
  wf_schema (TClass annotations) = true ->
  exists attrs,
    from_lines (TClass annotations) lines = Ok (PObj annotations attrs)
    /\ map fst attrs = map fst annotations
    /\ Forall2 (fun f a => fst a = fst f
                           /\ field_value lines (fst f) (snd f) = Ok (snd a))
         annotations attrs.
Proof.
  intros Hws.
  destruct (from_lines_object annotations lines Hws) as [attrs [Ha Hf]].
  destruct (wf_class_fields _ (wf_schema_class _ Hws)) as [Hnd _].
  destruct (fields_loop_order lines annotations [] attrs Hnd (fun _ _ => eq_refl) Ha)
    as [added [-> Hall]].
  exists added. split; [assumption|]. split; [|assumption].
  clear - Hall. induction Hall as [|f a l l' [Hfa _] _ IH]; simpl; [reflexivity|].
  now rewrite Hfa, IH.
Qed.

Lemma from_lines_attributes_witness :
  exists attrs,
    from_lines
      (TClass [("Fan_Speed", TInt); ("Clocks", TClass [("Graphics", TInt); ("SM", TInt)])])
      ["    Clocks"; "        SM : 210 MHz"; "        Graphics : 300 MHz";
       "    Fan Speed : 40 %"]
    = Ok (PObj [("Fan_Speed", TInt);
                ("Clocks", TClass [("Graphics", TInt); ("SM", TInt)])] attrs)
    /\ map fst attrs = ["Fan_Speed"; "Clocks"].
Proof.
  destruct (from_lines_attributes
              [("Fan_Speed", TInt); ("Clocks", TClass [("Graphics", TInt); ("SM", TInt)])]
              ["    Clocks"; "        SM : 210 MHz"; "        Graphics : 300 MHz";
               "    Fan Speed : 40 %"]
              eq_refl) as [attrs [Hf [Hk _]]].
  exists attrs. split; [exact Hf | exact Hk].
Defined.

(** The keys of the mapping after the loop of [to_dict]: the ones before,
    then the title of each field of the loop whose value is not ['N/A'],
    in the order of the annotations. *)
Lemma render_loop_keys (attrs : list (string * pyval)) (l : list (string * vtype)) :
  forall data data',
    NoDup (map fst l) ->
    (forall n, In n (map fst l) -> no_space n = true) ->
    (forall n, In n (map fst l) -> has_key data n = false) ->
    (forall n, In n (map fst l) -> has_key data (title_of n) = false) ->
    render_loop attrs l data = Ok data' ->
    map fst data'
    = (map fst data
       ++ map (fun f => title_of (fst f))
            (filter (fun f => negb (is_NA (getitem attrs (fst f)))) l))%list.
Proof.
  induction l as [|[n vt] rest IH]; intros data data' Hnd Hsp Hname Htitle Hloop;
    simpl in *.
  - injection Hloop as <-. now rewrite app_nil_r.
  - inversion Hnd as [|? ? Hn Hrest]; subst.
    rewrite (Hname n (or_introl eq_refl)) in Hloop.
    assert (Hsn : no_space n = true) by (apply Hsp; now left).
    assert (Hfresh : forall x, In x (map fst rest) ->
                               title_of n <> x /\ title_of n <> title_of x).
    { intros x Hx. split; intros E.
      - apply title_is_name in E; [|apply Hsp; now right]. congruence.
      - apply title_injective in E; [congruence|assumption|apply Hsp; now right]. }
    assert (Hstep : forall r data',
               render_loop attrs rest (store data (title_of n) r) = Ok data' ->
               map fst data'
               = (map fst data
                  ++ title_of n
                  :: map (fun f => title_of (fst f))
                       (filter (fun f => negb (is_NA (getitem attrs (fst f)))) rest))%list).
    { intros r d' Hd'.
      rewrite (IH (store data (title_of n) r) d' Hrest); auto.
      - rewrite store_fresh
          by (apply has_key_false, Htitle; now left).
        rewrite map_app, <- app_assoc. reflexivity.
      - intros x Hx. rewrite has_key_store_other by (apply Hfresh; auto). auto.
      - intros x Hx. rewrite has_key_store_other by (apply Hfresh; auto). auto. }
    destruct (is_NA (getitem attrs n)); simpl.
    + apply (IH _ _ Hrest); auto.
    + destruct (is_class vt).
      * destruct (to_dict (getitem attrs n)) as [d|e]; simpl in Hloop; [|discriminate].
        now apply Hstep in Hloop.
      * now apply Hstep in Hloop.
Qed.

(** X11: the keys of the mapping [to_dict] returns for an object of a class
    with identifier field names are the titles of the fields whose value is
    not ['N/A'], in the order of the annotations of the class. *)
Theorem to_dict_keys (cls : list (string * vtype)) (attrs : list (string * pyval))
    (data : list (string * rendered)) :
  wf_class (TClass cls) = true ->
  to_dict (PObj cls attrs) = Ok data ->
  map fst data
  = map (fun f => title_of (fst f))
      (filter (fun f => negb (is_NA (getitem attrs (fst f)))) cls).
Proof.
  intros Hwf Hd. apply to_dict_returned in Hd.
  destruct (wf_class_fields _ Hwf) as [Hnd Hfields].
  apply (render_loop_keys attrs cls [] data Hnd); auto.
  intros n Hn. apply in_map_iff in Hn as [[n' vt] [<- Hf]].
  apply (Hfields _ _ Hf).
Qed.

Lemma to_dict_keys_witness :
  map fst
    [("Fan Speed", RVal (PInt 40)); ("Clocks", RDict [("SM", RVal (PInt 210))])]
  = ["Fan Speed"; "Clocks"].
Proof.
  exact (to_dict_keys
           [("Fan_Speed", TInt); ("Performance_State", TStr);
            ("Clocks", TClass [("Graphics", TInt); ("SM", TInt)])]
           [("Fan_Speed", PInt 40); ("Performance_State", PStr "N/A");
            ("Clocks", PObj [("Graphics", TInt); ("SM", TInt)]
                         [("Graphics", PStr "N/A"); ("SM", PInt 210)])]
           [("Fan Speed", RVal (PInt 40)); ("Clocks", RDict [("SM", RVal (PInt 210))])]
           eq_refl eq_refl).
Defined.

(** ** When the merge raises and what it keeps *)

(** The destination stays an object of its class, whether the merge
    returns or raises; a name that is not among the items keeps its
    value. *)
Lemma merge_loop_object (items : list (string * pyval)) :
  forall (cls : list (string * vtype)) (attrs : list (string * pyval))
         (objA' : pyval) (r : result unit),
    merge_loop items (PObj cls attrs) = (objA', r) ->
    exists attrs',
      objA' = PObj cls attrs'
      /\ forall k, lookup items k = None -> lookup attrs' k = lookup attrs k.
Proof.
  induction items as [|[n v] rest IH]; intros cls attrs objA' r H; simpl in H.
  - injection H as <- <-. now exists attrs.
  - unfold deepcopy in H.
    assert (Hstep : forall x,
               merge_loop rest (PObj cls (store attrs n x)) = (objA', r) ->
               exists attrs',
                 objA' = PObj cls attrs'
                 /\ forall k, lookup ((n, v) :: rest) k = None ->
                              lookup attrs' k = lookup attrs k).
    { intros x Hx. destruct (IH _ _ _ _ Hx) as [attrs' [-> Hk]].
      exists attrs'. split; [reflexivity|]. intros k Hnone. simpl in Hnone.
      destruct (String.eqb_spec n k) as [->|Hne]; [discriminate|].
      rewrite Hk by assumption. now apply lookup_store_other. }
    destruct (has_key attrs n).
    + destruct (merge_object_attrs (getitem attrs n) v) as [sub' [[]|e]].
      * now apply Hstep in H.
      * injection H as <- <-. exists (store attrs n sub').
        split; [reflexivity|]. intros k Hnone. simpl in Hnone.
        destruct (String.eqb_spec n k) as [->|Hne]; [discriminate|].
        now apply lookup_store_other.
    + now apply Hstep in H.
Qed.

(** A name of the destination under which the source holds a string or a
    number makes the merge raise. *)
Lemma merge_loop_leaf_source (items : list (string * pyval)) :
  forall (cls : list (string * vtype)) (attrs : list (string * pyval))
         (name : string) (b : pyval),
    has_key attrs name = true ->
    lookup items name = Some b -> is_leaf b = true ->
    exists attrs', merge_loop items (PObj cls attrs) = (PObj cls attrs', Raise TypeError).
Proof.
  induction items as [|[n v] rest IH]; intros cls attrs name b Ha Hb Lb;
    simpl in *; [discriminate|].
  unfold deepcopy.
  destruct (String.eqb_spec n name) as [->|En].
  - injection Hb as ->. rewrite Ha.
    rewrite (merge_not_object _ b Lb). eauto.
  - assert (Hk : forall x, has_key (store attrs n x) name = true)
      by (intros x; now rewrite has_key_store_other).
    destruct (has_key attrs n).
    + destruct (merge_object_attrs (getitem attrs n) v) as [sub' [u|e]] eqn:Hm.
      * apply (IH cls _ name b); auto.
      * apply merge_raises_TypeError in Hm as ->. eauto.
    + apply (IH cls _ name b); auto.
Qed.

Lemma record_keys (cls : list (string * vtype)) (attrs : list (string * pyval)) :
  is_record (PObj cls attrs) ->
  map fst attrs = map fst cls /\ NoDup (map fst attrs).
Proof.
  intros [Hws Hl].
  assert (Hk : map fst attrs = map fst cls).
  { cbn [layout_of] in Hl. inversion Hl as [|? ? ? Hall]; subst.
    clear - Hall. remember (map (fun f => (fst f, layout_of (snd f))) cls) as fields.
    revert cls Heqfields.
    induction Hall as [|f a fs xs [Hfa _] _ IH]; intros [|c cls] E; try discriminate.
    - reflexivity.
    - simpl in E. injection E as -> ->. simpl in Hfa |- *.
      now rewrite <- Hfa, (IH cls eq_refl). }
  split; [exact Hk|]. rewrite Hk.
  exact (proj1 (wf_class_fields _ (wf_schema_class _ Hws))).
Qed.

(** X12: [merge_object_attrs] raises [TypeError] as soon as the source, a
    record, holds a string or a number under a name the destination has in
    its attribute dictionary, whatever the destination holds there: the
    [else] branch hands the source value to [vars].  The destination is
    then left as an object of its class, partly merged. *)
Theorem merge_object_attrs_raises
    (clsA clsB : list (string * vtype)) (attrsA attrsB : list (string * pyval))
    (name : string) (b : pyval) :
  is_record (PObj clsB attrsB) ->
  has_key attrsA name = true ->
  lookup attrsB name = Some b -> is_leaf b = true ->
  exists attrs',
    merge_object_attrs (PObj clsA attrsA) (PObj clsB attrsB)
    = (PObj clsA attrs', Raise TypeError).
Proof.
  intros _ Ha Hb Lb. rewrite merge_object_attrs_eq.
  now apply (merge_loop_leaf_source attrsB clsA attrsA name b).
Qed.

Lemma merge_object_attrs_raises_witness :
  exists attrs',
    merge_object_attrs
      (PObj [("Total", TInt)] [("Total", PInt 8192)])
      (PObj [("Used", TInt); ("Total", TInt)] [("Used", PInt 100); ("Total", PInt 8192)])
    = (PObj [("Total", TInt)] attrs', Raise TypeError).
Proof.
  apply (merge_object_attrs_raises
           [("Total", TInt)] [("Used", TInt); ("Total", TInt)]
           [("Total", PInt 8192)] [("Used", PInt 100); ("Total", PInt 8192)]
           "Total" (PInt 8192)); try reflexivity.
  split; [reflexivity|].
  repeat (constructor; simpl; try split; try reflexivity).
Defined.

(** X13: when [merge_object_attrs] returns on a source that is a record,
    the destination is still an object of its class; a name it did not have
    holds the copy of the source value, a name the source does not have
    holds what it held, and a string or number of the destination is
    kept. *)
Theorem merge_object_attrs_returns
    (clsA clsB : list (string * vtype)) (attrsA attrsB : list (string * pyval))
    (objA' : pyval) :
  is_record (PObj clsB attrsB) ->
  merge_object_attrs (PObj clsA attrsA) (PObj clsB attrsB) = (objA', Ok tt) ->
  exists attrs',
    objA' = PObj clsA attrs'
    /\ (forall name v, lookup attrsB name = Some v -> lookup attrsA name = None ->
          lookup attrs' name = Some v)
    /\ (forall name, lookup attrsB name = None ->
          lookup attrs' name = lookup attrsA name)
    /\ (forall name a, lookup attrsA name = Some a -> is_leaf a = true ->
          lookup attrs' name = Some a).
Proof.
  intros Hrec H. rewrite merge_object_attrs_eq in H.
  exact (merge_loop_returns attrsB clsA attrsA objA' (proj2 (record_keys _ _ Hrec)) H).
Qed.

Lemma merge_object_attrs_returns_witness :
  exists attrs',
    PObj [("Total", TInt)]
      [("Total", PInt 8192); ("Used", PInt 100); ("Free", PInt 8092)]
    = PObj [("Total", TInt)] attrs'
    /\ lookup attrs' "Total" = Some (PInt 8192)
    /\ lookup attrs' "Free" = Some (PInt 8092).
Proof.
  assert (Hrec : is_record (PObj [("Used", TInt); ("Free", TInt)]
                              [("Used", PInt 100); ("Free", PInt 8092)])).
  { split; [reflexivity|].
    repeat (constructor; simpl; try split; try reflexivity). }
  destruct (merge_object_attrs_returns
              [("Total", TInt)] [("Used", TInt); ("Free", TInt)]
              [("Total", PInt 8192)] [("Used", PInt 100); ("Free", PInt 8092)]
              (PObj [("Total", TInt)]
                 [("Total", PInt 8192); ("Used", PInt 100); ("Free", PInt 8092)])
              Hrec eq_refl) as [attrs' [E [Hnew [_ Hleaf]]]].
  exists attrs'. split; [exact E|]. split.
  - exact (Hleaf "Total" (PInt 8192) eq_refl eq_refl).
  - exact (Hnew "Free" (PInt 8092) eq_refl eq_refl).
Defined.

Lemma merge_loop_disjoint (items : list (string * pyval)) :
  forall (cls : list (string * vtype)) (attrs : list (string * pyval)),
    NoDup (map fst items) ->
    (forall n, In n (map fst items) -> lookup attrs n = None) ->
    merge_loop items (PObj cls attrs) = (PObj cls (attrs ++ items), Ok tt).
Proof.
  induction items as [|[n v] rest IH]; intros cls attrs Hnd Hfresh; simpl.
  - now rewrite app_nil_r.
  - inversion Hnd as [|? ? Hn Hrest]; subst.
    unfold has_key. rewrite (Hfresh n (or_introl eq_refl)).
    unfold deepcopy. rewrite store_fresh by (apply Hfresh; now left).
    rewrite IH; [now rewrite <- app_assoc | assumption |].
    intros x Hx. apply lookup_app_fresh. split; [apply Hfresh; now right|].
    intros ->. contradiction.
Qed.

(** X14: when the destination has none of the names of the source, a
    record, the merge returns and appends the attributes of the source to
    those of the destination, in their order. *)
Theorem merge_object_attrs_disjoint
    (clsA clsB : list (string * vtype)) (attrsA attrsB : list (string * pyval)) :
  is_record (PObj clsB attrsB) ->
  (forall n, In n (map fst attrsB) -> lookup attrsA n = None) ->
  merge_object_attrs (PObj clsA attrsA) (PObj clsB attrsB)
  = (PObj clsA (attrsA ++ attrsB), Ok tt).
Proof.
  intros Hrec Hfresh. rewrite merge_object_attrs_eq.
  apply merge_loop_disjoint; [exact (proj2 (record_keys _ _ Hrec)) | assumption].
Qed.

Lemma merge_object_attrs_disjoint_witness :
  merge_object_attrs
    (PObj [] [("device_id", PInt 0)])
    (PObj [("Product_Name", TStr); ("Temperature", TClass [("GPU_Shutdown_Temp", TInt)])]
       [("Product_Name", PStr "NVIDIA RTX 9999");
        ("Temperature", PObj [("GPU_Shutdown_Temp", TInt)] [("GPU_Shutdown_Temp", PInt 98)])])
  = (PObj []
       [("device_id", PInt 0); ("Product_Name", PStr "NVIDIA RTX 9999");
        ("Temperature", PObj [("GPU_Shutdown_Temp", TInt)] [("GPU_Shutdown_Temp", PInt 98)])],
     Ok tt).
Proof.
  apply (merge_object_attrs_disjoint [] _ [("device_id", PInt 0)]).
  - split; [reflexivity|].
    repeat (constructor; simpl; try split; try reflexivity).
  - intros n [<-|[<-|[]]]; reflexivity.
Defined.


Lemma filter_titles_incl (attrs : list (string * pyval)) (cls : list (string * vtype))
    (t : string) :
  In t (map (fun f => title_of (fst f))
          (filter (fun f => negb (is_NA (getitem attrs (fst f)))) cls)) ->
  In t (map title_of (map fst cls)).
Proof.
  rewrite map_map. intros H.
  apply in_map_iff in H as [f [<- Hf]]. apply filter_In in Hf as [Hf _].
  apply in_map_iff. now exists f.
Qed.



(** ** Layouts *)

Lemma layout_nested_ind (P : layout -> Prop) :
  P LLeaf ->
  (forall cls fields, Forall (fun f => P (snd f)) fields -> P (LObj cls fields)) ->
  forall l, P l.
Proof.
  intros HL HO.
  fix IH 1.
  intros [|cls fields]; [exact HL | apply HO].
  induction fields as [|[n l] rest IHrest]; constructor.
  - apply IH.
  - exact IHrest.
Qed.

Lemma merge_layout_eq (la : layout) (cls : list (string * vtype))
    (items : list (string * layout)) :
  merge_layout la (LObj cls items) = merge_layout_loop items la.
Proof. reflexivity. Qed.

Section LayoutFacts.
Context {A B : Type} (R : A -> B -> Prop).
Implicit Types (fs : list (string * A)) (xs : list (string * B)).

Let rel (f : string * A) (a : string * B) : Prop := fst f = fst a /\ R (snd f) (snd a).

Lemma lookup_Forall2_none fs xs (k : string) :
  Forall2 rel fs xs -> lookup fs k = None -> lookup xs k = None.
Proof.
  induction 1 as [|[n f] [m x] fs xs [Hn _] _ IH]; simpl; [reflexivity|].
  simpl in Hn. subst m. destruct (String.eqb n k); [discriminate | exact IH].
Qed.

Lemma lookup_Forall2_some fs xs (k : string) (f : A) :
  Forall2 rel fs xs -> lookup fs k = Some f ->
  exists x, lookup xs k = Some x /\ R f x.
Proof.
  induction 1 as [|[n g] [m x] fs xs [Hn Hr] _ IH]; simpl; [discriminate|].
  simpl in Hn, Hr. subst m. destruct (String.eqb n k); [|exact IH].
  intros E. injection E as <-. eauto.
Qed.

Lemma store_Forall2 fs xs (k : string) (f : A) (x : B) :
  Forall2 rel fs xs -> R f x -> Forall2 rel (store fs k f) (store xs k x).
Proof.
  intros H Hr.
  induction H as [|[n g] [m y] fs xs [Hn Hg] Htl IH]; simpl.
  - constructor; [now split | constructor].
  - simpl in Hn, Hg. subst m. destruct (String.eqb n k).
    + constructor; [now split | exact Htl].
    + constructor; [now split | exact IH].
Qed.
End LayoutFacts.

(** Where the layouts merge, the objects merge: the call returns and the
    destination has the merged layout. *)
Lemma merge_has_layout (lb : layout) :
  forall (la lc : layout) (a b : pyval),
    has_layout la a -> has_layout lb b ->
    merge_layout la lb = Some lc ->
    exists a', merge_object_attrs a b = (a', Ok tt) /\ has_layout lc a'.
Proof.
  induction lb as [|clsB fieldsB IH] using layout_nested_ind;
    intros la lc a b Ha Hb Hm; [discriminate|].
  inversion Hb as [|? ? attrsB HB]; subst.
  rewrite merge_layout_eq in Hm. rewrite merge_object_attrs_eq.
  clear Hb. revert la a Ha Hm.
  induction HB as [|[n lv] [m v] fieldsB attrsB [Hn Hv] _ IHB];
    intros la a Ha Hm; simpl in Hm |- *.
  - injection Hm as <-. eauto.
  - simpl in Hn, Hv. subst m.
    inversion IH as [|? ? IHv IHrest]; subst. simpl in IHv.
    destruct la as [|cls fieldsA]; [discriminate|].
    inversion Ha as [|? ? attrsA HA]; subst. simpl.
    unfold has_key, deepcopy.
    destruct (lookup fieldsA n) as [sub|] eqn:Hl.
    + destruct (lookup_Forall2_some _ _ _ _ _ HA Hl) as [x [Hx Hsub]].
      rewrite Hx. unfold getitem. rewrite Hx.
      destruct (merge_layout sub lv) as [sub'|] eqn:Hs; [|discriminate].
      destruct (IHv _ _ _ _ Hsub Hv Hs) as [x' [-> Hx']].
      apply (IHB IHrest (LObj cls (store fieldsA n sub'))); [|assumption].
      constructor. now apply store_Forall2.
    + rewrite (lookup_Forall2_none _ _ _ _ HA Hl).
      apply (IHB IHrest (LObj cls (store fieldsA n lv))); [|assumption].
      constructor. now apply store_Forall2.
Qed.

(** Where the layouts do not merge, the objects do not: the call raises. *)
Lemma merge_no_layout (lb : layout) :
  forall (la : layout) (a b : pyval),
    has_layout la a -> has_layout lb b ->
    merge_layout la lb = None ->
    exists a', merge_object_attrs a b = (a', Raise TypeError).
Proof.
  induction lb as [|clsB fieldsB IH] using layout_nested_ind;
    intros la a b Ha Hb Hm.
  - inversion Hb; subst. rewrite merge_not_object by assumption. eauto.
  - inversion Hb as [|? ? attrsB HB]; subst.
    rewrite merge_layout_eq in Hm. rewrite merge_object_attrs_eq.
    clear Hb. revert la a Ha Hm.
    induction HB as [|[n lv] [m v] fieldsB attrsB [Hn Hv] _ IHB];
      intros la a Ha Hm; simpl in Hm |- *; [discriminate|].
    simpl in Hn, Hv. subst m.
    inversion IH as [|? ? IHv IHrest]; subst. simpl in IHv.
    destruct la as [|cls fieldsA].
    + inversion Ha; subst.
      destruct a as [ |s|z|f|c attrs]; try discriminate; simpl; eauto.
      destruct (Str.contains n s); simpl; eauto.
    + inversion Ha as [|? ? attrsA HA]; subst. simpl.
      unfold has_key, deepcopy.
      destruct (lookup fieldsA n) as [sub|] eqn:Hl.
      * destruct (lookup_Forall2_some _ _ _ _ _ HA Hl) as [x [Hx Hsub]].
        rewrite Hx. unfold getitem. rewrite Hx.
        destruct (merge_layout sub lv) as [sub'|] eqn:Hs.
        -- destruct (merge_has_layout _ _ _ _ _ Hsub Hv Hs) as [x' [-> Hx']].
           apply (IHB IHrest (LObj cls (store fieldsA n sub'))); [|assumption].
           constructor. now apply store_Forall2.
        -- destruct (IHv _ _ _ Hsub Hv Hs) as [x' ->]. eauto.
      * rewrite (lookup_Forall2_none _ _ _ _ HA Hl).
        apply (IHB IHrest (LObj cls (store fieldsA n lv))); [|assumption].
        constructor. now apply store_Forall2.
Qed.

(** X16: whether [merge_object_attrs] returns or raises on a source that
    is a record is decided by the layouts of the two objects alone, the
    names of their attributes and which of them are objects: where
    [merge_layout] gives a layout the call returns and the destination has
    that layout, and where it gives none the call raises [TypeError]. *)
Theorem merge_by_layout (la : layout) (a : pyval)
    (clsB : list (string * vtype)) (attrsB : list (string * pyval)) :
  has_layout la a -> is_record (PObj clsB attrsB) ->
  match merge_layout la (layout_of (TClass clsB)) with
  | Some lc =>
      exists a', merge_object_attrs a (PObj clsB attrsB) = (a', Ok tt) /\ has_layout lc a'
  | None => exists a', merge_object_attrs a (PObj clsB attrsB) = (a', Raise TypeError)
  end.
Proof.
  intros Ha [_ Hb].
  destruct (merge_layout la (layout_of (TClass clsB))) as [lc|] eqn:Hm.
  - exact (merge_has_layout _ la lc a _ Ha Hb Hm).
  - exact (merge_no_layout _ la a _ Ha Hb Hm).
Qed.

Lemma merge_by_layout_witness :
  exists a',
    merge_object_attrs
      (PObj [("Temperature", TClass [("GPU_Shutdown_Temp", TInt)])]
         [("Temperature",
           PObj [("GPU_Shutdown_Temp", TInt)] [("GPU_Shutdown_Temp", PInt 98)])])
      (PObj [("Temperature", TClass [("GPU_Current_Temp", TInt)]); ("Fan_Speed", TInt)]
         [("Temperature",
           PObj [("GPU_Current_Temp", TInt)] [("GPU_Current_Temp", PInt 55)]);
          ("Fan_Speed", PInt 40)])
    = (a', Ok tt)
    /\ has_layout
         (LObj [("Temperature", TClass [("GPU_Shutdown_Temp", TInt)])]
            [("Temperature",
              LObj [("GPU_Shutdown_Temp", TInt)]
                [("GPU_Shutdown_Temp", LLeaf); ("GPU_Current_Temp", LLeaf)]);
             ("Fan_Speed", LLeaf)])
         a'.
Proof.
  apply (merge_by_layout
           (LObj [("Temperature", TClass [("GPU_Shutdown_Temp", TInt)])]
              [("Temperature", LObj [("GPU_Shutdown_Temp", TInt)]
                                 [("GPU_Shutdown_Temp", LLeaf)])])
           _
           [("Temperature", TClass [("GPU_Current_Temp", TInt)]); ("Fan_Speed", TInt)]).
  - repeat (constructor; simpl; try split; try reflexivity).
  - split; [reflexivity|].
    repeat (constructor; simpl; try split; try reflexivity).
Defined.

(** ** The device object *)

Lemma fields_layout (lines : list string) (l : list (string * vtype))
    (added : list (string * pyval)) :
  (forall n vt v, In (n, vt) l -> field_value lines n vt = Ok v ->
     has_layout (layout_of vt) v) ->
  Forall2 (fun f a => fst a = fst f
                      /\ field_value lines (fst f) (snd f) = Ok (snd a)) l added ->
  Forall2 (fun f a => fst f = fst a /\ has_layout (snd f) (snd a))
    (map (fun f => (fst f, layout_of (snd f))) l) added.
Proof.
  intros Hl Hall.
  induction Hall as [|[n vt] [k x] l l' [Hk Hx] _ IHl]; simpl.
  - constructor.
  - simpl in Hk, Hx. subst k. constructor.
    + split; [reflexivity|]. simpl. apply (Hl n vt x); [now left | assumption].
    + apply IHl. intros n' vt' v' Hin. apply Hl. now right.
Qed.

Lemma field_value_layout (vtype : vtype) :
  wf_class vtype = true ->
  forall lines name v,
    field_value lines name vtype = Ok v -> has_layout (layout_of vtype) v.
Proof.
  induction vtype as [ | | |allowed|annotations IH] using vtype_nested_ind;
    intros Hwf lines name v Hv;
    try (match type of Hv with
         | field_value _ _ ?vt = _ =>
             constructor; exact (proj2 (field_value_leaf lines name vt v eq_refl Hv))
         end).
  destruct (field_value_class _ _ _ _ Hv) as [attrs [-> Ha]].
  destruct (wf_class_fields _ Hwf) as [Hnd Hfields].
  destruct (fields_loop_order _ _ [] attrs Hnd (fun _ _ => eq_refl) Ha)
    as [added [-> Hall]].
  simpl. constructor.
  rewrite Forall_forall in IH.
  apply (fields_layout _ _ _) with (2 := Hall).
  intros n vt x Hin Hx.
  apply (IH (n, vt) Hin (proj2 (Hfields n vt Hin)) _ _ _ Hx).
Qed.

(** The object [from_lines] builds for a schema has the layout of its
    class. *)
Lemma from_lines_layout (annotations : list (string * vtype)) (lines : list string) :
  wf_schema (TClass annotations) = true ->
  exists attrs,
    from_lines (TClass annotations) lines = Ok (PObj annotations attrs)
    /\ has_layout (layout_of (TClass annotations)) (PObj annotations attrs).
Proof.
  intros Hws.
  destruct (from_lines_object annotations lines Hws) as [attrs [Ha Hf]].
  exists attrs. split; [assumption|].
  destruct (wf_class_fields _ (wf_schema_class _ Hws)) as [Hnd Hfields].
  destruct (fields_loop_order _ _ [] attrs Hnd (fun _ _ => eq_refl) Ha)
    as [added [-> Hall]].
  simpl. constructor.
  apply (fields_layout _ _ _) with (2 := Hall).
  intros n vt x Hin Hx.
  apply (field_value_layout vt (proj2 (Hfields n vt Hin)) _ _ _ Hx).
Qed.

(** The device object is built on every report, with the layout
    [NVSMI.object_layout]. *)
Lemma init_layout (device_id : N) (lines : list string) :
  exists self,
    NVSMI.init device_id lines = Ok self
    /\ has_layout NVSMI.object_layout self.
Proof.
  destruct (from_lines_layout NVSMI_Static.annotations lines
              ltac:(vm_compute; reflexivity))
    as [nvs [Hs Ls]].
  destruct (from_lines_layout NVSMI_Dynamic.annotations lines
              ltac:(vm_compute; reflexivity))
    as [nvd [Hd Ld]].
  unfold NVSMI.init, NVSMI_Static.cls, NVSMI_Dynamic.cls.
  rewrite Hs, Hd. cbn [bind].
  set (self0 := PObj NVSMI.annotations _).
  assert (L0 : has_layout
                 (LObj NVSMI.annotations
                    [("device_id", LLeaf);
                     ("nvs", layout_of NVSMI_Static.cls);
                     ("nvd", layout_of NVSMI_Dynamic.cls)])
                 self0).
  { constructor.
    constructor; [split; [reflexivity | constructor; reflexivity]|].
    constructor; [split; [reflexivity | exact Ls]|].
    constructor; [split; [reflexivity | exact Ld]|].
    constructor. }
  destruct (merge_has_layout _ _ _ _ _ L0 Ls eq_refl) as [self1 [-> L1]].
  cbn [bind].
  destruct (merge_has_layout _ _ _ _ _ L1 Ld eq_refl) as [self2 [-> L2]].
  cbn [bind].
  exists self2. split; [reflexivity | exact L2].
Qed.

Lemma layout_keys (fields : list (string * layout)) (attrs : list (string * pyval)) :
  Forall2 (fun f a => fst f = fst a /\ has_layout (snd f) (snd a)) fields attrs ->
  map fst attrs = map fst fields.
Proof.
  induction 1 as [|f a fs xs [Hk _] _ IH]; simpl; [reflexivity|].
  now rewrite Hk, IH.
Qed.

(** X17: building the device object never raises, whatever the report
    holds: no name that [NVSMI_Static] and [NVSMI_Dynamic] share is a
    string or a number in either, at any depth, so the two merges return.
    The object holds [device_id], [nvs] and [nvd], then the fields of the
    static record, with the fields of both records in the sections both
    declare, then the fields of the dynamic record alone. *)
Theorem NVSMI_init_returns (device_id : N) (lines : list string) :
  exists attrs,
    NVSMI.init device_id lines = Ok (PObj NVSMI.annotations attrs)
    /\ has_layout NVSMI.object_layout (PObj NVSMI.annotations attrs)
    /\ lookup attrs "device_id" = Some (PInt (Z.of_N device_id))
    /\ map fst attrs
       = ["device_id"; "nvs"; "nvd";
          "Product_Name"; "Product_Brand"; "Product_Architecture"; "GPU_UUID";
          "GPU_PDI"; "VBIOS_Version"; "MultiGPU_Board"; "Board_ID";
          "GPU_Part_Number"; "PCI"; "FB_Memory_Usage"; "BAR1_Memory_Usage";
          "Temperature"; "GPU_Power_Readings"; "Max_Clocks";
          "Timestamp"; "Driver_Version"; "CUDA_Version"; "Display_Attached";
          "Display_Active"; "Driver_Model"; "Fan_Speed"; "Performance_State";
          "Utilization"; "Clocks"].
Proof.
  destruct (init_layout device_id lines) as [self [Hinit Hl]].
  inversion Hl as [|cls fields attrs Hall]; subst.
  exists attrs. split; [assumption|]. split; [assumption|].
  split; [|exact (layout_keys _ _ Hall)].
  (* [device_id] is a leaf that no merge touches *)
  unfold NVSMI.init in Hinit.
  destruct (from_lines NVSMI_Static.cls lines) as [nvs|e]; [|discriminate].
  destruct (from_lines NVSMI_Dynamic.cls lines) as [nvd|e]; [|discriminate].
  cbn [bind] in Hinit.
  destruct (merge_object_attrs _ nvs) as [self1 [[]|e]] eqn:H1; [|discriminate].
  cbn [bind] in Hinit.
  destruct (merge_object_attrs self1 nvd) as [self2 [[]|e]] eqn:H2; [|discriminate].
  cbn [bind] in Hinit. injection Hinit as ->.
  destruct nvs as [ |s|z|f|cs ns]; try (simpl in H1; discriminate).
  rewrite merge_object_attrs_eq in H1.
  destruct (merge_loop_object _ _ _ _ _ H1) as [attrs1 [-> _]].
  destruct nvd as [ |s|z|f|cd nd]; try (simpl in H2; discriminate).
  rewrite merge_object_attrs_eq in H2.
  assert (Hleaf : forall items c a a',
             merge_loop items (PObj c a) = (PObj c a', Ok tt) ->
             lookup a "device_id" = Some (PInt (Z.of_N device_id)) ->
             lookup a' "device_id" = Some (PInt (Z.of_N device_id))).
  { clear. induction items as [|[n v] rest IH]; intros c a a' H Hl; simpl in H.
    - now injection H as <-.
    - unfold deepcopy in H.
      assert (Hs : forall x, (n = "device_id" -> x = PInt (Z.of_N device_id)) ->
                 lookup (store a n x) "device_id" = Some (PInt (Z.of_N device_id))).
      { intros x Hx. destruct (String.eqb_spec n "device_id") as [->|Hne].
        - rewrite lookup_store_same. now rewrite Hx.
        - now rewrite lookup_store_other. }
      destruct (has_key a n) eqn:Hk.
      + destruct (merge_object_attrs (getitem a n) v) as [sub' [[]|e]] eqn:Hm;
          [|discriminate].
        apply (IH _ _ _ H), Hs. intros ->.
        unfold getitem in Hm. rewrite Hl in Hm.
        exact (merge_into_leaf (PInt (Z.of_N device_id)) v sub' eq_refl Hm).
      + apply (IH _ _ _ H), Hs. intros ->.
        apply has_key_false in Hk. congruence. }
  apply (Hleaf _ _ _ _ H2), (Hleaf _ _ _ _ H1). reflexivity.
Qed.

Lemma render_loop_returns (attrs : list (string * pyval)) (l : list (string * vtype)) :
  (forall n vt, In (n, vt) l -> exists r, render_field vt (getitem attrs n) = Ok r) ->
  forall data, exists data', render_loop attrs l data = Ok data'.
Proof.
  induction l as [|[n vt] rest IH]; intros Hr data; simpl.
  - eauto.
  - assert (Hrest : forall d, exists data', render_loop attrs rest d = Ok data')
      by (intros d; apply IH; intros; apply (Hr n0 vt0); now right).
    destruct (has_key data n); [apply Hrest|].
    destruct (Hr n vt (or_introl eq_refl)) as [r Hrn].
    unfold render_field in Hrn.
    destruct (is_NA (getitem attrs n)); [apply Hrest|].
    destruct (is_class vt); [|apply Hrest].
    destruct (to_dict (getitem attrs n)); simpl in *; [apply Hrest | discriminate].
Qed.

Lemma lookup_In {V : Type} (d : list (string * V)) (k : string) (v : V) :
  lookup d k = Some v -> In (k, v) d.
Proof.
  induction d as [|[k0 v0] d IH]; simpl; [discriminate|].
  destruct (String.eqb_spec k0 k) as [->|].
  - intros E. injection E as ->. now left.
  - intros E. right. now apply IH.
Qed.

Lemma layout_renders_parts (cls : list (string * vtype)) (fields : list (string * layout)) :
  layout_renders (LObj cls fields) = true ->
  cls <> []
  /\ lookup fields "to_dict" = None
  /\ lookup fields "__annotations__" = None
  /\ (forall n sub, In (n, sub) fields ->
        existsb (fun c => String.eqb (fst c) n && is_class (snd c)) cls = true ->
        exists c fs, sub = LObj c fs /\ layout_renders sub = true)
  /\ (forall n vt, In (n, vt) cls -> is_class vt = true -> has_key fields n = true).
Proof.
  cbn [layout_renders]. intros H.
  apply andb_prop in H as [H Hkeys]. apply andb_prop in H as [H Hsub].
  apply andb_prop in H as [H Ha]. apply andb_prop in H as [Hne Ht].
  apply negb_true_iff in Ht, Ha.
  rewrite forallb_forall in Hsub, Hkeys.
  split; [destruct cls; [discriminate Hne | discriminate]|].
  split; [now apply has_key_false|]. split; [now apply has_key_false|].
  split.
  - intros n sub Hin Hex. specialize (Hsub _ Hin). cbn beta iota in Hsub.
    rewrite Hex in Hsub. destruct sub as [|c fs]; [discriminate|]. eauto.
  - intros n vt Hin Hc. specialize (Hkeys _ Hin). cbn [fst snd] in Hkeys.
    now rewrite Hc in Hkeys.
Qed.

(** Nothing stops [to_dict] on an object whose layout renders. *)
Lemma layout_renders_guard (cls : list (string * vtype)) (fields : list (string * layout))
    (attrs : list (string * pyval)) :
  has_layout (LObj cls fields) (PObj cls attrs) ->
  layout_renders (LObj cls fields) = true ->
  to_dict_guard cls attrs = None.
Proof.
  intros Hl Hr. inversion Hl as [|? ? ? Hall]; subst.
  destruct (layout_renders_parts _ _ Hr) as [Hne [Ht [Ha _]]].
  unfold to_dict_guard, has_key.
  rewrite (lookup_Forall2_none _ _ _ _ Hall Ht), (lookup_Forall2_none _ _ _ _ Hall Ha).
  destruct cls; [congruence | reflexivity].
Qed.

(** Every field of an object whose layout renders gives an entry or
    nothing, never an exception. *)
Lemma layout_renders_fields (l : layout) :
  forall cls attrs,
    has_layout l (PObj cls attrs) -> layout_renders l = true ->
    forall n vt, In (n, vt) cls ->
      exists r, render_field vt (getitem attrs n) = Ok r.
Proof.
  induction l as [|cls fields IH] using layout_nested_ind; intros cls0 attrs Hl Hr.
  - inversion Hl; subst. discriminate.
  - inversion Hl as [|? ? ? Hall]; subst.
    destruct (layout_renders_parts _ _ Hr) as [_ [_ [_ [Hsub Hkeys]]]].
    rewrite Forall_forall in IH.
    intros n vt Hin. unfold render_field.
    destruct (is_NA (getitem attrs n)) eqn:Hna; [eauto|].
    destruct (is_class vt) eqn:Hc; [|eauto].
    specialize (Hkeys _ _ Hin Hc). unfold has_key in Hkeys.
    destruct (lookup fields n) as [sub|] eqn:Hf; [|discriminate].
    pose proof (lookup_In _ _ _ Hf) as Hfin.
    assert (Hex : existsb (fun c => String.eqb (fst c) n && is_class (snd c)) cls0 = true).
    { apply existsb_exists. exists (n, vt). split; [assumption|].
      simpl. now rewrite String.eqb_refl, Hc. }
    destruct (Hsub _ _ Hfin Hex) as [c [fs [-> Hrs]]].
    destruct (lookup_Forall2_some _ _ _ _ _ Hall Hf) as [x [Hx Hlx]].
    unfold getitem. rewrite Hx.
    inversion Hlx as [|? ? a Ha]; subst.
    pose proof (IH (n, LObj c fs) Hfin c a Hlx Hrs) as Hfields.
    rewrite to_dict_eq, (layout_renders_guard _ _ _ Hlx Hrs).
    destruct (render_loop_returns a c Hfields []) as [d ->]. simpl. eauto.
Qed.

Lemma has_key_Forall2 (fields : list (string * layout)) (attrs : list (string * pyval))
    (k : string) :
  Forall2 (fun f a => fst f = fst a /\ has_layout (snd f) (snd a)) fields attrs ->
  has_key fields k = true -> has_key attrs k = true.
Proof.
  intros Hall Hk. unfold has_key in *.
  destruct (lookup fields k) as [f|] eqn:Hf; [|discriminate].
  destruct (lookup_Forall2_some _ _ _ _ _ Hall Hf) as [x [-> _]]. reflexivity.
Qed.

(** What the layout of the device object holds for a section that both
    records declare. *)
Lemma shared_section_layout (name : string) (static dynamic : list (string * vtype)) :
  In (name, (static, dynamic)) shared_sections ->
  exists fs,
    lookup (match NVSMI.object_layout with LObj _ fields => fields | LLeaf => [] end) name
    = Some (LObj static fs)
    /\ forallb (has_key fs) (map fst dynamic) = true
    /\ lookup NVSMI.annotations name = Some (TClass dynamic)
    /\ wf_class (TClass static) = true
    /\ forallb (fun f => is_class (snd f)
                         || negb (existsb (String.eqb (title_of (fst f)))
                                    (map title_of (map fst static))))
         dynamic = true.
Proof.
  intros Hin. simpl in Hin.
  repeat (destruct Hin as [E|Hin];
          [injection E as <- <- <-; eexists; repeat split; vm_compute; reflexivity|]).
  destruct Hin.
Qed.

(** X18: rendering the device object never raises, and in a section that
    both records declare it shows the fields of the static record only.
    The section is an object of the static class; the fields of the dynamic
    record are merged into it as attributes, so that for instance
    [Temperature.GPU_Current_Temp] is there, but [to_dict] goes by the
    annotations of the static class and leaves the readings out. *)
Theorem NVSMI_to_dict_sections (device_id : N) (lines : list string) :
  exists attrs data,
    NVSMI.init device_id lines = Ok (PObj NVSMI.annotations attrs)
    /\ to_dict (PObj NVSMI.annotations attrs) = Ok data
    /\ forall name static dynamic,
         In (name, (static, dynamic)) shared_sections ->
         exists a d,
           lookup attrs name = Some (PObj static a)
           /\ (forall n, In n (map fst dynamic) -> has_key a n = true)
           /\ lookup data (title_of name) = Some (RDict d)
           /\ (forall t, In t (map fst d) -> In t (map title_of (map fst static)))
           /\ (forall n vt, In (n, vt) dynamic -> is_class vt = false ->
                 has_key d (title_of n) = false).
Proof.
  destruct (init_layout device_id lines) as [self [Hinit Hl]].
  inversion Hl as [|cls fields attrs Hall]; subst.
  exists attrs.
  assert (Hlr : layout_renders NVSMI.object_layout = true) by (vm_compute; reflexivity).
  pose proof (layout_renders_fields _ _ _ Hl Hlr) as Hfields.
  assert (Hwf : wf_class (TClass NVSMI.annotations) = true) by (vm_compute; reflexivity).
  destruct (wf_class_fields _ Hwf) as [Hnd Hid].
  destruct (render_loop_fields attrs NVSMI.annotations [] Hnd)
    as [data [Hd [Hr _]]]; auto.
  { intros n Hn. apply in_map_iff in Hn as [[n' vt] [<- Hf]]. apply (Hid _ _ Hf). }
  exists data. split; [assumption|].
  split; [rewrite to_dict_eq, (layout_renders_guard _ _ _ Hl Hlr); exact Hd|].
  intros name static dynamic Hin.
  destruct (shared_section_layout _ _ _ Hin) as [fs [Hfs [Hdyn [Hann [Hws Hhid]]]]].
  cbn [NVSMI.object_layout] in Hfs.
  destruct (lookup_Forall2_some _ _ _ _ _ Hall Hfs) as [x [Hx Hlx]].
  inversion Hlx as [|? ? a Ha]; subst.
  pose proof (Hr _ _ (lookup_In _ _ _ Hann)) as Hsec.
  unfold render_field, getitem in Hsec. rewrite Hx in Hsec.
  cbn [is_NA is_class] in Hsec.
  destruct (to_dict (PObj static a)) as [d|e] eqn:Hsd; [|discriminate].
  cbn [bind] in Hsec. injection Hsec as Hsec.
  apply to_dict_returned in Hsd.
  destruct (wf_class_fields _ Hws) as [Hnds Hids].
  assert (Hsp : forall n, In n (map fst static) -> no_space n = true).
  { intros n Hn. apply in_map_iff in Hn as [[n' vt] [<- Hf]]. apply (Hids _ _ Hf). }
  pose proof (render_loop_keys a static [] d Hnds Hsp (fun _ _ => eq_refl)
                (fun _ _ => eq_refl) Hsd) as Hkeys.
  cbn [map app] in Hkeys.
  assert (Hincl : forall t, In t (map fst d) -> In t (map title_of (map fst static))).
  { intros t Ht. rewrite Hkeys in Ht. exact (filter_titles_incl _ _ _ Ht). }
  exists a, d. split; [assumption|]. split.
  { intros n Hn. rewrite forallb_forall in Hdyn.
    exact (has_key_Forall2 _ _ _ Ha (Hdyn n Hn)). }
  split; [now symmetry|]. split; [exact Hincl|].
  intros n vt Hn Hc.
  rewrite forallb_forall in Hhid. specialize (Hhid _ Hn). cbn [fst snd] in Hhid.
  rewrite Hc in Hhid. cbn [orb] in Hhid. apply negb_true_iff in Hhid.
  destruct (has_key d (title_of n)) eqn:Hk; [|reflexivity].
  assert (Hi : In (title_of n) (map fst d)).
  { unfold has_key in Hk. destruct (lookup d (title_of n)) as [r|] eqn:Hlk; [|discriminate].
    apply lookup_In in Hlk. apply in_map_iff. exists (title_of n, r). split; [reflexivity | exact Hlk]. }
  apply Hincl in Hi.
  assert (existsb (String.eqb (title_of n)) (map title_of (map fst static)) = true) as E.
  { apply existsb_exists. exists (title_of n). split; [assumption | apply String.eqb_refl]. }
  congruence.
Qed.

(** ** What a merge keeps *)

Lemma attr_path_leaf_object (cls : list (string * vtype)) (attrs : list (string * pyval))
    (path : list string) (x : pyval) :
  is_leaf x = true -> attr_path (PObj cls attrs) path = Some x ->
  exists name rest y,
    path = name :: rest /\ lookup attrs name = Some y /\ attr_path y rest = Some x.
Proof.
  intros Lx H. destruct path as [|name rest]; simpl in H.
  - injection H as <-. discriminate.
  - destruct (lookup attrs name) as [y|] eqn:Hy; [|discriminate].
    now exists name, rest, y.
Qed.

Lemma merge_loop_keeps (items : list (string * pyval)) :
  Forall (fun it =>
            forall a a', merge_object_attrs a (snd it) = (a', Ok tt) ->
              forall path x, is_leaf x = true ->
                attr_path a path = Some x \/ attr_path (snd it) path = Some x ->
                attr_path a' path = Some x) items ->
  forall objA objA',
    merge_loop items objA = (objA', Ok tt) ->
    (forall path x, is_leaf x = true ->
       attr_path objA path = Some x -> attr_path objA' path = Some x)
    /\ (forall n w path x, is_leaf x = true ->
          lookup items n = Some w -> attr_path w path = Some x ->
          attr_path objA' (n :: path) = Some x).
Proof.
  induction 1 as [|[n v] rest Hv _ IHrest]; intros objA objA' H; simpl in H.
  - injection H as <-. split; [auto | discriminate].
  - unfold deepcopy in H. simpl in Hv.
    destruct objA as [ |s|z|f|cls attrs]; simpl in H; try discriminate.
    { destruct (Str.contains n s); discriminate. }
    assert (Hstep : forall sub',
               (forall path x, is_leaf x = true ->
                  attr_path (getitem attrs n) path = Some x \/ attr_path v path = Some x ->
                  attr_path sub' path = Some x) ->
               merge_loop rest (PObj cls (store attrs n sub')) = (objA', Ok tt) ->
               (forall path x, is_leaf x = true ->
                  attr_path (PObj cls attrs) path = Some x -> attr_path objA' path = Some x)
               /\ (forall k w path x, is_leaf x = true ->
                     lookup ((n, v) :: rest) k = Some w -> attr_path w path = Some x ->
                     attr_path objA' (k :: path) = Some x)).
    { intros sub' Hsub Hloop.
      destruct (IHrest _ _ Hloop) as [P1 P2]. split.
      - intros path x Lx Hp.
        destruct (attr_path_leaf_object _ _ _ _ Lx Hp) as [m [q [y [-> [Hy Hq]]]]].
        apply (P1 _ _ Lx). cbn [attr_path].
        destruct (String.eqb_spec n m) as [->|Hne].
        + rewrite lookup_store_same. apply (Hsub _ _ Lx). left.
          unfold getitem. now rewrite Hy.
        + rewrite lookup_store_other by assumption. now rewrite Hy.
      - intros k w path x Lx Hk Hp. cbn [lookup] in Hk.
        destruct (String.eqb_spec n k) as [->|Hne].
        + injection Hk as <-. apply (P1 _ _ Lx). cbn [attr_path].
          rewrite lookup_store_same. apply (Hsub _ _ Lx). now right.
        + exact (P2 _ _ _ _ Lx Hk Hp). }
    destruct (has_key attrs n) eqn:Hk.
    + destruct (merge_object_attrs (getitem attrs n) v) as [sub' [[]|e]] eqn:Hm;
        [|discriminate].
      apply (Hstep sub'); [|assumption].
      intros path x Lx Hp. exact (Hv _ _ Hm _ _ Lx Hp).
    + apply (Hstep v); [|assumption].
      intros path x Lx [Hp|Hp]; [|assumption].
      apply has_key_false in Hk. unfold getitem in Hp. rewrite Hk in Hp.
      destruct path; simpl in Hp; [|discriminate].
      injection Hp as <-. discriminate.
Qed.

(** A merge that returns loses no reading: a string or a number that the
    destination or the source holds at the end of a chain of attributes is
    at the end of the same chain in the destination afterwards. *)
Lemma merge_keeps_leaves (objB : pyval) :
  forall objA objA',
    merge_object_attrs objA objB = (objA', Ok tt) ->
    forall path x, is_leaf x = true ->
      attr_path objA path = Some x \/ attr_path objB path = Some x ->
      attr_path objA' path = Some x.
Proof.
  induction objB as [ |s|z|f|clsB items IH] using pyval_nested_ind;
    intros objA objA' H; try (simpl in H; discriminate).
  rewrite merge_object_attrs_eq in H.
  destruct (merge_loop_keeps items IH _ _ H) as [P1 P2].
  intros path x Lx [Hp|Hp].
  - exact (P1 _ _ Lx Hp).
  - destruct (attr_path_leaf_object _ _ _ _ Lx Hp) as [m [q [y [-> [Hy Hq]]]]].
    exact (P2 _ _ _ _ Lx Hy Hq).
Qed.



(** ** What the device object holds *)

Lemma layout_path_leaf (path : list string) :
  forall (l : layout) (v : pyval),
    has_layout l v -> layout_path l path = Some LLeaf ->
    exists x, attr_path v path = Some x /\ is_leaf x = true.
Proof.
  induction path as [|name rest IH]; intros l v Hl Hp; simpl in Hp.
  - injection Hp as ->. inversion Hl; subst. now exists v.
  - destruct l as [|cls fields]; [discriminate|].
    destruct (lookup fields name) as [sub|] eqn:Hf; [|discriminate].
    inversion Hl as [|? ? attrs Hall]; subst.
    destruct (lookup_Forall2_some _ _ _ _ _ Hall Hf) as [y [Hy Hly]].
    destruct (IH _ _ Hly Hp) as [x [Hx Lx]].
    exists x. cbn [attr_path]. now rewrite Hy.
Qed.

(** X20: the device object mounts every reading of the two records on
    itself.  [nvs] and [nvd] are the records [from_lines] built, as they
    were built, and every string or number at the end of a chain of
    attributes of one of them is at the end of the same chain of [self]. *)
Theorem NVSMI_init_mounts (device_id : N) (lines : list string) :
  exists nvs nvd self,
    from_lines NVSMI_Static.cls lines = Ok nvs
    /\ from_lines NVSMI_Dynamic.cls lines = Ok nvd
    /\ NVSMI.init device_id lines = Ok self
    /\ attr_path self ["nvs"] = Some nvs
    /\ attr_path self ["nvd"] = Some nvd
    /\ forall path x, is_leaf x = true ->
         attr_path nvs path = Some x \/ attr_path nvd path = Some x ->
         attr_path self path = Some x.
Proof.
  destruct (init_layout device_id lines) as [self [Hinit _]].
  destruct (from_lines_layout NVSMI_Static.annotations lines
              ltac:(vm_compute; reflexivity))
    as [ns [Hs Ls]].
  destruct (from_lines_layout NVSMI_Dynamic.annotations lines
              ltac:(vm_compute; reflexivity))
    as [nd [Hd Ld]].
  exists (PObj NVSMI_Static.annotations ns), (PObj NVSMI_Dynamic.annotations nd), self.
  split; [exact Hs|]. split; [exact Hd|]. split; [exact Hinit|].
  unfold NVSMI.init, NVSMI_Static.cls, NVSMI_Dynamic.cls in Hinit.
  rewrite Hs, Hd in Hinit. cbn [bind] in Hinit.
  destruct (merge_object_attrs _ (PObj NVSMI_Static.annotations ns))
    as [self1 [[]|e]] eqn:H1; [|discriminate].
  cbn [bind] in Hinit.
  destruct (merge_object_attrs self1 (PObj NVSMI_Dynamic.annotations nd))
    as [self2 [[]|e]] eqn:H2; [|discriminate].
  cbn [bind] in Hinit. injection Hinit as ->.
  pose proof (merge_keeps_leaves _ _ _ H1) as K1.
  pose proof (merge_keeps_leaves _ _ _ H2) as K2.
  rewrite merge_object_attrs_eq in H1.
  destruct (merge_loop_object _ _ _ _ _ H1) as [attrs1 [-> F1]].
  rewrite merge_object_attrs_eq in H2.
  destruct (merge_loop_object _ _ _ _ _ H2) as [attrs2 [-> F2]].
  inversion Ls as [|? ? ? As]; subst. inversion Ld as [|? ? ? Ad]; subst.
  assert (Hfree : forall k,
             lookup (map (fun f => (fst f, layout_of (snd f))) NVSMI_Static.annotations) k
             = None ->
             lookup (map (fun f => (fst f, layout_of (snd f))) NVSMI_Dynamic.annotations) k
             = None ->
             lookup attrs2 k
             = lookup [("device_id", PInt (Z.of_N device_id));
                       ("nvs", PObj NVSMI_Static.annotations ns);
                       ("nvd", PObj NVSMI_Dynamic.annotations nd)] k).
  { intros k Hks Hkd.
    rewrite (F2 k (lookup_Forall2_none _ _ _ _ Ad Hkd)).
    exact (F1 k (lookup_Forall2_none _ _ _ _ As Hks)). }
  split; [|split].
  - cbn [attr_path]. rewrite (Hfree "nvs"); reflexivity.
  - cbn [attr_path]. rewrite (Hfree "nvd"); reflexivity.
  - intros path x Lx [Hp|Hp].
    + apply (K2 _ _ Lx). left. apply (K1 _ _ Lx). now right.
    + apply (K2 _ _ Lx). now right.
Qed.

(** X21: [brief] never meets a missing attribute.  On every report, each
    chain of attributes it reads from the device object leads to a string
    or a number. *)
Theorem brief_reads_exist (device_id : N) (lines : list string) :
  exists self,
    NVSMI.init device_id lines = Ok self
    /\ forall path, In path brief_reads ->
         exists x, attr_path self path = Some x /\ is_leaf x = true.
Proof.
  destruct (init_layout device_id lines) as [self [Hinit Hl]].
  exists self. split; [exact Hinit|].
  intros path Hin. apply (layout_path_leaf path _ _ Hl).
  simpl in Hin.
  repeat (destruct Hin as [<-|Hin]; [vm_compute; reflexivity|]).
  destruct Hin.
Qed.

(** ** The lines of the output of a command *)


Lemma join_cons (sep : ascii) (x : string) (ls : list string) :
  ls <> [] -> join sep (x :: ls) = x ++ String sep (join sep ls).
Proof. destruct ls as [|y ls]; [congruence | reflexivity]. Qed.



Lemma str_split_line (sep : ascii) (x : string) :
  without sep x = true ->
  str_split sep x = [x]
  /\ forall rest, str_split sep (x ++ String sep rest) = x :: str_split sep rest.
Proof.
  unfold without. induction x as [|c x IH]; intros H.
  - split; [reflexivity|]. intros rest. simpl. now rewrite Ascii.eqb_refl.
  - simpl in H. apply andb_prop in H as [Hc Hx]. apply negb_true_iff in Hc.
    destruct (IH Hx) as [IH1 IH2]. split.
    + cbn [str_split]. now rewrite Hc, IH1.
    + intros rest. cbn [append str_split]. now rewrite Hc, IH2.
Qed.

Lemma split_join (sep : ascii) (lines : list string) :
  lines <> [] ->
  Forall (fun line => without sep line = true) lines ->
  str_split sep (join sep lines) = lines.
Proof.
  intros Hne Hall.
  induction Hall as [|x ls Hx Hls IH]; [congruence|].
  destruct ls as [|y ls].
  - exact (proj1 (str_split_line sep x Hx)).
  - rewrite join_cons by discriminate.
    rewrite (proj2 (str_split_line sep x Hx)). now rewrite IH.
Qed.

Lemma all_chars_app (p : ascii -> bool) (a b : string) :
  all_chars p (a ++ b) = all_chars p a && all_chars p b.
Proof.
  induction a as [|c a IH]; simpl; [reflexivity|].
  now rewrite IH, andb_assoc.
Qed.


Lemma universal_newlines_none (s : string) :
  without CR s = true -> universal_newlines s = s.
Proof.
  unfold without. induction s as [|c s IH]; simpl; [reflexivity|].
  intros H. apply andb_prop in H as [Hc Hs].
  apply negb_true_iff in Hc. now rewrite Hc, IH.
Qed.



(** ** A listing read back *)

Lemma plus_greedy_stops {A : Type} (p : ascii -> bool) (s : string)
    (k : string -> option A) :
  stops p s -> plus_greedy p s k = None.
Proof. destruct s as [|c s]; simpl; [reflexivity|]. now intros ->. Qed.

(** [p+] before a text it cannot enter takes the whole run, when the rest
    of the pattern matches from there. *)
Lemma plus_greedy_run {A : Type} (p : ascii -> bool) (run rest : string)
    (k : string -> option A) :
  run <> "" -> all_chars p run = true -> stops p rest -> k rest <> None ->
  plus_greedy p (run ++ rest) k = k rest.
Proof.
  intros Hne Hrun Hrest Hk.
  induction run as [|c run IH]; [congruence|].
  simpl in Hrun. apply andb_prop in Hrun as [Hc Hr].
  cbn [append plus_greedy]. rewrite Hc.
  destruct run as [|d run].
  - cbn [append]. now rewrite plus_greedy_stops.
  - rewrite IH by (assumption || discriminate).
    destruct (k rest); [reflexivity | congruence].
Qed.

(** [p+] gives back its last character when the rest of the pattern needs
    it. *)
Lemma plus_greedy_back {A : Type} (p : ascii -> bool) (run : string) (c : ascii)
    (rest : string) (k : string -> option A) :
  run <> "" -> all_chars p run = true -> p c = true -> stops p rest ->
  k rest = None -> k (String c rest) <> None ->
  plus_greedy p (run ++ String c rest) k = k (String c rest).
Proof.
  intros Hne Hrun Hc Hrest Hnone Hk.
  induction run as [|d run IH]; [congruence|].
  simpl in Hrun. apply andb_prop in Hrun as [Hd Hr].
  cbn [append plus_greedy]. rewrite Hd.
  destruct run as [|e run].
  - cbn [append plus_greedy]. rewrite Hc.
    now rewrite plus_greedy_stops, Hnone.
  - rewrite IH by (assumption || discriminate).
    destruct (k (String c rest)); [reflexivity | congruence].
Qed.

Lemma rmatch_Lits {A : Type} (t : string) (r : regex) (x : string)
    (caps : list string) (k : string -> list string -> option A) :
  rmatch (Lits t r) (t ++ x) caps k = rmatch r x caps k.
Proof.
  induction t as [|c t IH]; [reflexivity|].
  cbn [Lits append rmatch Lit]. rewrite Ascii.eqb_refl. exact IH.
Qed.

Lemma match_here_search (r : regex) (s : string) (m : match_object) :
  match_here r s = Some m -> search r s = Some m.
Proof. intros H. destruct s; simpl; now rewrite H. Qed.

Lemma uuid_stops (uuid rest : string) :
  is_uuid uuid = true ->
  uuid <> "" /\ all_chars (fun c => Str.is_word c || Ascii.eqb c "-") uuid = true
  /\ stops Str.is_space (uuid ++ rest).
Proof.
  destruct uuid as [|c uuid]; [discriminate|].
  unfold is_uuid. intros H. split; [discriminate|]. split; [assumption|].
  simpl in H. apply andb_prop in H as [Hc _]. simpl.
  destruct c as [[] [] [] [] [] [] [] []]; try reflexivity; discriminate Hc.
Qed.

Lemma model_stops (model rest : string) :
  is_model model = true ->
  model <> "" /\ all_chars (fun c => negb (Ascii.eqb c "(")) model = true
  /\ stops Str.is_space (model ++ rest).
Proof.
  destruct model as [|c model]; [discriminate|].
  unfold is_model, without. intros H. apply andb_prop in H as [Hc Hm].
  split; [discriminate|]. split; [assumption|].
  simpl. now apply negb_true_iff in Hc.
Qed.

Lemma digits_stop (ids rest : string) :
  ids <> "" -> all_chars Str.is_digit ids = true -> stops Str.is_space (ids ++ rest).
Proof.
  destruct ids as [|c ids]; [congruence|]. intros _ H.
  simpl in H. apply andb_prop in H as [Hc _]. simpl.
  destruct c as [[] [] [] [] [] [] [] []]; try reflexivity; discriminate Hc.
Qed.


Section Entry.
Context {A : Type} (k : string -> list string -> option A).
Hypothesis k_matches : forall rest caps, k rest caps <> None.

Let R4 : regex :=
  Seq (Group (Plus (fun c => Str.is_word c || Ascii.eqb c "-"))) (Lit ")").
Let R3 : regex := Seq (Plus Str.is_space) (Lits "(UUID:" (Seq (Plus Str.is_space) R4)).
Let R2 : regex := Seq (Group (Plus (fun c => negb (Ascii.eqb c "(")))) R3.

Lemma entry_uuid (uuid post : string) (caps : list string) :
  is_uuid uuid = true ->
  rmatch R4 (uuid ++ String ")" post) caps k = k post (caps ++ [uuid])%list.
Proof.
  intros Huuid.
  destruct (uuid_stops uuid "" Huuid) as [Hne [Hu _]].
  unfold R4. cbn [rmatch].
  rewrite plus_greedy_run; try assumption.
  - cbn [rmatch Lit]. rewrite Ascii.eqb_refl. now rewrite consumed_run.
  - reflexivity.
  - cbn [rmatch Lit]. rewrite Ascii.eqb_refl. apply k_matches.
Qed.

Lemma entry_tail (uuid post : string) (caps : list string) :
  is_uuid uuid = true ->
  rmatch R3 (String " " ("(UUID:" ++ String " " (uuid ++ String ")" post))) caps k
  = k post (caps ++ [uuid])%list.
Proof.
  intros Huuid.
  destruct (uuid_stops uuid (String ")" post) Huuid) as [_ [_ Hus]].
  assert (Hin : rmatch (Lits "(UUID:" (Seq (Plus Str.is_space) R4))
                  ("(UUID:" ++ String " " (uuid ++ String ")" post)) caps k
                = k post (caps ++ [uuid])%list).
  { rewrite rmatch_Lits. cbn [rmatch].
    change (String " " (uuid ++ String ")" post))
      with (" " ++ (uuid ++ String ")" post)).
    rewrite plus_greedy_run;
      [now apply entry_uuid | discriminate | reflexivity | assumption |].
    rewrite entry_uuid by assumption. apply k_matches. }
  unfold R3 at 1. cbn [rmatch].
  change (String " " ("(UUID:" ++ String " " (uuid ++ String ")" post)))
    with (" " ++ ("(UUID:" ++ String " " (uuid ++ String ")" post))).
  rewrite plus_greedy_run;
    [exact Hin | discriminate | reflexivity | reflexivity |].
  rewrite Hin. apply k_matches.
Qed.

Lemma entry_model (model uuid post : string) (caps : list string) :
  is_model model = true -> is_uuid uuid = true ->
  rmatch R2 (model ++ String " " ("(UUID:" ++ String " " (uuid ++ String ")" post)))
    caps k
  = k post ((caps ++ [model]) ++ [uuid])%list.
Proof.
  intros Hmodel Huuid.
  destruct (model_stops model "" Hmodel) as [Hne [Hm _]].
  unfold R2. cbn [rmatch].
  rewrite plus_greedy_back; try assumption.
  - rewrite consumed_run. now apply entry_tail.
  - reflexivity.
  - reflexivity.
  - reflexivity.
  - rewrite consumed_run, entry_tail by assumption. apply k_matches.
Qed.

Lemma entry_line (id : N) (model uuid : string) (caps : list string) :
  is_model model = true -> is_uuid uuid = true ->
  rmatch REGEX_GPU_ENTRY (gpu_line id model uuid) caps k
  = k "" (((caps ++ [str_of_N id]) ++ [model]) ++ [uuid])%list.
Proof.
  intros Hmodel Huuid.
  destruct (str_of_N_digits id) as [Hne [Hd _]].
  destruct (model_stops model (String " " ("(UUID:" ++ String " " (uuid ++ ")"))) Hmodel)
    as [_ [_ Hms]].
  unfold gpu_line.
  set (ids := str_of_N id) in *.
  set (t2 := model ++ " (UUID: " ++ uuid ++ ")").
  assert (Hgroup : forall caps0,
             rmatch (Seq (Group (Plus Str.is_digit))
                       (Seq (Lit ":") (Seq (Plus Str.is_space) R2)))
               (ids ++ String ":" (String " " t2)) caps0 k
             = k "" (((caps0 ++ [ids]) ++ [model]) ++ [uuid])%list).
  { intros caps0.
    assert (Hafter : forall caps1,
               rmatch (Seq (Lit ":") (Seq (Plus Str.is_space) R2))
                 (String ":" (String " " t2)) caps1 k
               = k "" ((caps1 ++ [model]) ++ [uuid])%list).
    { intros caps1. cbn [rmatch Lit]. rewrite Ascii.eqb_refl.
      change (String " " t2) with (" " ++ t2).
      rewrite plus_greedy_run;
        [now apply entry_model | discriminate | reflexivity | exact Hms |].
      unfold t2. change (" (UUID: " ++ uuid ++ ")")
        with (String " " ("(UUID:" ++ String " " (uuid ++ String ")" ""))).
      rewrite entry_model by assumption. apply k_matches. }
    cbn [rmatch] in Hafter |- *.
    rewrite plus_greedy_run; try assumption.
    - rewrite consumed_run. cbn [rmatch] . apply Hafter.
    - reflexivity.
    - rewrite Hafter. apply k_matches. }
  unfold REGEX_GPU_ENTRY.
  change ("GPU " ++ ids ++ ": " ++ t2) with ("GPU" ++ String " " (ids ++ String ":" (String " " t2))).
  rewrite rmatch_Lits. cbn [rmatch] in Hgroup |- *.
  change (String " " (ids ++ String ":" (String " " t2)))
    with (" " ++ (ids ++ String ":" (String " " t2))).
  rewrite plus_greedy_run;
    [apply Hgroup | discriminate | reflexivity | exact (digits_stop ids _ Hne Hd) |].
  rewrite Hgroup. apply k_matches.
Qed.
End Entry.

(** The pattern of a device entry on a line of the listing: the three
    groups are the number, the model and the identifier. *)
Lemma search_gpu_line (id : N) (model uuid : string) :
  is_model model = true -> is_uuid uuid = true ->
  exists m,
    search REGEX_GPU_ENTRY (gpu_line id model uuid) = Some m
    /\ groups m = [str_of_N id; model; uuid].
Proof.
  intros Hmodel Huuid.
  eexists. split.
  - apply match_here_search. unfold match_here.
    rewrite entry_line by (assumption || discriminate). reflexivity.
  - reflexivity.
Qed.

Lemma is_device_parts (id : N) (model uuid : string) :
  is_device (id, model, uuid) = true ->
  Str.len (str_of_N id) <= max_str_digits
  /\ is_model model = true /\ without LF model = true
  /\ without CR model = true /\ is_uuid uuid = true.
Proof.
  unfold is_device. intros H.
  repeat (apply andb_prop in H as [H ?]).
  apply Z.leb_le in H. auto.
Qed.

Lemma list_gpus_loop_listing (devices : list (N * string * string)) :
  Forall (fun d => is_device d = true) devices ->
  forall gpu_list,
    list_gpus_loop (map device_line devices) gpu_list
    = Ok (gpu_list ++ map device_entry devices)%list.
Proof.
  induction 1 as [|[[id model] uuid] devices Hd _ IH]; intros gpu_list.
  - simpl. now rewrite app_nil_r.
  - destruct (is_device_parts _ _ _ Hd) as [Hmax [Hm [_ [_ Hu]]]].
    cbn [map device_line device_entry list_gpus_loop].
    destruct (search_gpu_line id model uuid Hm Hu) as [m [-> ->]].
    rewrite (int_of_str_str_of_N id Hmax).
    cbn [bind]. rewrite IH. now rewrite <- app_assoc.
Qed.

(** X24: a listing is read back.  From the lines [nvidia-smi -L] prints
    for a list of devices, [GPU n: model (UUID: uuid)] with a number of at
    most 4300 digits and a model name that holds no opening parenthesis,
    line feed or carriage return and does not start with white space,
    [list_gpus] returns one entry for each device, in their order, with
    that number, model and identifier. *)
Theorem list_gpus_listing (devices : list (N * string * string)) :
  Forall (fun d => is_device d = true) devices ->
  list_gpus (map device_line devices) = Ok (map device_entry devices).
Proof.
  intros H. exact (list_gpus_loop_listing devices H []).
Qed.

Lemma list_gpus_listing_witness :
  list_gpus ["GPU 0: NVIDIA RTX 9999 (UUID: GPU-abcd-1234)";
             "GPU 12: NVIDIA A100-SXM4-40GB (UUID: GPU-5678_ef)"]
  = Ok [{| device_id := 0; model := "NVIDIA RTX 9999"; uuid := "GPU-abcd-1234" |};
        {| device_id := 12; model := "NVIDIA A100-SXM4-40GB"; uuid := "GPU-5678_ef" |}].
Proof.
  apply (list_gpus_listing
           [(0%N, "NVIDIA RTX 9999", "GPU-abcd-1234");
            (12%N, "NVIDIA A100-SXM4-40GB", "GPU-5678_ef")]).
  repeat constructor.
Defined.

(** ** A printed text read back *)

Lemma str_app_assoc (a b c : string) : (a ++ b) ++ c = a ++ (b ++ c).
Proof. induction a as [|x a IH]; simpl; [reflexivity | now rewrite IH]. Qed.

Lemma print_lines_join (lines : list string) :
  lines <> [] -> print_lines lines = join LF lines ++ String LF "".
Proof.
  induction lines as [|l ls IH]; [congruence|]. intros _.
  destruct ls as [|l2 ls].
  - reflexivity.
  - rewrite join_cons by discriminate. cbn [print_lines] in IH |- *.
    rewrite IH by discriminate. now rewrite str_app_assoc.
Qed.

Lemma ends_clean_split (s : string) :
  ends_clean s = true ->
  exists y c, s = y ++ String c "" /\ Str.is_space c = false.
Proof.
  induction s as [|d s IH]; [discriminate|].
  destruct s as [|e s].
  - cbn [ends_clean]. intros H. apply negb_true_iff in H. now exists "", d.
  - intros H. change (ends_clean (String e s) = true) in H.
    destruct (IH H) as [y [c [E Hc]]].
    exists (String d y), c. split; [|assumption]. cbn [append]. now rewrite <- E.
Qed.

Lemma join_ends (lines : list string) :
  lines <> [] -> ends_clean (last lines "") = true ->
  exists y c, join LF lines = y ++ String c "" /\ Str.is_space c = false.
Proof.
  induction lines as [|l ls IH]; [congruence|]. intros _ H.
  destruct ls as [|l2 ls].
  - now apply ends_clean_split.
  - change (last (l :: l2 :: ls) "") with (last (l2 :: ls) "") in H.
    destruct (IH ltac:(discriminate) H) as [y [c [E Hc]]].
    exists (l ++ String LF y), c. split; [|assumption].
    rewrite join_cons by discriminate. rewrite E, str_app_assoc. reflexivity.
Qed.

Lemma rstrip_app (p : ascii -> bool) (a b : string) (c : ascii) :
  p c = false -> Str.rstrip p b = "" ->
  Str.rstrip p (a ++ String c b) = a ++ String c "".
Proof.
  intros Hc Hb. induction a as [|d a IH].
  - cbn [append Str.rstrip]. now rewrite Hb, Hc.
  - cbn [append Str.rstrip]. rewrite IH.
    destruct a; reflexivity.
Qed.

(** [strip] takes the last line feed of a printed text and nothing else,
    when the text starts and ends with a character that is not white
    space. *)
Lemma strip_printed (lines : list string) :
  starts_clean (hd "" lines) = true ->
  ends_clean (last lines "") = true ->
  Str.strip (print_lines lines) = join LF lines.
Proof.
  intros Hs He.
  assert (Hne : lines <> []) by (destruct lines; [discriminate Hs | discriminate]).
  rewrite print_lines_join by assumption.
  destruct (join_ends lines Hne He) as [y [c [E Hc]]].
  assert (Hfirst : stops Str.is_space (join LF lines)).
  { destruct lines as [|l ls]; [congruence|]. cbn [hd] in Hs.
    destruct l as [|d l]; [discriminate|]. apply negb_true_iff in Hs.
    destruct ls; simpl; exact Hs. }
  unfold Str.strip.
  assert (Hl : Str.lstrip Str.is_space (join LF lines ++ String LF "")
               = join LF lines ++ String LF "").
  { destruct (join LF lines) as [|d s]; [destruct y; discriminate|].
    simpl in Hfirst |- *. now rewrite Hfirst. }
  rewrite Hl, E, str_app_assoc. cbn [append].
  now apply rstrip_app.
Qed.

Lemma print_lines_without (c : ascii) (lines : list string) :
  Ascii.eqb LF c = false ->
  Forall (fun line => without c line = true) lines ->
  without c (print_lines lines) = true.
Proof.
  unfold without. intros Hc. induction 1 as [|l ls Hl _ IH]; [reflexivity|].
  cbn [print_lines]. rewrite all_chars_app, Hl. cbn [all_chars andb].
  now rewrite Hc, IH.
Qed.

(** X23: a text printed line by line is read back as those lines.  When
    no line holds a line feed or a carriage return, the first line starts
    and the last line ends with a character that is not white space,
    [run_cmd] returns the lines that were printed; the line feed after the
    last one is stripped. *)
Theorem run_cmd_reads_back (lines : list string) :
  Forall (fun line => without LF line = true /\ without CR line = true) lines ->
  starts_clean (hd "" lines) = true ->
  ends_clean (last lines "") = true ->
  run_cmd (print_lines lines) = lines.
Proof.
  intros Hall Hs He. unfold run_cmd.
  rewrite universal_newlines_none.
  - rewrite strip_printed by assumption.
    apply split_join; [destruct lines; [discriminate Hs | discriminate]|].
    revert Hall. apply Forall_impl. tauto.
  - apply print_lines_without; [reflexivity|].
    revert Hall. apply Forall_impl. tauto.
Qed.

Lemma run_cmd_reads_back_witness :
  run_cmd (print_lines ["==NVSMI LOG=="; ""; "    Fan Speed : 40 %"])
  = ["==NVSMI LOG=="; ""; "    Fan Speed : 40 %"].
Proof.
  apply run_cmd_reads_back.
  - repeat constructor.
  - reflexivity.
  - reflexivity.
Defined.

Lemma all_chars_impl (p q : ascii -> bool) (s : string) :
  (forall c, p c = true -> q c = true) ->
  all_chars p s = true -> all_chars q s = true.
Proof.
  intros Hpq. induction s as [|c s IH]; simpl; [reflexivity|].
  intros H. apply andb_prop in H as [Hc Hs]. now rewrite (Hpq c Hc), IH.
Qed.

Lemma ends_clean_app (a : string) (c : ascii) :
  ends_clean (a ++ String c "") = negb (Str.is_space c).
Proof.
  induction a as [|d a IH]; [reflexivity|].
  cbn [append]. destruct a as [|e a]; [exact IH|].
  change (ends_clean (String d (String e a ++ String c "")))
    with (ends_clean (String e a ++ String c "")).
  exact IH.
Qed.

(** A line of the listing holds no line feed and no carriage return,
    starts with [G] and ends with a parenthesis. *)
Lemma device_line_clean (d : N * string * string) :
  is_device d = true ->
  (without LF (device_line d) = true /\ without CR (device_line d) = true)
  /\ starts_clean (device_line d) = true
  /\ ends_clean (device_line d) = true.
Proof.
  destruct d as [[id model] uuid]. intros H.
  destruct (is_device_parts _ _ _ H) as [_ [_ [Hl [Hr Hu]]]].
  unfold device_line, gpu_line.
  destruct (str_of_N_digits id) as [_ [Hd _]].
  assert (Hclean : forall c, (c = LF \/ c = CR) ->
            without c model = true -> without c (device_line (id, model, uuid)) = true).
  { intros c Hc Hm. unfold device_line, gpu_line, without in *.
    rewrite !all_chars_app, Hm.
    assert (Hd' : all_chars (fun d => negb (Ascii.eqb d c)) (str_of_N id) = true).
    { revert Hd. apply all_chars_impl. intros c0 Hc0.
      destruct Hc as [-> | ->];
        destruct c0 as [[] [] [] [] [] [] [] []]; try reflexivity; discriminate Hc0. }
    assert (Hu' : all_chars (fun d => negb (Ascii.eqb d c)) uuid = true).
    { destruct uuid as [|c1 u]; [discriminate|]. unfold is_uuid in Hu.
      revert Hu. apply all_chars_impl. intros c0 Hc0.
      destruct Hc as [-> | ->];
        destruct c0 as [[] [] [] [] [] [] [] []]; try reflexivity; discriminate Hc0. }
    rewrite Hd', Hu'. destruct Hc as [-> | ->]; reflexivity. }
  split; [split|split].
  - apply Hclean; auto.
  - apply Hclean; auto.
  - reflexivity.
  - rewrite <- !str_app_assoc. apply ends_clean_app.
Qed.

(** X25: the devices are read from what [nvidia-smi -L] prints.  When the
    command prints one line [GPU n: model (UUID: uuid)] for each device,
    with a number of at most 4300 digits and a model name that holds no
    opening parenthesis, line feed or carriage return and does not start
    with white space, [list_gpus] on the lines [run_cmd] returns gives one
    entry for each device, in their order, with that number, model and
    identifier; none when nothing is printed. *)
Theorem list_gpus_of_output (devices : list (N * string * string)) :
  Forall (fun d => is_device d = true) devices ->
  list_gpus (run_cmd (print_lines (map device_line devices)))
  = Ok (map device_entry devices).
Proof.
  intros H.
  destruct devices as [|d devices]; [reflexivity|].
  assert (Hclean : Forall (fun line => (without LF line = true
                                        /\ without CR line = true)
                                       /\ starts_clean line = true
                                       /\ ends_clean line = true)
                     (map device_line (d :: devices))).
  { apply Forall_map. revert H. apply Forall_impl. exact device_line_clean. }
  assert (Hback : run_cmd (print_lines (map device_line (d :: devices)))
                  = map device_line (d :: devices)).
  { unfold run_cmd. rewrite universal_newlines_none;
      [|apply print_lines_without; [reflexivity|];
        revert Hclean; apply Forall_impl; tauto].
    rewrite strip_printed.
    - apply split_join; [discriminate|].
      revert Hclean. apply Forall_impl. tauto.
    - inversion Hclean as [|? ? Hd _]; subst. apply Hd.
    - rewrite Forall_forall in Hclean.
      apply (Hclean (last (map device_line (d :: devices)) "")).
      destruct (exists_last (l := map device_line (d :: devices)) ltac:(discriminate))
        as [l' [x E]].
      rewrite E, last_last. apply in_or_app. right. now left. }
  rewrite Hback. exact (list_gpus_loop_listing (d :: devices) H []).
Qed.

Lemma list_gpus_of_output_witness :
  list_gpus
    (run_cmd (print_lines ["GPU 0: NVIDIA RTX 9999 (UUID: GPU-abcd-1234)";
                           "GPU 1: NVIDIA RTX 9999 (UUID: GPU-abcd-5678)"]))
  = Ok [{| device_id := 0; model := "NVIDIA RTX 9999"; uuid := "GPU-abcd-1234" |};
        {| device_id := 1; model := "NVIDIA RTX 9999"; uuid := "GPU-abcd-5678" |}].
Proof.
  apply (list_gpus_of_output
           [(0%N, "NVIDIA RTX 9999", "GPU-abcd-1234");
            (1%N, "NVIDIA RTX 9999", "GPU-abcd-5678")]).
  repeat constructor.
Defined.

